(** * poethepoet: options schema, config merge and validation, sequence and
    switch tasks.

    A shallow embedding of [poethepoet/options.py], [poethepoet/config.py],
    [poethepoet/task/sequence.py] and [poethepoet/task/switch.py].

    Python values are an inductive type, Python dicts are insertion-ordered
    association lists, exceptions are the [Raise] branch of a result type,
    and mutable run state is threaded explicitly. *)

From Stdlib Require Import ZArith String Ascii List Bool Lia.
From stdpp Require Import base tactics option list strings pretty gmap fin_maps.

Set Warnings "-register-all".
Local Open Scope string_scope.
Local Open Scope Z_scope.

(** ** Python values *)

(** The values a TOML or JSON document can hold, plus [PObj] for an opaque
    object (a bound method, a class) known only by its name.  Floats are not
    modelled.  A string is the sequence of its code points, each of them
    below 256. *)
Inductive pyval : Type :=
| PNone
| PBool (b : bool)
| PInt (n : Z)
| PStr (s : string)
| PList (items : list pyval)
| PDict (entries : list (string * pyval))
| PObj (ident : string).

(** [bool(v)] *)
Definition truthy (v : pyval) : bool :=
  match v with
  | PNone => false
  | PBool b => b
  | PInt n => negb (n =? 0)
  | PStr s => negb (String.eqb s "")
  | PList l => match l with [] => false | _ => true end
  | PDict d => match d with [] => false | _ => true end
  | PObj _ => true
  end.

(** [v == s] for a string literal [s]: only a [str] equals a [str]. *)
Definition eq_str (v : pyval) (s : string) : bool :=
  match v with
  | PStr s' => String.eqb s' s
  | _ => false
  end.

(** What a hashable value is as a dict key.  [bool] is a subclass of [int]:
    [True] and [1] (and [False] and [0]) are equal and hash alike, so they
    are one key.  Lists and dicts are unhashable. *)
Inductive hkey : Type :=
| HNone
| HInt (n : Z)
| HStr (s : string)
| HObj (ident : string).

#[global] Instance hkey_eq_dec : EqDecision hkey.
Proof. solve_decision. Defined.

Definition key_of (v : pyval) : option hkey :=
  match v with
  | PNone => Some HNone
  | PBool b => Some (HInt (if b then 1 else 0))
  | PInt n => Some (HInt n)
  | PStr s => Some (HStr s)
  | PObj s => Some (HObj s)
  | PList _ | PDict _ => None
  end.

Definition hashable (v : pyval) : bool :=
  match key_of v with Some _ => true | None => false end.

(** [a == b] when one side at least is a scalar: a list or a dict equals no
    scalar. *)
Definition eq_scalar (a b : pyval) : bool :=
  match key_of a, key_of b with
  | Some x, Some y => bool_decide (x = y)
  | _, _ => false
  end.

(** [v in (e1, ..., en)] for scalars [e1 ... en]. *)
Definition in_tuple (v : pyval) (items : list pyval) : bool :=
  existsb (eq_scalar v) items.

(** ** Exceptions and results *)

Inductive pyexn : Type :=
| PoeException (msg : string)
| PoeExceptionFrom (msg : string) (cause : pyexn)
| ExecutionError (msg : string)
| KeyError (arg : string)
| NameError (name : string)
| TypeError (msg : string)
| AttributeError (attr : string)
| IndexError
| AssertionError
| TOMLDecodeError (msg : string)
| JSONDecodeError (msg : string).

Inductive result (A : Type) : Type :=
| Return (a : A)
| Raise (e : pyexn).
Arguments Return {A} a.
Arguments Raise {A} e.

#[global] Instance result_ret : MRet result := fun A a => Return a.
#[global] Instance result_bind : MBind result := fun A B f m =>
  match m with
  | Return a => f a
  | Raise e => Raise e
  end.

(** A configuration error is a [PoeException], with or without a cause. *)
Definition is_config_error (e : pyexn) : bool :=
  match e with
  | PoeException _ | PoeExceptionFrom _ _ => true
  | _ => false
  end.

(** [repr(s)] of a string; exact for strings of printable characters
    holding neither a quote nor a backslash. *)
Definition repr_str (s : string) : string := "'" +:+ s +:+ "'".

(** [sep.join(parts)] *)
Fixpoint join (sep : string) (parts : list string) : string :=
  match parts with
  | [] => ""
  | [p] => p
  | p :: rest => p +:+ sep +:+ join sep rest
  end.

(** [repr(v)] *)
Fixpoint repr (v : pyval) : string :=
  match v with
  | PNone => "None"
  | PBool b => if b then "True" else "False"
  | PInt n => pretty n
  | PStr s => repr_str s
  | PList l => "[" +:+ join ", " (List.map repr l) +:+ "]"
  | PDict d =>
      "{" +:+ join ", " (List.map (fun kv => repr_str (fst kv) +:+ ": " +:+ repr (snd kv)) d)
          +:+ "}"
  | PObj s => "<" +:+ s +:+ ">"
  end.

(** [str(v)], as an f-string formats a value. *)
Definition py_str (v : pyval) : string :=
  match v with
  | PStr x => x
  | _ => repr v
  end.

(** [repr(type(v))] *)
Definition repr_type (v : pyval) : string :=
  "<class '" +:+
  match v with
  | PNone => "NoneType" | PBool _ => "bool" | PInt _ => "int" | PStr _ => "str"
  | PList _ => "list" | PDict _ => "dict" | PObj s => s
  end +:+ "'>".

(** ** Python dicts: insertion-ordered association lists *)

Section Dict.
Context {V : Type}.

Fixpoint dict_get (k : string) (d : list (string * V)) : option V :=
  match d with
  | [] => None
  | (k', v) :: rest => if String.eqb k k' then Some v else dict_get k rest
  end.

Definition dict_has (k : string) (d : list (string * V)) : bool :=
  match dict_get k d with Some _ => true | None => false end.

(** [d[k] = v]: an existing key keeps its position. *)
Fixpoint dict_set (k : string) (v : V) (d : list (string * V)) : list (string * V) :=
  match d with
  | [] => [(k, v)]
  | (k', v') :: rest =>
      if String.eqb k k' then (k', v) :: rest else (k', v') :: dict_set k v rest
  end.

(** [d.update(other)] for a mapping [other]. *)
Definition dict_update (d other : list (string * V)) : list (string * V) :=
  fold_left (fun acc kv => dict_set (fst kv) (snd kv) acc) other d.

Definition dict_keys (d : list (string * V)) : list string := map fst d.

(** [d.get(key, default)] *)
Definition dict_get_default (d : list (string * V)) (key : string) (default : V) : V :=
  match dict_get key d with Some v => v | None => default end.
End Dict.

(** [key in container] for a string [key]. *)
Definition contains (container : pyval) (key : string) : result bool :=
  match container with
  | PDict d => Return (dict_has key d)
  | PStr s => Return (match String.index 0 key s with Some _ => true | None => false end)
  | PList l => Return (existsb (fun v => eq_str v key) l)
  | _ => Raise (TypeError "argument is not iterable")
  end.

(** [container[key]] for a string [key]. *)
Definition getitem (container : pyval) (key : string) : result pyval :=
  match container with
  | PDict d =>
      match dict_get key d with
      | Some v => Return v
      | None => Raise (KeyError key)
      end
  | PStr _ | PList _ => Raise (TypeError "indices must be integers")
  | _ => Raise (TypeError "object is not subscriptable")
  end.

(** Iterating a value: a dict yields its keys, a string its characters. *)
Definition iterate (v : pyval) : result (list pyval) :=
  match v with
  | PDict d => Return (List.map PStr (dict_keys d))
  | PList l => Return l
  | PStr s => Return (List.map (fun c => PStr (String c EmptyString)) (list_ascii_of_string s))
  | _ => Raise (TypeError "object is not iterable")
  end.

(** Dicts keyed by arbitrary hashable values, such as the dispatch table of
    a switch.  The first key inserted for a hash class stays. *)
Section KeyedDict.
Context {V : Type}.

Fixpoint keyed_get (k : pyval) (d : list (pyval * V)) : option V :=
  match d with
  | [] => None
  | (k', v) :: rest => if eq_scalar k k' then Some v else keyed_get k rest
  end.

Fixpoint keyed_set (k : pyval) (v : V) (d : list (pyval * V)) : list (pyval * V) :=
  match d with
  | [] => [(k, v)]
  | (k', v') :: rest =>
      if eq_scalar k k' then (k', v) :: rest else (k', v') :: keyed_set k v rest
  end.

(** [d[k] = v] *)
Definition keyed_setitem (k : pyval) (v : V) (d : list (pyval * V))
  : result (list (pyval * V)) :=
  if hashable k then Return (keyed_set k v d)
  else Raise (TypeError "unhashable type").
End KeyedDict.

(** ** options.py *)

Module Options.

(** Type annotations as they appear on the option classes. [TUnion] holds
    the members that [typing.get_args] returns (a union is already
    flattened when it is built). *)
Inductive pytype : Type :=
| TStr | TInt | TBool | TDict | TList | TNoneType
| TAny
| TType
| TGenDict (k v : pytype)
| TGenMapping (k v : pytype)
| TGenMutableMapping (k v : pytype)
| TGenList (a : pytype)
| TGenSequence (a : pytype)
| TUnion (members : list pytype).

(** [typing.get_origin] as far as [type_of] tells origins apart. *)
Inductive origin : Type :=
| OUnion | ODict | OMapping | OMutableMapping | OList | OSequence | ONone.

Definition get_origin (t : pytype) : origin :=
  match t with
  | TUnion _ => OUnion
  | TGenDict _ _ => ODict
  | TGenMapping _ _ => OMapping
  | TGenMutableMapping _ _ => OMutableMapping
  | TGenList _ => OList
  | TGenSequence _ => OSequence
  | _ => ONone
  end.

Definition get_args (t : pytype) : list pytype :=
  match t with
  | TUnion ms => ms
  | TGenDict k v | TGenMapping k v | TGenMutableMapping k v => [k; v]
  | TGenList a | TGenSequence a => [a]
  | _ => []
  end.

(** What [type_of] returns: one type, or the tuple of a union's members. *)
Inductive type_check : Type :=
| One (t : pytype)
| Tuple (ts : list pytype).

(** [t()]: calling a type with no argument.  Subscripted generics, [Any]
    and unions cannot be instantiated. *)
Definition construct (t : pytype) : result pyval :=
  match t with
  | TStr => Return (PStr "")
  | TInt => Return (PInt 0)
  | TBool => Return (PBool false)
  | TDict => Return (PDict [])
  | TList => Return (PList [])
  | TNoneType => Return PNone
  | _ => Raise (TypeError "type cannot be instantiated")
  end.

(** [isinstance(v, t)] for a single [t].  [bool] is a subclass of [int];
    subscripted generics and [Any] refuse instance checks. *)
Definition isinstance1 (v : pyval) (t : pytype) : result bool :=
  match t with
  | TStr => Return (match v with PStr _ => true | _ => false end)
  | TInt => Return (match v with PInt _ | PBool _ => true | _ => false end)
  | TBool => Return (match v with PBool _ => true | _ => false end)
  | TDict => Return (match v with PDict _ => true | _ => false end)
  | TList => Return (match v with PList _ => true | _ => false end)
  | TNoneType => Return (match v with PNone => true | _ => false end)
  | TType => Return (match v with PObj _ => true | _ => false end)
  | _ => Raise (TypeError "cannot be used with isinstance()")
  end.

(** [isinstance(v, (t1, ..., tn))]: members are tried left to right and
    the first match answers, so a later member that refuses the check is
    only reached when the earlier ones do not match. *)
Fixpoint isinstance_any (v : pyval) (ts : list pytype) : result bool :=
  match ts with
  | [] => Return false
  | t :: rest =>
      b ← isinstance1 v t;
      if b : bool then Return true else isinstance_any v rest
  end.

Definition isinstance (v : pyval) (c : type_check) : result bool :=
  match c with
  | One t => isinstance1 v t
  | Tuple ts => isinstance_any v ts
  end.

(** A class: its name, its direct bases, its [__annotations__] (the
    annotations of its own body: since Python 3.10 a class never sees its
    parent's; [None] for a class without the attribute, such as [object])
    and the rest of its body (literal defaults, methods). *)
Inductive pyclass : Type :=
  PyClass {
    cls_name : string;
    cls_bases : list pyclass;
    cls_annotations : option (list (string * pytype));
    cls_dict : list (string * pyval) }.

(** The class and its ancestors, depth first; the method resolution order
    of a single-inheritance hierarchy. *)
Fixpoint ancestors (c : pyclass) : list pyclass :=
  match c with
  | PyClass _ bases _ _ =>
      c :: (fix go (bs : list pyclass) : list pyclass :=
              match bs with
              | [] => []
              | b :: bs' => (ancestors b ++ go bs')%list
              end) bases
  end.

(** Attributes set on class objects at run time, by class name and
    attribute name.  [get_fields] is the only writer. *)
Definition store : Type := list (string * string * list (string * pytype)).

Definition store_get (c attr : string) (st : store) : option (list (string * pytype)) :=
  snd <$> List.find (fun e => String.eqb (fst (fst e)) c && String.eqb (snd (fst e)) attr) st.

Definition store_set (c attr : string) (v : list (string * pytype)) (st : store) : store :=
  (c, attr, v) ::
  List.filter (fun e => negb (String.eqb (fst (fst e)) c && String.eqb (snd (fst e)) attr)) st.

(** [hasattr(cls, attr)] *)
Definition cls_hasattr (st : store) (c : pyclass) (attr : string) : bool :=
  existsb (fun a => dict_has attr (cls_dict a)
                    || match store_get (cls_name a) attr st with Some _ => true | None => false end)
          (ancestors c).

(** Reading a run-time attribute of a class through its ancestors. *)
Definition cls_getattr (st : store) (c : pyclass) (attr : string)
  : result (list (string * pytype)) :=
  match omap (fun a => store_get (cls_name a) attr st) (ancestors c) with
  | v :: _ => Return v
  | [] => Raise (AttributeError attr)
  end.

Definition startswith (pre s : string) : bool := String.prefix pre s.

(** [cls.__annotations__] *)
Definition annotations_of (c : pyclass) : result (list (string * pytype)) :=
  match cls_annotations c with
  | Some a => Return a
  | None => Raise (AttributeError "__annotations__")
  end.

(** [for base_cls in bases: annotations.update(base_cls.__annotations__)] *)
Fixpoint update_from_bases (annotations : list (string * pytype)) (bases : list pyclass)
  : result (list (string * pytype)) :=
  match bases with
  | [] => Return annotations
  | base_cls :: rest =>
      a ← annotations_of base_cls;
      update_from_bases (dict_update annotations a) rest
  end.

(** The dict [get_fields] builds when nothing is cached. *)
Definition collect_fields (c : pyclass) : result (list (string * pytype)) :=
  annotations ← update_from_bases [] (cls_bases c);
  own ← annotations_of c;
  let annotations := dict_update annotations own in
  Return (List.filter (fun kv => negb (startswith "_" (fst kv))) annotations).

(** Inside [class PoeOptions] the identifier [__annotations] is mangled to
    [_PoeOptions__annotations]; the string given to [hasattr] is not. *)
Definition mangled : string := "_PoeOptions__annotations".

Definition get_fields (c : pyclass) (st : store)
  : result (list (string * pytype)) * store :=
  if negb (cls_hasattr st c "__annotations") then
    match collect_fields c with
    | Return fs =>
        let st' := store_set (cls_name c) mangled fs st in
        (cls_getattr st' c mangled, st')
    | Raise e => (Raise e, st)
    end
  else (cls_getattr st c mangled, st).

(** The functions below read the fields of a class through
    [collect_fields]: [get_fields] never finds its cache (lemma
    [get_fields_value]) and so always returns that value. *)

(** [keyword.iskeyword] *)
Definition kwlist : list string :=
  ["False"; "None"; "True"; "and"; "as"; "assert"; "async"; "await";
   "break"; "class"; "continue"; "def"; "del"; "elif"; "else"; "except";
   "finally"; "for"; "from"; "global"; "if"; "import"; "in"; "is";
   "lambda"; "nonlocal"; "not"; "or"; "pass"; "raise"; "return"; "try";
   "while"; "with"; "yield"].

Definition iskeyword (s : string) : bool := existsb (String.eqb s) kwlist.

Definition normalize_key (key : string) : string :=
  if iskeyword key then key +:+ "_" else key.

(** The body of [class PoeOptions]. *)
Definition PoeOptions_class : pyclass :=
  {| cls_name := "PoeOptions";
     cls_bases := [ {| cls_name := "object"; cls_bases := [];
                       cls_annotations := None; cls_dict := [] |} ];
     cls_annotations := Some [(mangled, TGenDict TStr TType)];
     cls_dict := [("__init__", PObj "PoeOptions.__init__");
                  ("get", PObj "PoeOptions.get");
                  ("is_set", PObj "PoeOptions.is_set");
                  ("update", PObj "PoeOptions.update");
                  ("type_of", PObj "PoeOptions.type_of");
                  ("get_fields", PObj "PoeOptions.get_fields")] |}.

(** Attributes every instance has besides those of the class bodies: the
    ones inherited from [object] (as of Python 3.10), and the mangled cache
    attribute that [get_fields] has set on the class by the time an
    instance exists. *)
Definition object_attrs : list string :=
  ["__class__"; "__delattr__"; "__dict__"; "__dir__"; "__doc__"; "__eq__";
   "__format__"; "__ge__"; "__getattribute__"; "__gt__"; "__hash__";
   "__init_subclass__"; "__le__"; "__lt__"; "__module__"; "__ne__";
   "__new__"; "__reduce__"; "__reduce_ex__"; "__repr__"; "__setattr__";
   "__sizeof__"; "__str__"; "__subclasshook__"; "__weakref__";
   "__annotations__"; mangled].

(** An instance: its class and its [__dict__]. *)
Record PoeOptions : Type := {
  options_class : pyclass;
  options_dict : list (string * pyval) }.

(** Class-level lookup through the ancestors. *)
Definition class_attr (c : pyclass) (key : string) : option pyval :=
  match omap (fun a => dict_get key (cls_dict a)) (ancestors c) with
  | v :: _ => Some v
  | [] => None
  end.

(** [getattr(self, key, NoValue)]; [None] stands for the [NoValue]
    sentinel. *)
Definition lookup_attr (self : PoeOptions) (key : string) : option pyval :=
  match dict_get key (options_dict self) with
  | Some v => Some v
  | None =>
      match class_attr (options_class self) key with
      | Some v => Some v
      | None => if existsb (String.eqb key) object_attrs then Some (PObj key) else None
      end
  end.

Definition hasattr (self : PoeOptions) (key : string) : bool :=
  match lookup_attr self key with Some _ => true | None => false end.

(** [getattr(self, key, default)] *)
Definition getattr (self : PoeOptions) (key : string) (default : option pyval)
  : option pyval :=
  match lookup_attr self key with
  | Some v => Some v
  | None => default
  end.

(** [PoeOptions.__init__] *)
Fixpoint bind_fields (keys : list string) (options_dict : pyval)
         (acc : list (string * pyval)) : result (list (string * pyval)) :=
  match keys with
  | [] => Return acc
  | key :: rest =>
      present ← contains options_dict key;
      if present : bool then
        v ← getitem options_dict key;
        bind_fields rest options_dict (dict_set key v acc)
      else bind_fields rest options_dict acc
  end.

Definition init (c : pyclass) (options_dict : pyval) : result PoeOptions :=
  fs ← collect_fields c;
  d ← bind_fields (dict_keys fs) options_dict [];
  Return {| options_class := c; options_dict := d |}.

(** [PoeOptions.type_of] *)
Definition type_of (c : pyclass) (key : string) : result type_check :=
  annotations ← collect_fields c;
  let key := normalize_key key in
  match dict_get key annotations with
  | None => Raise (KeyError key)
  | Some result =>
      match get_origin result with
      | OUnion => Return (Tuple (get_args result))
      | ODict | OMapping | OMutableMapping => Return (One TDict)
      | OList | OSequence => Return (One TList)
      | ONone => Return (One result)
      end
  end.

(** [PoeOptions.get]; [default = None] is a call without [default]. *)
Definition get (self : PoeOptions) (key : string) (default : option pyval)
  : result pyval :=
  let key := normalize_key key in
  declared ←
    (if hasattr self key then Return true
     else fs ← collect_fields (options_class self); Return (dict_has key fs));
  if negb declared then
    Raise (KeyError (cls_name (options_class self) +:+ " has no such attribute "
                     +:+ repr_str key))
  else
    match getattr self key default with
    | None =>
        type_of_attr ← type_of (options_class self) key;
        match type_of_attr with
        | Tuple ts =>
            match ts with
            | t0 :: _ => construct t0
            | [] => Raise IndexError
            end
        | One t => construct t
        end
    | Some result => Return result
    end.

(** [PoeOptions.is_set] *)
Definition is_set (self : PoeOptions) (key : string) : bool :=
  match getattr self key None with Some _ => true | None => false end.

End Options.

(** ** config.py *)

Module Config.
Import Options.

(** [ProjectConfig.ConfigOptions] *)
Definition ProjectConfig_ConfigOptions : pyclass :=
  {| cls_name := "ProjectConfig.ConfigOptions";
     cls_bases := [PoeOptions_class];
     cls_annotations := Some
       [("default_task_type", TStr);
        ("default_array_task_type", TStr);
        ("default_array_item_task_type", TStr);
        ("env", TGenMapping TStr TStr);
        ("envfile", TUnion [TStr; TGenSequence TStr]);
        ("executor", TGenMapping TStr TStr);
        ("include", TUnion [TStr; TGenSequence TStr; TGenMapping TStr TStr]);
        ("poetry_command", TStr);
        ("poetry_hooks", TGenMapping TStr TStr);
        ("shell_interpreter", TUnion [TStr; TGenSequence TStr]);
        ("verbosity", TInt);
        ("tasks", TGenMapping TStr TAny)];
     cls_dict :=
       [("default_task_type", PStr "cmd");
        ("default_array_task_type", PStr "sequence");
        ("default_array_item_task_type", PStr "ref");
        ("shell_interpreter", PStr "posix");
        ("verbosity", PInt 0)] |}.

(** [IncludedConfig.ConfigOptions] *)
Definition IncludedConfig_ConfigOptions : pyclass :=
  {| cls_name := "IncludedConfig.ConfigOptions";
     cls_bases := [PoeOptions_class];
     cls_annotations := Some
       [("env", TGenDict TStr TStr);
        ("envfile", TUnion [TStr; TGenList TStr]);
        ("tasks", TGenDict TStr TAny)];
     cls_dict := [] |}.

Section WithPaths.
(** [pathlib.Path] and the file system behind it. *)
Context {path : Type} (path_str : path → string).

Record ConfigPartition : Type := {
  ConfigOptions : pyclass;
  options : PoeOptions;
  full_config : pyval;
  poe_options : pyval;
  cfg_path : option path }.

(** [ConfigPartition.__init__]; the [cwd] argument is not stored. *)
Definition ConfigPartition_init (cls : pyclass) (full_config : pyval)
           (cwd : pyval) (p : option path) : result ConfigPartition :=
  has_tool ← contains full_config "tool";
  poe_options ←
    (if has_tool : bool
     then tool ← getitem full_config "tool"; getitem tool "poe"
     else getitem full_config "tool.poe");
  opts ← Options.init cls poe_options;
  Return {| ConfigOptions := cls; options := opts; full_config := full_config;
            poe_options := poe_options; cfg_path := p |}.

Definition ProjectConfig := ConfigPartition_init ProjectConfig_ConfigOptions.
Definition IncludedConfig := ConfigPartition_init IncludedConfig_ConfigOptions.

(** [ConfigPartition.get] *)
Definition partition_get (self : ConfigPartition) (key : string)
           (default : option pyval) : result pyval :=
  Options.get (options self) key default.

(** [ConfigPartition.is_option_type_valid] *)
Definition is_option_type_valid (self : ConfigPartition) (key : string)
  : result bool :=
  value ← Options.get (options self) key (Some PNone);
  expected_type ← Options.type_of (options_class (options self)) key;
  isinstance value expected_type.

Record PoeConfig : Type := {
  cwd : path;
  _project_config : ConfigPartition;
  _included_config : list ConfigPartition;
  _config_name : string;
  _project_dir : path }.

(** [PoeConfig.__init__] *)
Definition PoeConfig_init (cwd : path) (table : option pyval) (config_name : string)
  : result PoeConfig :=
  let table_or_empty :=
    match table with
    | Some t => if truthy t then t else PDict []
    | None => PDict []
    end in
  pc ← ProjectConfig (PDict [("tool.poe", table_or_empty)]) (PStr (path_str cwd)) None;
  Return {| cwd := cwd; _project_config := pc; _included_config := [];
            _config_name := config_name; _project_dir := cwd |}.

(** [PoeConfig.project_dir] *)
Definition project_dir (self : PoeConfig) : string := path_str (_project_dir self).

(** [result.update(other)].  A tasks table is a mapping; an empty
    sequence or string updates nothing, anything else is refused (a
    sequence of key-value pairs, which Python would also take, is not
    modelled). *)
Definition update (res : list (string * pyval)) (other : pyval)
  : result (list (string * pyval)) :=
  match other with
  | PDict o => Return (dict_update res o)
  | PList [] | PStr EmptyString => Return res
  | _ => Raise (TypeError "cannot convert dictionary update sequence")
  end.

Fixpoint update_all (res : list (string * pyval)) (configs : list ConfigPartition)
  : result (list (string * pyval)) :=
  match configs with
  | [] => Return res
  | config :: rest =>
      t ← partition_get config "tasks" None;
      res ← update res t;
      update_all res rest
  end.

(** [PoeConfig.tasks] *)
Definition tasks (self : PoeConfig) : result (list (string * pyval)) :=
  res ← update_all [] (rev (_included_config self));
  t ← partition_get (_project_config self) "tasks" None;
  update res t.

(** [PoeConfig.executor] *)
Definition executor (self : PoeConfig) : result pyval :=
  partition_get (_project_config self) "executor"
                (Some (PDict [("type", PStr "auto")])).

(** Attribute access on the options object, as in
    [self._project_config.options.verbosity]. *)
Definition option_attr (self : PoeConfig) (name : string) : result pyval :=
  match lookup_attr (options (_project_config self)) name with
  | Some v => Return v
  | None => Raise (AttributeError name)
  end.

Definition default_task_type self := option_attr self "default_task_type".
Definition default_array_task_type self := option_attr self "default_array_task_type".
Definition default_array_item_task_type self :=
  option_attr self "default_array_item_task_type".
Definition verbosity self := option_attr self "verbosity".

(** [PoeConfig.global_env] *)
Definition global_env (self : PoeConfig) : result pyval :=
  partition_get (_project_config self) "env" None.

(** [PoeConfig.shell_interpreter] *)
Definition shell_interpreter (self : PoeConfig) : result (list pyval) :=
  raw_value ← option_attr self "shell_interpreter";
  match raw_value with
  | PList l => Return l
  | _ => Return [raw_value]
  end.

Definition KNOWN_SHELL_INTERPRETERS : list string :=
  ["posix"; "sh"; "bash"; "zsh"; "fish"; "pwsh"; "powershell"; "python"].

(** *** Validation *)

(** The content shapes a task kind can declare. *)
Inductive content_type : Type := ContentStr | ContentList.

(** Collaborators that live outside these files:
    [PoeExecutor.validate_config], [PoeTask.is_task_type] and
    [PoeTask.validate_def]. *)
Context (validate_config : pyval → option string)
        (is_task_type : pyval → option content_type → bool)
        (validate_def : string → pyval → PoeConfig → option string).

(** [set(raw_poe_config) - set(supported_options)], in iteration order. *)
Definition unsupported_keys (raw : pyval) (supported : list string)
  : result (list pyval) :=
  items ← iterate raw;
  if forallb hashable items
  then Return (List.filter (fun v => negb (existsb (eq_str v) supported)) items)
  else Raise (TypeError "unhashable type").

(** The name [option_type] that the type-check message formats is bound
    nowhere: it is no local of [_validate_config], no global of
    config.py and no builtin. *)
Definition option_type : result pyval := Raise (NameError "option_type").

(** The loop over [supported_options.keys()]. *)
Fixpoint validate_option_types (self : PoeConfig) (raw_poe_config : pyval)
         (keys : list string) : result unit :=
  match keys with
  | [] => Return ()
  | key :: rest =>
      present ← contains raw_poe_config key;
      invalid ←
        (if present : bool
         then valid ← is_option_type_valid (_project_config self) key;
              Return (negb valid)
         else Return false);
      if invalid : bool then
        t ← option_type;
        Raise (PoeException ("Unsupported value for option " +:+ repr_str key
                             +:+ ", expected type to match " +:+ repr t +:+ "."))
      else validate_option_types self raw_poe_config rest
  end.

(** The loop over [self.global_env.items()]. *)
Fixpoint validate_env (items : list (string * pyval)) : result unit :=
  match items with
  | [] => Return ()
  | (key, value) :: rest =>
      match value with
      | PDict d =>
          if negb (bool_decide (dict_keys d = ["default"]))
             || negb (match dict_get "default" d with
                      | Some (PStr _) => true
                      | _ => false
                      end)
          then Raise (PoeException ("Invalid declaration at " +:+ repr_str key
                                    +:+ " in option `env`: " +:+ repr value))
          else validate_env rest
      | PStr _ => validate_env rest
      | _ => Raise (PoeException ("Value of " +:+ repr_str key
                                  +:+ " in option `env` should be a string, but found "
                                  +:+ repr_type value))
      end
  end.

(** The loop over [self.tasks.items()]. *)
Fixpoint validate_tasks (self : PoeConfig) (items : list (string * pyval))
  : result unit :=
  match items with
  | [] => Return ()
  | (task_name, task_def) :: rest =>
      match validate_def task_name task_def self with
      | None => validate_tasks self rest
      | Some error => Raise (PoeException error)
      end
  end.

(** The loop over [self.shell_interpreter]. *)
Fixpoint validate_interpreters (interpreters : list pyval) : result unit :=
  match interpreters with
  | [] => Return ()
  | interpreter :: rest =>
      if negb (existsb (eq_str interpreter) KNOWN_SHELL_INTERPRETERS)
      then Raise (PoeException ("Unsupported value " +:+ repr interpreter
                                +:+ " for option `shell_interpreter`."))
      else validate_interpreters rest
  end.

(** A value used as a number in a comparison. *)
Definition as_int (v : pyval) : result Z :=
  match v with
  | PInt n => Return n
  | PBool b => Return (if b then 1 else 0)
  | _ => Raise (TypeError "'<' not supported")
  end.

(** [.items()] of a value that should be a dict. *)
Definition items_of (v : pyval) : result (list (string * pyval)) :=
  match v with
  | PDict d => Return d
  | _ => Raise (AttributeError "items")
  end.

(** [PoeConfig._validate_config] *)
Definition _validate_config (self : PoeConfig) : result unit :=
  supported_options ← collect_fields (ConfigOptions (_project_config self));
  let raw_poe_config := poe_options (_project_config self) in
  (* Validate keys *)
  unsupported ← unsupported_keys raw_poe_config (dict_keys supported_options);
  if negb (bool_decide (unsupported = [])) then
    Raise (PoeException ("Unsupported keys in poe config: {"
                         +:+ join ", " (List.map repr unsupported) +:+ "}"))
  else
  (* Validate types of option values *)
  validate_option_types self raw_poe_config (dict_keys supported_options);;
  (* Validate executor config *)
  ex ← executor self;
  match validate_config ex with
  | Some error => Raise (PoeException error)
  | None =>
  dtt ← default_task_type self;
  if negb (is_task_type dtt (Some ContentStr)) then
    Raise (PoeException ("Unsupported value for option `default_task_type` "
                         +:+ repr dtt))
  else
  datt ← default_array_task_type self;
  if negb (is_task_type datt (Some ContentList)) then
    Raise (PoeException ("Unsupported value for option `default_array_task_type` "
                         +:+ repr datt))
  else
  daitt ← default_array_item_task_type self;
  if negb (is_task_type daitt None) then
    Raise (PoeException ("Unsupported value for option `default_array_item_task_type` "
                         +:+ repr daitt))
  else
  env ← global_env self;
  env_items ← items_of env;
  validate_env env_items;;
  ts ← tasks self;
  validate_tasks self ts;;
  interpreters ← shell_interpreter self;
  validate_interpreters interpreters;;
  v ← verbosity self;
  n ← as_int v;
  if (n <? -1) || (n >? 2) then
    Raise (PoeException ("Invalid value for option `verbosity`: " +:+ repr v
                         +:+ ". Should be between -1 and 2."))
  else Return ()
  end.

(** [PoeConfig.validate] *)
Definition validate (self : PoeConfig) : result unit := _validate_config self.

(** *** Reading files and loading includes *)

(** What a parser does with the bytes of a file. *)
Inductive parse_outcome : Type :=
| Parsed (v : pyval)
| Malformed (detail : string)
| Crashed.

(** The file system and the two parsers: [base.joinpath(p).resolve()],
    [p.exists()], [p.suffix], the bytes behind [p.open("rb")] ([None]
    when opening fails), [json.load] and [tomli.load]. *)
Context (joinpath_resolve : path → string → path)
        (exists_ : path → bool)
        (suffix : path → string)
        (open_rb : path → option string)
        (json_load tomli_load : string → parse_outcome).

Definition endswith (suf s : string) : bool :=
  let n := String.length s in
  let m := String.length suf in
  (m <=? n)%nat && String.eqb (String.substring (n - m) m s) suf.

(** [PoeConfig._read_config_file] *)
Definition _read_config_file (p : path) : result pyval :=
  match open_rb p with
  | None => Raise (PoeException ("Couldn't open file at " +:+ path_str p))
  | Some file =>
      if endswith ".json" (suffix p) then
        match json_load file with
        | Parsed v => Return v
        | Malformed detail =>
            Raise (PoeExceptionFrom ("Couldn't parse json file from " +:+ path_str p)
                                    (JSONDecodeError detail))
        | Crashed => Raise (PoeException ("Couldn't open file at " +:+ path_str p))
        end
      else
        match tomli_load file with
        | Parsed v => Return v
        | Malformed detail =>
            Raise (PoeExceptionFrom ("Couldn't parse toml file at " +:+ path_str p)
                                    (TOMLDecodeError detail))
        | Crashed => Raise (PoeException ("Couldn't open file at " +:+ path_str p))
        end
  end.

(** The list branch of the normalisation of the [include] option. *)
Fixpoint normalize_include_items (items : list pyval)
  : result (list (list (string * pyval))) :=
  match items with
  | [] => Return []
  | include :: rest =>
      match include with
      | PStr s =>
          includes ← normalize_include_items rest;
          Return ([("path", include)] :: includes)
      | PDict d =>
          if truthy (dict_get_default d "path" PNone)
             && forallb (fun k => String.eqb k "path" || String.eqb k "cwd") (dict_keys d)
          then includes ← normalize_include_items rest; Return (d :: includes)
          else Raise (PoeException ("Invalid item for the include option "
                                    +:+ repr include))
      | _ => Raise (PoeException ("Invalid item for the include option "
                                  +:+ repr include))
      end
  end.

Definition normalize_includes (include_option : pyval)
  : result (list (list (string * pyval))) :=
  match include_option with
  | PStr s => Return [[("path", include_option)]]
  | PDict d => Return [d]
  | PList items => normalize_include_items items
  | _ => Return []
  end.

(** [except (PoeException, KeyError)] *)
Definition caught (e : pyexn) : bool :=
  match e with
  | PoeException _ | PoeExceptionFrom _ _ | KeyError _ => true
  | _ => false
  end.

Definition append_included (self : PoeConfig) (c : ConfigPartition) : PoeConfig :=
  {| cwd := cwd self; _project_config := _project_config self;
     _included_config := _included_config self ++ [c];
     _config_name := _config_name self; _project_dir := _project_dir self |}.

(** The loop that loads each of the included configs.  [self] is
    mutated in place, so the configs appended before an exception stay
    appended. *)
Fixpoint load_included (self : PoeConfig) (includes : list (list (string * pyval)))
  : result unit * PoeConfig :=
  match includes with
  | [] => (Return (), self)
  | include :: rest =>
      match getitem (PDict include) "path" with
      | Raise e => (Raise e, self)
      | Return (PStr p) =>
          let include_path := joinpath_resolve (_project_dir self) p in
          if negb (exists_ include_path) then load_included self rest
          else
            match
              (content ← _read_config_file include_path;
               IncludedConfig content
                              (dict_get_default include "cwd" (PStr (project_dir self)))
                              (Some include_path))
            with
            | Return c => load_included (append_included self c) rest
            | Raise error =>
                if caught error
                then (Raise (PoeExceptionFrom
                               ("Invalid content in included file from "
                                +:+ path_str include_path) error), self)
                else (Raise error, self)
            end
      | Return _ =>
          (Raise (TypeError "expected str, bytes or os.PathLike object"), self)
      end
  end.

(** [PoeConfig._load_includes] *)
Definition _load_includes (self : PoeConfig) : result unit * PoeConfig :=
  match partition_get (_project_config self) "include" (Some PNone) with
  | Raise e => (Raise e, self)
  | Return include_option =>
      match normalize_includes include_option with
      | Raise e => (Raise e, self)
      | Return includes => load_included self includes
      end
  end.

(** [PoeConfig.task_names] *)
Definition task_names (self : PoeConfig) : result (list string) :=
  ts ← tasks self;
  Return (dict_keys ts).

(** [PoeConfig.has_task] *)
Definition has_task (self : PoeConfig) (name : string) : result bool :=
  ts ← tasks self;
  Return (dict_has name ts).

(** *** Finding and loading the project file *)

(** More of [pathlib]: [Path(s).resolve()] for a string, [p.name],
    [p.joinpath(name)], [p.resolve()], [p.parents] and [p.parent]. *)
Context (path_of : string → path)
        (path_name : path → string)
        (joinpath : path → string → path)
        (resolve : path → path)
        (parents : path → list path)
        (parent : path → path).

(** The [while] loop of [find_config_file].  Every turn of the loop moves
    to a parent directory; [fuel] bounds the number of turns, and [None]
    means that the bound was too small. *)
Fixpoint search_parents (fuel : nat) (self : PoeConfig) (maybe_result : path)
  : option (result path) :=
  if exists_ maybe_result then Some (Return maybe_result)
  else if (length (parents maybe_result) =? 1)%nat then
    Some (Raise (PoeException ("Poe could not find a " +:+ _config_name self
                               +:+ " file in " +:+ path_str (cwd self)
                               +:+ " or its parents")))
  else
    match fuel with
    | O => None
    | S fuel =>
        match parents maybe_result !! 1%nat with
        | Some up =>
            search_parents fuel self (resolve (joinpath up (_config_name self)))
        | None => Some (Raise IndexError)
        end
    end.

(** [PoeConfig.find_config_file]; an empty [target_dir] counts as none. *)
Definition find_config_file (fuel : nat) (self : PoeConfig) (target_dir : option string)
  : option (result path) :=
  match target_dir with
  | Some dir =>
      if negb (String.eqb dir "") then
        let target_path := path_of dir in
        let target_path :=
          if negb (endswith ".toml" (path_name target_path)
                   || endswith ".json" (path_name target_path))
          then joinpath target_path (_config_name self)
          else target_path in
        if negb (exists_ target_path) then
          Some (Raise (PoeException ("Poe could not find a " +:+ _config_name self
                                     +:+ " file at the given location: " +:+ dir)))
        else Some (Return target_path)
      else search_parents fuel self (joinpath (cwd self) (_config_name self))
  | None => search_parents fuel self (joinpath (cwd self) (_config_name self))
  end.

Definition with_project_dir (self : PoeConfig) (dir : path) : PoeConfig :=
  {| cwd := cwd self; _project_config := _project_config self;
     _included_config := _included_config self;
     _config_name := _config_name self; _project_dir := dir |}.

Definition with_project_config (self : PoeConfig) (pc : ConfigPartition) : PoeConfig :=
  {| cwd := cwd self; _project_config := pc;
     _included_config := _included_config self;
     _config_name := _config_name self; _project_dir := _project_dir self |}.

(** [PoeConfig.load].  The project directory is assigned before the file
    is read, so it stays assigned when reading fails. *)
Definition load (fuel : nat) (self : PoeConfig) (target_dir : option string)
  : option (result unit * PoeConfig) :=
  match partition_get (_project_config self) "tasks" None with
  | Raise e => Some (Raise e, self)
  | Return table =>
      if truthy table then
        match _included_config self with
        | [] => Some (_load_includes self)
        | _ => Some (Return (), self)
        end
      else
        match find_config_file fuel self target_dir with
        | None => None
        | Some (Raise e) => Some (Raise e, self)
        | Some (Return config_path) =>
            let self := with_project_dir self (parent config_path) in
            match
              (content ← _read_config_file config_path;
               ProjectConfig content (PStr (path_str (_project_dir self)))
                             (Some config_path))
            with
            | Return pc => Some (_load_includes (with_project_config self pc))
            | Raise (KeyError _) =>
                Some (Raise (PoeException ("No poe configuration found in file at "
                                           +:+ _config_name self)), self)
            | Raise e => Some (Raise e, self)
            end
        end
  end.

End WithPaths.
End Config.

(** ** task/base.py, as far as the composite tasks rely on it *)

Module Task.
(** The environment handed to a task: variable names and values. *)
Definition env : Type := list (string * string).

(** A task instance as its parent sees it.  [run] is [PoeTask.run]: given
    extra arguments and the parent's environment it acts on the run
    context (and whatever lies behind it) and returns an exit code or
    raises. *)
Record PoeTask {world : Type} : Type := {
  name : string;
  invocation : list string;
  capture_stdout : pyval;
  run : list string → env → world → result Z * world }.
Arguments PoeTask : clear implicits.

(** [c.isspace()], which decides what [str.strip] removes: among the code
    points below 256 these are the controls 9 to 13 and 28 to 31, the
    space, the next-line control 133 and the no-break space 160. *)
Definition is_space (c : ascii) : bool :=
  let n := nat_of_ascii c in
  ((9 <=? n) && (n <=? 13) || (28 <=? n) && (n <=? 32)
   || (n =? 133) || (n =? 160))%nat.

(** [arg.strip()] is falsy: every character of the argument is white
    space. *)
Fixpoint blank (s : string) : bool :=
  match s with
  | EmptyString => true
  | String c rest => is_space c && blank rest
  end.

(** [any(arg.strip() for arg in extra_args)] *)
Definition any_stripped (extra_args : list string) : bool :=
  existsb (fun arg => negb (blank arg)) extra_args.

(** A task definition as a composite task hands it to a child task type:
    the value as declared, or a dict built around it, whose keys are
    whatever the type resolver returned. *)
Inductive child_def : Type :=
| Declared (task_def : pyval)
| Built (entries : list (pyval * pyval)).

(** [len(v)] *)
Definition len (v : pyval) : result nat :=
  match v with
  | PStr s => Return (String.length s)
  | PList l => Return (length l)
  | PDict d => Return (length d)
  | _ => Raise (TypeError "object has no len()")
  end.
End Task.

(** ** task/sequence.py *)

Module Sequence.
Import Options Task.

(** [SequenceTask.TaskOptions], over the options class of [PoeTask]. *)
Definition TaskOptions (base : pyclass) : pyclass :=
  {| cls_name := "SequenceTask.TaskOptions";
     cls_bases := [base];
     cls_annotations := Some [("ignore_fail", TUnion [TBool; TStr]);
                              ("default_item_type", TStr)];
     cls_dict := [] |}.

(** [SequenceTask._subtask_name] *)
Definition _subtask_name (task_name : string) (index : nat) : string :=
  task_name +:+ "[" +:+ pretty index +:+ "]".

Section WithWorld.
(** The run context with the world behind it, and the child specs and
    [PoeTask.from_spec] of base.py. *)
Context {world task_spec : Type}
        (mark_multistage : world → world)
        (task_spec_name : task_spec → string)
        (from_spec : task_spec → list string → pyval → result (PoeTask world)).

Record TaskSpec : Type := {
  spec_name : string;
  spec_options : PoeOptions;
  spec_subtasks : list task_spec }.

Record SequenceTask : Type := {
  spec : TaskSpec;
  seq_invocation : list string;
  seq_capture_stdout : pyval;
  subtasks : list (PoeTask world);
  get_named_arg_values : env → list (string * string) }.

(** The list comprehension of [__init__]. *)
Fixpoint instantiate_subtasks (sp : TaskSpec) (specs : list task_spec)
  : result (list (PoeTask world)) :=
  match specs with
  | [] => Return []
  | task_spec :: rest =>
      array_item ← Options.get (spec_options sp) "default_item_type" (Some (PBool true));
      t ← from_spec task_spec [task_spec_name task_spec] array_item;
      ts ← instantiate_subtasks sp rest;
      Return (t :: ts)
  end.

(** [SequenceTask.__init__].  The base constructor is called with
    [False] for [capture_stdout] whatever the argument was. *)
Definition init (sp : TaskSpec) (invocation : list string) (capture_stdout : pyval)
           (named_arg_values : env → list (string * string))
  : result SequenceTask :=
  if negb (in_tuple capture_stdout [PBool false; PNone]) then Raise AssertionError
  else
    ts ← instantiate_subtasks sp (spec_subtasks sp);
    Return {| spec := sp; seq_invocation := invocation;
              seq_capture_stdout := PBool false;
              subtasks := ts;
              get_named_arg_values := named_arg_values |}.

(** The loop over [self.subtasks]. *)
Fixpoint run_subtasks (ignore_fail : pyval) (e : env) (ts : list (PoeTask world))
         (non_zero_subtasks : list string) (context : world)
  : result (list string) * world :=
  match ts with
  | [] => (Return non_zero_subtasks, context)
  | subtask :: rest =>
      match run subtask [] e context with
      | (Raise err, context) => (Raise err, context)
      | (Return task_result, context) =>
          if negb (task_result =? 0) && negb (truthy ignore_fail) then
            (Raise (ExecutionError ("Sequence aborted after failed subtask "
                                    +:+ repr_str (name subtask))), context)
          else
            run_subtasks ignore_fail e rest
              (if negb (task_result =? 0)
               then (non_zero_subtasks ++ [name subtask])%list
               else non_zero_subtasks)
              context
      end
  end.

(** [SequenceTask._handle_run] *)
Definition _handle_run (self : SequenceTask) (context : world)
           (extra_args : list string) (e : env) : result Z * world :=
  let named_arg_values := get_named_arg_values self e in
  let e := dict_update e named_arg_values in
  if match named_arg_values with [] => true | _ => false end
     && any_stripped extra_args
  then (Raise (PoeException ("Sequence task " +:+ repr_str (spec_name (spec self))
                             +:+ " does not accept arguments")), context)
  else
    let context :=
      if (1 <? length (subtasks self))%nat then mark_multistage context else context in
    match Options.get (spec_options (spec self)) "ignore_fail" None with
    | Raise err => (Raise err, context)
    | Return ignore_fail =>
        match run_subtasks ignore_fail e (subtasks self) [] context with
        | (Raise err, context) => (Raise err, context)
        | (Return non_zero_subtasks, context) =>
            if match non_zero_subtasks with [] => false | _ => true end
               && eq_str ignore_fail "return_non_zero"
            then (Raise (ExecutionError ("Subtasks " +:+ join ", " non_zero_subtasks
                                         +:+ " returned non-zero exit status")),
                  context)
            else (Return 0, context)
        end
    end.
End WithWorld.

(** *** Specs *)

Section Specs.
(** The task types of base.py.  [key] is the class attribute [__key__];
    [resolve_task_type] (with its optional [array_item]),
    [resolve_task_cls] and [get_task_spec] are class methods of a task
    type; [base_init] is [PoeTask.TaskSpec.__init__], known by the name
    and options it leaves on the spec. *)
Context {task_cls task_spec : Type}
        (key : task_cls → string)
        (base_init : string → list (string * pyval) → task_cls
                     → result (string * PoeOptions))
        (resolve_task_type : task_cls → pyval → option pyval → result pyval)
        (resolve_task_cls : task_cls → pyval → result task_cls)
        (get_task_spec : task_cls → string → child_def → result task_spec).

(** The loop of [TaskSpec.__init__] over the enumerated content. *)
Fixpoint build_subtasks (task_type : task_cls) (name : string) (index : nat)
         (items : list pyval) : result (list task_spec) :=
  match items with
  | [] => Return []
  | sub_task_def :: rest =>
      task_type_key ← resolve_task_type task_type sub_task_def (Some (PBool true));
      subtask_type ← resolve_task_cls task_type task_type_key;
      sub_task_def ←
        match sub_task_def with
        | PDict _ => Return (Declared sub_task_def)
        | _ =>
            entries ← keyed_setitem task_type_key sub_task_def [];
            Return (Built entries)
        end;
      subtask ← get_task_spec subtask_type (_subtask_name name index) sub_task_def;
      subtasks ← build_subtasks task_type name (S index) rest;
      Return (subtask :: subtasks)
  end.

(** [SequenceTask.TaskSpec.__init__] *)
Definition TaskSpec_init (name : string) (task_def : list (string * pyval))
           (task_type : task_cls) : result (@TaskSpec task_spec) :=
  '(n, opts) ← base_init name task_def task_type;
  content ← getitem (PDict task_def) (key task_type);
  items ← iterate content;
  subtasks ← build_subtasks task_type name 0 items;
  Return {| spec_name := n; spec_options := opts; spec_subtasks := subtasks |}.
End Specs.

(** *** Validation *)

Section Validation.
(** [cls.is_task_type(value, content_type=str)], the formatted
    [cls.get_task_types(content_type=str)], [cls.validate_def name
    task_def config anonymous extra_options] and [cls.normalize_task_def
    task_def config array_item] of base.py. *)
Context (is_task_type : pyval → bool)
        (get_task_types : string)
        (validate_def : string → pyval → bool → list string → option string)
        (normalize_task_def : pyval → pyval → result pyval).

(** [if issue:] on an optional string. *)
Definition reported (issue : option string) : bool :=
  match issue with
  | Some msg => negb (String.eqb msg "")
  | None => false
  end.

(** A word between double quotes, as the message about [ignore_fail]
    spells its string values. *)
Definition quoted (word : string) : string :=
  let quote := String (ascii_of_nat 34) EmptyString in
  quote +:+ word +:+ quote.

(** The loop over the enumerated [task_def["sequence"]]. *)
Fixpoint validate_items (task_name : string) (default_item_type : pyval) (index : nat)
         (items : list pyval) : result (option string) :=
  match items with
  | [] => Return None
  | task_item :: rest =>
      match task_item with
      | PDict d =>
          n ← len (dict_get_default d "args" (PList []));
          if negb (n =? 0)%nat then
            Return (Some ("Unsupported option `args` for task declared inside sequence "
                          +:+ "task " +:+ repr_str task_name +:+ "."))
          else
            let subtask_issue :=
              validate_def (_subtask_name task_name index) task_item true [] in
            if reported subtask_issue then Return subtask_issue
            else validate_items task_name default_item_type (S index) rest
      | _ =>
          normalized ←
            normalize_task_def task_item
              (if truthy default_item_type then default_item_type else PBool true);
          let subtask_issue :=
            validate_def (_subtask_name task_name index) normalized true [] in
          if reported subtask_issue then Return subtask_issue
          else validate_items task_name default_item_type (S index) rest
      end
  end.

(** [SequenceTask._validate_task_def] *)
Definition _validate_task_def (task_name : string) (task_def : list (string * pyval))
  : result (option string) :=
  let default_item_type := dict_get_default task_def "default_item_type" PNone in
  if match default_item_type with
     | PNone => false
     | _ => negb (is_task_type default_item_type)
     end then
    Return (Some ("Unsupported value for option `default_item_type` for task "
                  +:+ repr_str task_name +:+ ". Expected one of " +:+ get_task_types))
  else
    let ignore_fail := dict_get_default task_def "ignore_fail" PNone in
    if match ignore_fail with
       | PNone => false
       | _ => negb (in_tuple ignore_fail [PBool true; PBool false; PStr "return_zero";
                                          PStr "return_non_zero"])
       end then
      Return (Some ("Unsupported value for option `ignore_fail` for task "
                    +:+ repr_str task_name
                    +:+ ". Expected one of (true, false, " +:+ quoted "return_zero"
                    +:+ ", " +:+ quoted "return_non_zero" +:+ ")"))
    else
      content ← getitem (PDict task_def) "sequence";
      items ← iterate content;
      validate_items task_name default_item_type 0 items.
End Validation.
End Sequence.

(** ** task/switch.py *)

Module Switch.
Import Options Task.

Definition DEFAULT_CASE : string := "__default__".

(** [SwitchTask.TaskOptions], over the options class of [PoeTask]. *)
Definition TaskOptions (base : pyclass) : pyclass :=
  {| cls_name := "SwitchTask.TaskOptions";
     cls_bases := [base];
     cls_annotations := Some [("control", TUnion [TStr; TDict]); ("default", TStr)];
     cls_dict := [] |}.

(** [SwitchTask.get_case_keys] *)
Definition get_case_keys (task_def : list (string * pyval)) : list pyval :=
  let case_value := dict_get_default task_def "case" (PStr DEFAULT_CASE) in
  match case_value with
  | PList l => l
  | _ => [case_value]
  end.

(** *** Validation *)

Section Validation.
(** [PoeTask.validate_def name task_def config anonymous extra_options] *)
Context (validate_def : string → pyval → bool → list string → option string).

Definition allowed_control_task_types : list string := ["expr"; "cmd"; "script"].

(** [cases[case_key] += 1] on a [defaultdict(int)]. *)
Fixpoint count_key (k : pyval) (cases : list (pyval * nat)) : list (pyval * nat) :=
  match cases with
  | [] => [(k, 1%nat)]
  | (k', n) :: rest =>
      if eq_scalar k k' then (k', S n) :: rest else (k', n) :: count_key k rest
  end.

Fixpoint count_keys (keys : list pyval) (cases : list (pyval * nat))
  : result (list (pyval * nat)) :=
  match keys with
  | [] => Return cases
  | k :: rest =>
      if hashable k then count_keys rest (count_key k cases)
      else Raise (TypeError "unhashable type")
  end.

(** The loop over [("args", "deps")] for one case.  [case_key is
    DEFAULT_CASE] holds when the case has no [case] entry. *)
Definition invalid_option_issue (task_name : string)
           (switch_task : list (string * pyval)) : option string :=
  match List.find (fun o => dict_has o switch_task) ["args"; "deps"] with
  | Some invalid_option =>
      match dict_get "case" switch_task with
      | None =>
          Some ("Default case of switch task " +:+ repr_str task_name
                +:+ " includes invalid option " +:+ repr_str invalid_option)
      | Some case_key =>
          Some ("Case " +:+ repr case_key +:+ " switch task " +:+ repr_str task_name
                +:+ " include invalid option " +:+ repr_str invalid_option)
      end
  | None => None
  end.

(** [if issue:] on an optional string. *)
Definition reported (issue : option string) : bool :=
  match issue with
  | Some msg => negb (String.eqb msg "")
  | None => false
  end.

(** The loop over [task_def["switch"]]: the counts of the case keys, or
    the first issue found. *)
Fixpoint validate_cases (task_name : string) (switch_tasks : list pyval)
         (cases : list (pyval * nat)) : result (option string * list (pyval * nat)) :=
  match switch_tasks with
  | [] => Return (None, cases)
  | switch_task :: rest =>
      match switch_task with
      | PDict d =>
          cases ← count_keys (get_case_keys d) cases;
          let case_key := dict_get_default d "case" (PStr DEFAULT_CASE) in
          match invalid_option_issue task_name d with
          | Some issue => Return (Some issue, cases)
          | None =>
              let switch_task_issue :=
                validate_def (task_name +:+ "[" +:+ py_str case_key +:+ "]")
                             switch_task true ["case"] in
              if reported switch_task_issue then Return (switch_task_issue, cases)
              else validate_cases task_name rest cases
          end
      | _ => Raise (AttributeError "get")
      end
  end.

(** The loop over [cases.items()].  The test [case is DEFAULT_CASE], which
    only picks the wording, is read as equality with the sentinel. *)
Definition repeated_case_issue (task_name : string) (cases : list (pyval * nat))
  : option string :=
  match List.find (fun kc => (1 <? snd kc)%nat) cases with
  | Some (case, _) =>
      if eq_str case DEFAULT_CASE
      then Some ("Switch task " +:+ repr_str task_name
                 +:+ " includes more than one default case")
      else Some ("Switch task " +:+ repr_str task_name
                 +:+ " includes more than one case for " +:+ repr case)
  | None => None
  end.

(** [SwitchTask._validate_task_def] *)
Definition _validate_task_def (task_name : string) (task_def : list (string * pyval))
  : result (option string) :=
  let control_task_def := dict_get_default task_def "control" PNone in
  if negb (truthy control_task_def) then
    Return (Some ("Switch task " +:+ repr_str task_name +:+ " has no control task."))
  else if match control_task_def with
          | PDict c => negb (existsb (fun key => dict_has key c) allowed_control_task_types)
          | _ => false
          end then
    Return (Some ("Control task for " +:+ repr_str task_name
                  +:+ " must have a type that is one of ('expr', 'cmd', 'script')"))
  else
    let control_task_issue :=
      validate_def (task_name +:+ "[control]") control_task_def true [] in
    if reported control_task_issue then Return control_task_issue
    else
      switch ← getitem (PDict task_def) "switch";
      switch_tasks ← iterate switch;
      '(issue, cases) ← validate_cases task_name switch_tasks [];
      match issue with
      | Some _ => Return issue
      | None =>
          match repeated_case_issue task_name cases with
          | Some issue => Return (Some issue)
          | None =>
              match dict_get "default" task_def with
              | Some default =>
                  if negb (in_tuple default [PStr "pass"; PStr "fail"]) then
                    Return (Some ("The 'default' option for switch task "
                                  +:+ repr_str task_name
                                  +:+ " should be one of ('pass', 'fail')"))
                  else if match keyed_get (PStr DEFAULT_CASE) cases with
                          | Some _ => true
                          | None => false
                          end then
                    Return (Some ("Switch task " +:+ repr_str task_name
                                  +:+ " should not have both a default case "
                                  +:+ "and the 'default' option."))
                  else Return None
              | None => Return None
              end
          end
      end.
End Validation.

(** *** Instances *)

Section WithWorld.
(** The run context with the world behind it ([context.dry],
    [context.multistage = True], [context.get_task_output]), and the
    child specs and [PoeTask.from_spec] of base.py. *)
Context {world task_spec : Type}
        (dry : world → bool)
        (mark_multistage : world → world)
        (get_task_output : world → list string → result string)
        (from_spec : task_spec → list string → pyval → result (PoeTask world)).

(** [SwitchTask.TaskSpec]: the attributes its constructor sets, next to
    the name and options that every spec has. *)
Record TaskSpec : Type := {
  spec_name : string;
  spec_options : PoeOptions;
  control_spec : task_spec;
  case_specs : list (list pyval * task_spec) }.

(** [self.spec.control].  The constructor of the spec sets
    [control_spec] and [case_specs]; an attribute [control] can only
    come from [PoeTask.TaskSpec] in base.py, and reading it raises
    [AttributeError] if that class has none. *)
Context (spec_control : TaskSpec → result task_spec).

Record SwitchTask : Type := {
  spec : TaskSpec;
  switch_invocation : list string;
  switch_capture_stdout : pyval;
  control_task : PoeTask world;
  switch_tasks : list (pyval * PoeTask world);
  get_named_arg_values : env → list (string * string) }.

(** [self._print_action(message, dry=..., unresolved=...)] of base.py:
    it reports through the UI, so it acts on the world, and it may
    raise. *)
Context (_print_action : SwitchTask → string → bool → bool → world → result unit * world).

(** The name [name] that the case loop of [__init__] reads is bound
    nowhere: it is no parameter or local of [__init__], no global of
    switch.py and no builtin. *)
Definition unbound_name : result string := Raise (NameError "name").

(** [for case_key in case_keys: self.switch_tasks[case_key] = case_task] *)
Fixpoint register_case (case_keys : list pyval) (case_task : PoeTask world)
         (tasks : list (pyval * PoeTask world)) : result (list (pyval * PoeTask world)) :=
  match case_keys with
  | [] => Return tasks
  | case_key :: rest =>
      tasks ← keyed_setitem case_key case_task tasks;
      register_case rest case_task tasks
  end.

(** The loop over [spec.case_specs.items()]. *)
Fixpoint instantiate_cases (sp : TaskSpec) (invocation : list string)
         (capture_stdout : pyval) (items : list (list pyval * task_spec))
         (tasks : list (pyval * PoeTask world)) : result (list (pyval * PoeTask world)) :=
  match items with
  | [] => Return tasks
  | (case_keys, case_spec) :: rest =>
      name ← unbound_name;
      args ← Options.get (spec_options sp) "args" None;
      let task_invocation :=
        if truthy args then name :: tail invocation else [name] in
      (* [self.options]: the options of the task's spec *)
      capture ← Options.get (spec_options sp) "capture_stdout" (Some capture_stdout);
      case_task ← from_spec case_spec task_invocation capture;
      tasks ← register_case case_keys case_task tasks;
      instantiate_cases sp invocation capture_stdout rest tasks
  end.

(** [SwitchTask.__init__] *)
Definition init (sp : TaskSpec) (invocation : list string) (capture_stdout : pyval)
           (named_arg_values : env → list (string * string)) : result SwitchTask :=
  args ← Options.get (spec_options sp) "args" None;
  let control_invocation :=
    if truthy args then spec_name sp :: tail invocation else [spec_name sp] in
  control ← spec_control sp;
  control_task ← from_spec control control_invocation (PBool true);
  tasks ← instantiate_cases sp invocation capture_stdout (case_specs sp) [];
  Return {| spec := sp; switch_invocation := invocation;
            switch_capture_stdout := PBool false;
            control_task := control_task;
            switch_tasks := tasks;
            get_named_arg_values := named_arg_values |}.

(** [SwitchTask._handle_run] *)
Definition _handle_run (self : SwitchTask) (context : world)
           (extra_args : list string) (e : env) : result Z * world :=
  let named_arg_values := get_named_arg_values self e in
  let e := dict_update e named_arg_values in
  if match named_arg_values with [] => true | _ => false end
     && any_stripped extra_args
  then (Raise (PoeException ("Switch task " +:+ repr_str (spec_name (spec self))
                             +:+ " does not accept arguments")), context)
  else
    let context := mark_multistage context in
    match Options.get (spec_options (spec self)) "args" None with
    | Raise err => (Raise err, context)
    | Return args =>
        match run (control_task self) (if truthy args then extra_args else []) e context
        with
        | (Raise err, context) => (Raise err, context)
        | (Return task_result, context) =>
            if negb (task_result =? 0) then
              (Raise (ExecutionError ("Switch task " +:+ repr_str (spec_name (spec self))
                                      +:+ " aborted after failed control task")),
               context)
            else if dry context then
              match _print_action self "unresolved case for switch task" true true
                                  context with
              | (Raise err, context) => (Raise err, context)
              | (Return _, context) => (Return 0, context)
              end
            else
              match get_task_output context (invocation (control_task self)) with
              | Raise err => (Raise err, context)
              | Return control_task_output =>
                  let case_task :=
                    match keyed_get (PStr control_task_output) (switch_tasks self) with
                    | Some t => Some t
                    | None => keyed_get (PStr DEFAULT_CASE) (switch_tasks self)
                    end in
                  match case_task with
                  | None =>
                      match Options.get (spec_options (spec self)) "default"
                                        (Some (PStr "fail")) with
                      | Raise err => (Raise err, context)
                      | Return default =>
                          if eq_str default "pass" then (Return 0, context)
                          else
                            (Raise (ExecutionError
                                      ("Control value " +:+ repr_str control_task_output
                                       +:+ " did not match any cases in switch task "
                                       +:+ repr_str (spec_name (spec self)) +:+ ".")),
                             context)
                      end
                  | Some case_task => run case_task extra_args e context
                  end
              end
        end
    end.
End WithWorld.

(** *** Specs *)

Section Specs.
(** The task types of base.py: [resolve_task_type] (with its optional
    [array_item]), [resolve_task_cls] and [get_task_spec] are class
    methods of a task type; [base_init] is [PoeTask.TaskSpec.__init__],
    known by the name and options it leaves on the spec. *)
Context {task_cls task_spec : Type}
        (base_init : string → list (string * pyval) → task_cls
                     → result (string * PoeOptions))
        (resolve_task_type : task_cls → pyval → option pyval → result pyval)
        (resolve_task_cls : task_cls → pyval → result task_cls)
        (get_task_spec : task_cls → string → child_def → result task_spec).

(** [{**task_def, "args": switch_args}] *)
Definition with_args (task_def : child_def) (switch_args : pyval) : result child_def :=
  match task_def with
  | Declared (PDict d) => Return (Declared (PDict (dict_set "args" switch_args d)))
  | Declared _ => Raise (TypeError "object is not a mapping")
  | Built entries => Return (Built (keyed_set (PStr "args") switch_args entries))
  end.

(** The loop of [TaskSpec.__init__] over the enumerated cases.  The local
    dict [case_specs] is keyed by whatever [get_case_keys] returns, and
    the right-hand side of the store is evaluated before its key.  The
    loop rebinds [task_type] to the type it resolved. *)
Fixpoint build_cases (task_type : task_cls) (name : string) (switch_args : pyval)
         (index : nat) (items : list pyval) (case_specs : list (pyval * task_spec))
  : result (list (pyval * task_spec)) :=
  match items with
  | [] => Return case_specs
  | case_task_def :: rest =>
      task_type_key ← resolve_task_type task_type case_task_def None;
      task_type ← resolve_task_cls task_type task_type_key;
      case_task_def ←
        (if truthy switch_args
         then with_args (Declared case_task_def) switch_args
         else Return (Declared case_task_def));
      case_spec ←
        get_task_spec task_type (name +:+ "[" +:+ pretty index +:+ "]") case_task_def;
      case_keys ←
        match case_task_def with
        | Declared (PDict d) => Return (PList (get_case_keys d))
        | _ => Raise (AttributeError "get")
        end;
      case_specs ← keyed_setitem case_keys case_spec case_specs;
      build_cases task_type name switch_args (S index) rest case_specs
  end.

(** The members of a stored key: the spec lists each key of
    [case_specs] by its members. *)
Definition key_members (case_keys : pyval) : list pyval :=
  match case_keys with
  | PList members => members
  | _ => []
  end.

(** [SwitchTask.TaskSpec.__init__] *)
Definition TaskSpec_init (name : string) (task_def : list (string * pyval))
           (task_type : task_cls) : result (@TaskSpec task_spec) :=
  '(n, opts) ← base_init name task_def task_type;
  let switch_args := dict_get_default task_def "args" PNone in
  control_task_def ← getitem (PDict task_def) "control";
  control_task_type_key ← resolve_task_type task_type control_task_def None;
  control_task_type ← resolve_task_cls task_type control_task_type_key;
  control_task_def ←
    match control_task_def with
    | PDict _ => Return (Declared control_task_def)
    | _ =>
        entries ← keyed_setitem control_task_type_key control_task_def [];
        Return (Built entries)
    end;
  control_task_def ←
    (if truthy switch_args then with_args control_task_def switch_args
     else Return control_task_def);
  control ← get_task_spec control_task_type (name +:+ "[control]") control_task_def;
  switch ← getitem (PDict task_def) "switch";
  items ← iterate switch;
  cases ← build_cases task_type name switch_args 0 items [];
  Return {| spec_name := n; spec_options := opts; control_spec := control;
            case_specs := List.map (fun kv => (key_members (fst kv), snd kv)) cases |}.
End Specs.
End Switch.

(** ** task/base.py: instantiation *)

Module Pipeline.
Import Options Task.

Section FromSpec.
Context {world child_spec : Type}
        (mark_multistage : world → world)
        (child_name : child_spec → string)
        (child_from_spec : child_spec → list string → pyval → result (PoeTask world))
        (named_arg_values : env → list (string * string)).

(** Modelled from the spec: [PoeTask.from_spec] of base.py, which is not
    under src/, on a spec of the sequence kind.  The spec has
    'Instantiation takes a TaskSpec plus invocation context (argument
    tuple, capture flag, inherited environment/cwd) and returns a
    runnable Task, recursively instantiating child specs for composite
    kinds': the constructor of the kind gets the invocation and the
    capture flag that [from_spec] was given, and the task that comes
    back runs by the [_handle_run] of the kind. *)
Definition from_spec (sp : @Sequence.TaskSpec child_spec) (invocation : list string)
           (capture_stdout : pyval) : result (PoeTask world) :=
  task ← Sequence.init child_name child_from_spec sp invocation capture_stdout
           named_arg_values;
  Return {| name := Sequence.spec_name sp;
            invocation := Sequence.seq_invocation task;
            capture_stdout := Sequence.seq_capture_stdout task;
            run := fun extra_args e context =>
                     Sequence._handle_run mark_multistage task context extra_args e |}.
End FromSpec.
End Pipeline.

(** * Properties *)

(** ** Facts about dicts *)

Section DictFacts.
Context {V : Type}.
Implicit Types (d : list (string * V)) (k : string).

Lemma dict_get_set_eq k (v : V) d : dict_get k (dict_set k v d) = Some v.
Proof.
  induction d as [|[k' v'] d IH]; simpl.
  - by rewrite String.eqb_refl.
  - destruct (String.eqb k k') eqn:E; simpl; rewrite E; done.
Qed.

Lemma dict_get_set_ne k k' (v : V) d :
  k ≠ k' → dict_get k (dict_set k' v d) = dict_get k d.
Proof.
  intros Hne. induction d as [|[k'' v''] d IH]; simpl.
  - destruct (String.eqb k k') eqn:E; [apply String.eqb_eq in E; done | done].
  - destruct (String.eqb k' k'') eqn:E; simpl.
    + apply String.eqb_eq in E; subst k''.
      destruct (String.eqb k k') eqn:E'; [apply String.eqb_eq in E'; done | done].
    + by rewrite IH.
Qed.

(** After [d.update(other)] a key reads from [other] when [other] has it
    and from [d] otherwise. *)
Lemma dict_get_update k d other :
  dict_get k (dict_update d other) =
    match dict_get k (rev other) with
    | Some v => Some v
    | None => dict_get k d
    end.
Proof.
  unfold dict_update. revert d.
  induction other as [|[k' v'] other IH] using rev_ind; intros d; [done|].
  rewrite fold_left_app, rev_app_distr. simpl.
  destruct (String.eqb k k') eqn:E.
  - apply String.eqb_eq in E; subst k'. apply dict_get_set_eq.
  - rewrite dict_get_set_ne; [apply IH|].
    intros ->. by rewrite String.eqb_refl in E.
Qed.

Lemma dict_get_filter_Some (P : string * V → bool) k d (v : V) :
  dict_get k (List.filter P d) = Some v → P (k, v) = true.
Proof.
  induction d as [|[k' v'] d IH]; simpl; [done|].
  destruct (P (k', v')) eqn:HP; simpl; [|done].
  destruct (String.eqb k k') eqn:E; [|done].
  apply String.eqb_eq in E; subst k'. by intros [= ->].
Qed.
Lemma dict_get_public k d :
  dict_get k (List.filter (fun kv => negb (Options.startswith "_" (fst kv))) d)
  = if Options.startswith "_" k then None else dict_get k d.
Proof.
  induction d as [|[k' v] d IH]; simpl; [by destruct (Options.startswith "_" k)|].
  destruct (String.eqb_spec k k') as [<-|Hne].
  - destruct (Options.startswith "_" k) eqn:E; simpl; [done|]. by rewrite String.eqb_refl.
  - destruct (Options.startswith "_" k') eqn:E; simpl; [done|].
    destruct (String.eqb_spec k k'); done.
Qed.
End DictFacts.

(** ** options.py *)

Module OptionsFacts.
Import Options.

Lemma filter_twice {A} (P : A → bool) (l : list A) :
  List.filter P (List.filter P l) = List.filter P l.
Proof.
  induction l as [|x l IH]; simpl; [done|].
  destruct (P x) eqn:E; simpl; [rewrite E; by f_equal | done].
Qed.

Lemma store_get_set_eq c attr v st : store_get c attr (store_set c attr v st) = Some v.
Proof. unfold store_get, store_set. simpl. by rewrite !String.eqb_refl. Qed.

Lemma store_get_set_ne c attr attr' c' v st :
  attr ≠ attr' → store_get c attr (store_set c' attr' v st) = store_get c attr st.
Proof.
  intros Hne. unfold store_get, store_set. simpl.
  assert (String.eqb attr' attr = false) as E
    by (apply String.eqb_neq; congruence).
  rewrite E, andb_false_r. f_equal.
  induction st as [|[[c0 a0] v0] st IH]; simpl; [done|].
  destruct (String.eqb c0 c' && String.eqb a0 attr') eqn:E1; simpl.
  - apply andb_true_iff in E1 as [_ E1]. apply String.eqb_eq in E1; subst a0.
    by rewrite E, andb_false_r.
  - by rewrite IH.
Qed.

Lemma cls_hasattr_set st c c' attr v :
  attr ≠ mangled →
  cls_hasattr (store_set c' mangled v st) c attr = cls_hasattr st c attr.
Proof.
  intros Hne. unfold cls_hasattr.
  induction (ancestors c) as [|a l IH]; simpl; [done|].
  by rewrite store_get_set_ne, IH.
Qed.

Lemma ancestors_head c : ∃ l, ancestors c = c :: l.
Proof. destruct c; simpl; eauto. Qed.

(** The cache test of [get_fields] looks for an attribute that the
    mangled assignment never creates, so a call computes the fields afresh
    and returns them. *)
Lemma get_fields_value c st fs :
  cls_hasattr st c "__annotations" = false →
  collect_fields c = Return fs →
  get_fields c st = (Return fs, store_set (cls_name c) mangled fs st).
Proof.
  intros Hno Hfs. unfold get_fields. rewrite Hno, Hfs. simpl.
  f_equal. unfold cls_getattr.
  destruct (ancestors_head c) as [l ->]. simpl.
  by rewrite store_get_set_eq.
Qed.

(** Calling [get_fields] again on the same class returns the same fields. *)
Lemma get_fields_stable c st fs :
  cls_hasattr st c "__annotations" = false →
  collect_fields c = Return fs →
  let st' := snd (get_fields c st) in
  fst (get_fields c st) = Return fs ∧ fst (get_fields c st') = Return fs
  ∧ snd (get_fields c st') = st'.
Proof.
  intros Hno Hfs. rewrite (get_fields_value c st fs Hno Hfs). simpl.
  assert (cls_hasattr (store_set (cls_name c) mangled fs st) c "__annotations" = false)
    as Hno' by (rewrite cls_hasattr_set; done).
  rewrite (get_fields_value c _ fs Hno' Hfs). simpl.
  split; [done|split; [done|]].
  unfold store_set. simpl. rewrite !String.eqb_refl. simpl. f_equal.
  apply filter_twice.
Qed.

(** *** [get_fields] on a hierarchy three classes deep *)

Definition GrandParentOptions : pyclass :=
  {| cls_name := "GrandParentOptions"; cls_bases := [PoeOptions_class];
     cls_annotations := Some [("x", TStr)]; cls_dict := [] |}.

Definition ParentOptions : pyclass :=
  {| cls_name := "ParentOptions"; cls_bases := [GrandParentOptions];
     cls_annotations := Some [("y", TInt)]; cls_dict := [] |}.

Definition ChildOptions : pyclass :=
  {| cls_name := "ChildOptions"; cls_bases := [ParentOptions];
     cls_annotations := Some [("z", TStr)]; cls_dict := [] |}.

(** The field names declared on a class or on any of its ancestors,
    without those that start with an underscore. *)
Definition declared_names (c : pyclass) : list string :=
  List.filter (fun k => negb (startswith "_" k))
    (flat_map (fun a => match cls_annotations a with
                        | Some l => dict_keys l
                        | None => []
                        end) (ancestors c)).

(** C8: [get_fields] merges the annotations of the direct bases and of the
    class itself only.  On [ChildOptions], whose grandparent declares
    [x], the first call returns the fields [y] and [z]: [x], declared on
    an ancestor, is missing. *)
Theorem get_fields_skips_grandparent :
  fst (get_fields ChildOptions []) = Return [("y", TInt); ("z", TStr)]
  ∧ In "x" (declared_names ChildOptions)
  ∧ declared_names ChildOptions = ["z"; "y"; "x"].
Proof. vm_compute. repeat split; auto. Qed.

(** On the classes of this repository, one level below [PoeOptions] (whose
    only annotation is the mangled, underscore-prefixed cache name), the
    fields are the declared names. *)
Lemma get_fields_one_level name own body st :
  cls_hasattr st (PyClass name [PoeOptions_class] (Some own) body) "__annotations" = false →
  fst (get_fields (PyClass name [PoeOptions_class] (Some own) body) st)
  = Return (List.filter (fun kv => negb (startswith "_" (fst kv)))
                        (dict_update [(mangled, TGenDict TStr TType)] own)).
Proof.
  intros Hno. by rewrite (get_fields_value _ _ _ Hno eq_refl).
Qed.

(** *** [get] *)

Lemma iskeyword_normalize key : iskeyword (normalize_key key) = false.
Proof.
  unfold normalize_key. destruct (iskeyword key) eqn:E; [|done].
  unfold iskeyword in E. apply existsb_exists in E as (x & Hin & Hx).
  apply String.eqb_eq in Hx; subst x.
  simpl in Hin.
  repeat (destruct Hin as [<-|Hin]; [by vm_compute|]). done.
Qed.

Lemma normalize_key_idemp key : normalize_key (normalize_key key) = normalize_key key.
Proof.
  unfold normalize_key at 1. by rewrite iskeyword_normalize.
Qed.

Lemma object_attrs_underscore k :
  startswith "_" k = false → existsb (String.eqb k) object_attrs = false.
Proof.
  intros Hk. destruct (existsb (String.eqb k) object_attrs) eqn:E; [|done].
  apply existsb_exists in E as (x & Hin & Hx).
  apply String.eqb_eq in Hx; subst x. simpl in Hin.
  repeat (destruct Hin as [<-|Hin]; [by vm_compute in Hk|]). done.
Qed.

Lemma collect_fields_public c fs k t :
  collect_fields c = Return fs → dict_get k fs = Some t → startswith "_" k = false.
Proof.
  unfold collect_fields. intros Hfs Hk.
  destruct (update_from_bases [] (cls_bases c)) as [a|]; simpl in Hfs; [|done].
  destruct (annotations_of c) as [own|]; simpl in Hfs; [|done].
  injection Hfs as <-.
  apply dict_get_filter_Some in Hk. simpl in Hk.
  by apply negb_true_iff in Hk.
Qed.

(** The value the specification describes for a declared field that has
    neither a bound value nor a default: an empty mapping, an empty
    sequence, the first member of a union built without argument, and the
    type itself built without argument otherwise. *)
Definition type_driven_empty (t : pytype) : result pyval :=
  match t with
  | TGenDict _ _ | TGenMapping _ _ | TGenMutableMapping _ _ => Return (PDict [])
  | TGenList _ | TGenSequence _ => Return (PList [])
  | TUnion (first :: _) => construct first
  | TUnion [] => Raise IndexError
  | _ => construct t
  end.

Lemma get_unset_field self k fs t :
  collect_fields (options_class self) = Return fs →
  normalize_key k = k →
  dict_get k fs = Some t →
  lookup_attr self k = None →
  get self k None = type_driven_empty t.
Proof.
  intros Hfs Hk Ht Hl. unfold get. rewrite Hk.
  unfold hasattr, getattr. rewrite Hl, Hfs. simpl.
  unfold dict_has. rewrite Ht. simpl.
  unfold type_of. rewrite Hfs. simpl. rewrite Hk, Ht.
  destruct t as [| | | | | | | | | | | | |[|first rest]]; simpl; done.
Qed.

(** C7 (amended): on a declared field, [get] returns the bound value, else
    the class-level attribute of that name (the literal default), else the
    type-driven empty value; and [get] raises a lookup error exactly when
    the key, with an underscore appended if it is a Python keyword, is
    neither an attribute of the instance nor a declared field. *)
Theorem get_resolution (self : PoeOptions) fs :
  collect_fields (options_class self) = Return fs →
  (∀ key t,
      dict_get (normalize_key key) fs = Some t →
      get self key None =
        match dict_get (normalize_key key) (options_dict self) with
        | Some v => Return v
        | None =>
            match class_attr (options_class self) (normalize_key key) with
            | Some v => Return v
            | None => type_driven_empty t
            end
        end)
  ∧ (∀ key,
      (∃ m, get self key None = Raise (KeyError m)) ↔
      (hasattr self (normalize_key key) = false
       ∧ dict_get (normalize_key key) fs = None)).
Proof.
  intros Hfs. split.
  - intros key t Ht.
    pose proof (normalize_key_idemp key) as Hk.
    set (k := normalize_key key) in *.
    destruct (dict_get k (options_dict self)) as [v|] eqn:Hb.
    + unfold get. fold k. unfold hasattr, getattr, lookup_attr. by rewrite Hb.
    + destruct (class_attr (options_class self) k) as [v|] eqn:Hc.
      * unfold get. fold k. unfold hasattr, getattr, lookup_attr. by rewrite Hb, Hc.
      * assert (get self k None = type_driven_empty t) as <-.
        { apply (get_unset_field self k fs t Hfs Hk Ht).
          unfold lookup_attr. rewrite Hb, Hc.
          by rewrite (object_attrs_underscore k (collect_fields_public _ _ _ _ Hfs Ht)). }
        unfold get. fold k. by rewrite Hk.
  - intros key. unfold get, hasattr, getattr.
    set (k := normalize_key key).
    destruct (lookup_attr self k) as [v|] eqn:Hl; simpl.
    + split; [intros [m Hm]; done | intros [? _]; done].
    + rewrite Hfs. simpl. unfold dict_has.
      destruct (dict_get k fs) as [t|] eqn:Ht; simpl.
      * split; [|intros [_ ?]; done].
        intros [m Hm]. exfalso.
        unfold type_of in Hm. rewrite Hfs in Hm. simpl in Hm.
        unfold k in Hm. rewrite normalize_key_idemp in Hm. fold k in Hm.
        rewrite Ht in Hm.
        destruct t as [| | | | | | | | | | | | |[|first rest]]; simpl in Hm; try done.
        by destruct first.
      * split; [done | intros _; eauto].
Qed.

(** An options object of the project config with nothing bound, as
    [__init__] leaves it for an empty mapping. *)
Definition unbound_project_options : PoeOptions :=
  {| options_class := Config.ProjectConfig_ConfigOptions; options_dict := [] |}.

Lemma unbound_project_options_init :
  init Config.ProjectConfig_ConfigOptions (PDict []) = Return unbound_project_options.
Proof. reflexivity. Qed.

Lemma get_resolution_witness :
  get unbound_project_options "tasks" None = Return (PDict [])
  ∧ get unbound_project_options "verbosity" None = Return (PInt 0)
  ∧ get unbound_project_options "envfile" None = Return (PStr "")
  ∧ ∃ m, get unbound_project_options "no_such_option" None = Raise (KeyError m).
Proof.
  destruct (get_resolution unbound_project_options
              (List.filter (fun kv => negb (startswith "_" (fst kv)))
                 (dict_update [(mangled, TGenDict TStr TType)]
                    (default [] (cls_annotations Config.ProjectConfig_ConfigOptions))))
              eq_refl) as [Hget Herr].
  split; [exact (Hget "tasks" (TGenMapping TStr TAny) eq_refl)|].
  split; [exact (Hget "verbosity" TInt eq_refl)|].
  split; [exact (Hget "envfile" (TUnion [TStr; TGenSequence TStr]) eq_refl)|].
  apply (Herr "no_such_option"). split; reflexivity.
Defined.

(** C7 as stated fails: [is_set] is no declared field of the project
    options, yet [get] raises nothing for it and hands back the method. *)
Lemma get_undeclared_attribute :
  ¬ ((∃ e, get unbound_project_options "is_set" None = Raise e) ↔
     (∀ fs, collect_fields (options_class unbound_project_options) = Return fs →
            dict_get "is_set" fs = None)).
Proof.
  intros [_ H].
  destruct H as [e He]; [|by vm_compute in He].
  intros fs Hfs. vm_compute in Hfs. by injection Hfs as <-.
Qed.

End OptionsFacts.

(** ** config.py *)

Ltac unfold_result := unfold mbind, mret, result_bind, result_ret in *.

Module ConfigFacts.
Import Options Config OptionsFacts.

(** *** Which exceptions the option machinery can raise *)

Lemma collect_fields_raise c e :
  collect_fields c = Raise e → is_config_error e = false.
Proof.
  unfold collect_fields, annotations_of. intros H.
  assert (∀ bs acc e', update_from_bases acc bs = Raise e' → is_config_error e' = false)
    as Hb.
  { induction bs as [|b bs IH]; intros acc e' He; simpl in He; [done|].
    unfold annotations_of in He. unfold_result.
    destruct (cls_annotations b); [by eapply IH | by simplify_eq]. }
  unfold_result.
  destruct (update_from_bases [] (cls_bases c)) eqn:E; [|simplify_eq; by eapply Hb].
  destruct (cls_annotations c); by simplify_eq.
Qed.

Lemma construct_raise t e : construct t = Raise e → is_config_error e = false.
Proof. destruct t; simpl; intros; by simplify_eq. Qed.

Lemma type_of_raise c key e : type_of c key = Raise e → is_config_error e = false.
Proof.
  unfold type_of. unfold_result. intros H.
  destruct (collect_fields c) eqn:E; [|simplify_eq; by eapply collect_fields_raise].
  repeat case_match; by simplify_eq.
Qed.

Lemma get_raise self key default e :
  get self key default = Raise e → is_config_error e = false.
Proof.
  unfold get. unfold_result. intros H.
  destruct (hasattr self (normalize_key key)).
  - simpl in H. destruct (getattr self (normalize_key key) default); [done|].
    destruct (type_of _ _) eqn:E; [|simplify_eq; by eapply type_of_raise].
    repeat case_match; simplify_eq; first [done | by eapply construct_raise].
  - destruct (collect_fields (options_class self)) eqn:E;
      [|simplify_eq; by eapply collect_fields_raise].
    destruct (negb _); [by simplify_eq|].
    destruct (getattr self (normalize_key key) default); [done|].
    destruct (type_of _ _) eqn:E'; [|simplify_eq; by eapply type_of_raise].
    repeat case_match; simplify_eq; first [done | by eapply construct_raise].
Qed.

Lemma isinstance_raise v c e : isinstance v c = Raise e → is_config_error e = false.
Proof.
  assert (∀ t e', isinstance1 v t = Raise e' → is_config_error e' = false) as H1.
  { intros t e'. destruct t; simpl; intros; by simplify_eq. }
  destruct c as [t|ts]; simpl; [apply H1|].
  induction ts as [|t ts IH]; simpl; [done|]. unfold_result.
  destruct (isinstance1 v t) as [[]|] eqn:E; intros; simplify_eq; eauto.
Qed.

Lemma contains_raise v key e : contains v key = Raise e → is_config_error e = false.
Proof. destruct v; simpl; intros; by simplify_eq. Qed.

Section Validation.
Context {path : Type}.

Lemma is_option_type_valid_raise (p : @ConfigPartition path) key e :
  is_option_type_valid p key = Raise e → is_config_error e = false.
Proof.
  unfold is_option_type_valid. unfold_result. intros H.
  destruct (get _ _ _) eqn:E1; [|simplify_eq; by eapply get_raise].
  destruct (type_of _ _) eqn:E2; [|simplify_eq; by eapply type_of_raise].
  by eapply isinstance_raise.
Qed.

(** The type-check loop never ends in a configuration error: a value of
    the wrong type makes it raise [NameError] (or the [TypeError] of an
    instance check against a subscripted generic). *)
Lemma validate_option_types_raise (self : @PoeConfig path) raw keys e :
  validate_option_types self raw keys = Raise e → is_config_error e = false.
Proof.
  induction keys as [|key keys IH]; simpl; [done|]. unfold_result.
  destruct (contains raw key) as [present|] eqn:Ec;
    [|intros; simplify_eq; by eapply contains_raise].
  destruct present.
  - destruct (is_option_type_valid _ _) as [valid|] eqn:Ev;
      [|intros; simplify_eq; by eapply is_option_type_valid_raise].
    destruct valid; simpl; [apply IH|]. intros; by simplify_eq.
  - apply IH.
Qed.

Lemma validate_option_types_mismatch (self : @PoeConfig path) raw key keys :
  contains raw key = Return true →
  is_option_type_valid (_project_config self) key = Return false →
  validate_option_types self raw (key :: keys) = Raise (NameError "option_type").
Proof. intros Hc Hv. simpl. by rewrite Hc, Hv. Qed.
End Validation.

(** A project config that sets [verbosity] to a string. *)
Definition verbosity_as_string : pyval :=
  PDict [("verbosity", PStr "high"); ("tasks", PDict [("build", PStr "make")])].

(** C1: [verbosity] is declared [int]; with the string ["high"] bound to it
    [validate] does not raise a [PoeException] that describes the expected
    type: formatting the message hits the unbound name [option_type], and
    the call ends in a [NameError]. *)
Theorem validate_type_mismatch_name_error
        (validate_config : pyval → option string)
        (is_task_type : pyval → option content_type → bool)
        (validate_def : string → pyval → @PoeConfig string → option string) :
  (config ← PoeConfig_init id "/project" (Some verbosity_as_string) "pyproject.toml";
   validate validate_config is_task_type validate_def config)
  = Raise (NameError "option_type")
  ∧ is_config_error (NameError "option_type") = false.
Proof. split; reflexivity. Qed.

(** *** The merged task table *)

(** A dict read as a finite map. *)
Definition to_gmap (d : list (string * pyval)) : gmap string pyval := list_to_map d.

Lemma to_gmap_lookup d k : to_gmap d !! k = dict_get k d.
Proof.
  unfold to_gmap. induction d as [|[k' v] d IH]; simpl; [done|].
  destruct (String.eqb k k') eqn:E.
  - apply String.eqb_eq in E; subst k'. by rewrite lookup_insert_eq.
  - rewrite lookup_insert_ne; [done|]. intros ->. by rewrite String.eqb_refl in E.
Qed.

Lemma dict_get_app {V} k (d1 d2 : list (string * V)) :
  dict_get k (d1 ++ d2)%list =
    match dict_get k d1 with Some v => Some v | None => dict_get k d2 end.
Proof.
  induction d1 as [|[k' v] d1 IH]; simpl; [done|].
  by destruct (String.eqb k k').
Qed.

Lemma dict_get_None_keys {V} k (d : list (string * V)) :
  k ∉ dict_keys d → dict_get k d = None.
Proof.
  induction d as [|[k' v] d IH]; simpl; [done|].
  intros Hk. apply not_elem_of_cons in Hk as [Hne Hk].
  destruct (String.eqb k k') eqn:E; [apply String.eqb_eq in E; done | by apply IH].
Qed.

(** In a dict without repeated keys, reading is independent of the order
    of the items. *)
Lemma dict_get_rev {V} k (d : list (string * V)) :
  NoDup (dict_keys d) → dict_get k (rev d) = dict_get k d.
Proof.
  induction d as [|[k' v] d IH]; simpl; [done|].
  intros Hnd. apply NoDup_cons in Hnd as [Hk' Hnd].
  rewrite dict_get_app, IH by done. simpl.
  destruct (String.eqb k k') eqn:E.
  - apply String.eqb_eq in E; subst k'. by rewrite dict_get_None_keys.
  - by destruct (dict_get k d).
Qed.

Lemma to_gmap_update d other :
  NoDup (dict_keys other) →
  to_gmap (dict_update d other) = to_gmap other ∪ to_gmap d.
Proof.
  intros Hnd. apply map_eq; intros k.
  rewrite lookup_union, !to_gmap_lookup, dict_get_update, dict_get_rev by done.
  destruct (dict_get k other), (dict_get k d); done.
Qed.

Section Tasks.
Context {path : Type}.
Implicit Types (self : @PoeConfig path) (c : @ConfigPartition path).

(** The tasks table of a partition, as [config.get("tasks")] reads it. *)
Definition has_tasks c (d : list (string * pyval)) : Prop :=
  partition_get c "tasks" None = Return (PDict d) ∧ NoDup (dict_keys d).

Lemma update_all_value (configs : list (@ConfigPartition path)) tables acc :
  Forall2 has_tasks configs tables →
  update_all acc configs = Return (foldl dict_update acc tables).
Proof.
  intros H. revert acc.
  induction H as [|c d configs tables [Hc Hnd] _ IH]; intros acc; simpl; [done|].
  rewrite Hc. simpl. apply IH.
Qed.

Lemma to_gmap_foldl_update (tables : list (list (string * pyval))) acc :
  Forall (λ d, NoDup (dict_keys d)) tables →
  to_gmap (foldl dict_update acc tables)
  = foldl (λ m d, to_gmap d ∪ m) (to_gmap acc) tables.
Proof.
  intros H. revert acc.
  induction H as [|d tables Hnd _ IH]; intros acc; simpl; [done|].
  by rewrite IH, to_gmap_update.
Qed.

Lemma Forall2_rev {A B} (P : A → B → Prop) l k :
  Forall2 P l k → Forall2 P (rev l) (rev k).
Proof.
  induction 1; simpl; [constructor|].
  apply Forall2_app; [done | by repeat constructor].
Qed.

Lemma foldl_union_rev (tables : list (list (string * pyval))) :
  foldl (λ m d, to_gmap d ∪ m) ∅ (rev tables)
  = foldr (λ d m, to_gmap d ∪ m) ∅ tables.
Proof.
  induction tables as [|d tables IH]; simpl; [done|].
  by rewrite foldl_app, IH.
Qed.

(** The partitions of the example: one include per tasks table. *)
Definition included_with_tasks (d : list (string * pyval)) : @ConfigPartition path :=
  {| ConfigOptions := IncludedConfig_ConfigOptions;
     options := {| options_class := IncludedConfig_ConfigOptions;
                   options_dict := [("tasks", PDict d)] |};
     full_config := PDict [("tool", PDict [("poe", PDict [("tasks", PDict d)])])];
     poe_options := PDict [("tasks", PDict d)];
     cfg_path := None |}.

Definition project_with_tasks (d : list (string * pyval)) : @ConfigPartition path :=
  {| ConfigOptions := ProjectConfig_ConfigOptions;
     options := {| options_class := ProjectConfig_ConfigOptions;
                   options_dict := [("tasks", PDict d)] |};
     full_config := PDict [("tool.poe", PDict [("tasks", PDict d)])];
     poe_options := PDict [("tasks", PDict d)];
     cfg_path := None |}.

Lemma included_with_tasks_init d cwd :
  IncludedConfig (PDict [("tool", PDict [("poe", PDict [("tasks", PDict d)])])]) cwd None
  = Return (included_with_tasks d).
Proof. reflexivity. Qed.

Lemma project_with_tasks_init d cwd :
  ProjectConfig (PDict [("tool.poe", PDict [("tasks", PDict d)])]) cwd None
  = Return (project_with_tasks d).
Proof. reflexivity. Qed.

(** C2: the merged table is built by overlaying the tables of the includes
    in reverse declaration order and the root's own tasks last.  Read as a
    finite map it is the left-biased union of the root table with the
    include tables in declaration order: the root wins every conflict and
    an earlier include beats a later one.  Root [{a: A}] with includes
    [{b: B1}] and [{a: B2, c: C}] gives [{b: B1, a: A, c: C}]. *)
Theorem tasks_precedence :
  (∀ self root tables,
      has_tasks (_project_config self) root →
      Forall2 has_tasks (_included_config self) tables →
      ∃ merged,
        tasks self = Return merged
        ∧ merged = dict_update (foldl dict_update [] (rev tables)) root
        ∧ to_gmap merged
          = to_gmap root ∪ foldr (λ d m, to_gmap d ∪ m) ∅ tables)
  ∧ (∀ (dir : path) (A B1 B2 C : pyval),
      ∃ merged,
        tasks {| cwd := dir;
                 _project_config := project_with_tasks [("a", A)];
                 _included_config := [included_with_tasks [("b", B1)];
                                      included_with_tasks [("a", B2); ("c", C)]];
                 _config_name := "pyproject.toml";
                 _project_dir := dir |} = Return merged
        ∧ to_gmap merged = to_gmap [("b", B1); ("a", A); ("c", C)]).
Proof.
  split.
  - intros self root tables [Hroot Hnd] Hinc.
    unfold tasks.
    rewrite (update_all_value _ (rev tables) []) by by apply Forall2_rev.
    simpl. rewrite Hroot. simpl. eexists; split; [done|]. split; [done|].
    rewrite to_gmap_update by done. f_equal.
    rewrite to_gmap_foldl_update.
    + apply foldl_union_rev.
    + apply Forall_rev. clear Hroot.
      induction Hinc as [|c d cs ds [_ Hd] _ IH]; by constructor.
  - intros dir A B1 B2 C. eexists. split; [reflexivity|].
    apply map_eq; intros k. rewrite !to_gmap_lookup. simpl.
    destruct (String.eqb_spec k "a") as [->|?]; [done|].
    destruct (String.eqb_spec k "c") as [->|?]; [done|].
    by destruct (String.eqb_spec k "b").
Qed.
End Tasks.

(** The example of the specification, with strings for the task bodies. *)
Definition example_config : @PoeConfig string :=
  {| cwd := "/project";
     _project_config := project_with_tasks [("a", PStr "root")];
     _included_config := [included_with_tasks [("b", PStr "first")];
                          included_with_tasks [("a", PStr "second");
                                               ("c", PStr "second")]];
     _config_name := "pyproject.toml";
     _project_dir := "/project" |}.

Lemma tasks_precedence_witness :
  tasks example_config
  = Return [("a", PStr "root"); ("c", PStr "second"); ("b", PStr "first")].
Proof.
  assert (has_tasks (_project_config example_config) [("a", PStr "root")]) as Hroot
    by (split; [reflexivity | compute_done]).
  assert (Forall2 has_tasks (_included_config example_config)
            [[("b", PStr "first")]; [("a", PStr "second"); ("c", PStr "second")]])
    as Hinc by (repeat constructor; compute_done).
  destruct (proj1 (@tasks_precedence string) example_config _ _ Hroot Hinc)
    as (merged & Htasks & Hmerged & _).
  rewrite Htasks, Hmerged. reflexivity.
Defined.

(** *** Loading includes *)

Section Includes.
Context {path : Type} (path_str : path → string)
        (joinpath_resolve : path → string → path)
        (exists_ : path → bool)
        (suffix : path → string)
        (open_rb : path → option string)
        (json_load tomli_load : string → parse_outcome).

Abbreviation read := (_read_config_file path_str suffix open_rb json_load tomli_load).
Abbreviation load :=
  (load_included path_str joinpath_resolve exists_ suffix open_rb json_load tomli_load).

(** What the [try] block of the loop evaluates for one include. *)
Definition load_one (self : @PoeConfig path) (include : list (string * pyval))
           (include_path : path) : result (@ConfigPartition path) :=
  content ← read include_path;
  IncludedConfig content
                 (dict_get_default include "cwd" (PStr (project_dir path_str self)))
                 (Some include_path).

(** Every failure of [_read_config_file] is a configuration error. *)
Lemma read_config_file_raise p e : read p = Raise e → is_config_error e = true.
Proof.
  unfold _read_config_file. intros H.
  repeat case_match; by simplify_eq.
Qed.

(** A file without the poe section fails with a [KeyError]. *)
Lemma IncludedConfig_no_section (d : list (string * pyval)) cwd p :
  dict_get "tool" d = None → dict_get "tool.poe" d = None →
  @IncludedConfig path (PDict d) cwd p = Raise (KeyError "tool.poe").
Proof.
  intros H1 H2. unfold IncludedConfig, ConfigPartition_init. simpl.
  unfold dict_has. by rewrite H1, H2.
Qed.

Lemma IncludedConfig_no_poe (d tool : list (string * pyval)) cwd p :
  dict_get "tool" d = Some (PDict tool) → dict_get "poe" tool = None →
  @IncludedConfig path (PDict d) cwd p = Raise (KeyError "poe").
Proof.
  intros H1 H2. unfold IncludedConfig, ConfigPartition_init. simpl.
  unfold dict_has. rewrite H1. simpl. by rewrite H2.
Qed.

Lemma IncludedConfig_path content cwd p c :
  @IncludedConfig path content cwd p = Return c → cfg_path c = p.
Proof.
  unfold IncludedConfig, ConfigPartition_init. unfold_result. intros H.
  repeat case_match; by simplify_eq.
Qed.

Lemma load_included_project_dir (self : @PoeConfig path) includes :
  _project_dir (snd (load self includes)) = _project_dir self.
Proof.
  revert self. induction includes as [|include rest IH]; intros self; simpl; [done|].
  repeat case_match; simpl; try done; by rewrite IH.
Qed.

(** The outcome of loading one include that names a path: skipped,
    loaded, or failed. *)
Inductive include_outcome (self : @PoeConfig path) (include : list (string * pyval))
  : option (@ConfigPartition path) → Prop :=
| include_skipped p :
    dict_get "path" include = Some (PStr p) →
    exists_ (joinpath_resolve (_project_dir self) p) = false →
    include_outcome self include None
| include_loaded p c :
    dict_get "path" include = Some (PStr p) →
    exists_ (joinpath_resolve (_project_dir self) p) = true →
    load_one self include (joinpath_resolve (_project_dir self) p) = Return c →
    cfg_path c = Some (joinpath_resolve (_project_dir self) p) →
    include_outcome self include (Some c).

Lemma load_included_returns (self : @PoeConfig path) includes :
  fst (load self includes) = Return () →
  ∃ outcomes,
    Forall2 (include_outcome self) includes outcomes
    ∧ _included_config (snd (load self includes))
      = (_included_config self ++ omap id outcomes)%list.
Proof.
  revert self. induction includes as [|include rest IH]; intros self; simpl.
  - intros _. exists []. split; [constructor | by rewrite app_nil_r].
  - destruct (dict_get "path" include) as [v|] eqn:Hp; [|done].
    destruct v as [| | |p| | |]; try done.
    destruct (exists_ (joinpath_resolve (_project_dir self) p)) eqn:Hex; simpl.
    + fold (load_one self include (joinpath_resolve (_project_dir self) p)).
      destruct (load_one self include _) as [c|e] eqn:Hl;
        [|by destruct (caught e)].
      intros Hret. destruct (IH _ Hret) as (outcomes & Hall & Hcfg).
      exists (Some c :: outcomes). split.
      * constructor.
        -- eapply include_loaded; eauto.
           unfold load_one in Hl. unfold_result.
           destruct (read _); [|done]. by eapply IncludedConfig_path.
        -- eapply Forall2_impl; [exact Hall|].
           intros inc o Ho. destruct Ho; [eapply include_skipped | eapply include_loaded];
             eauto.
      * rewrite Hcfg. simpl. by rewrite <- app_assoc.
    + intros Hret. destruct (IH _ Hret) as (outcomes & Hall & Hcfg).
      exists (None :: outcomes). split; [|done].
      constructor; [by eapply include_skipped | done].
Qed.

End Includes.

(** A project directory with three files: one that does not parse, one
    JSON file whose [tool] entry is a number, and one well-formed config. *)
Module SampleFiles.
Definition join (base p : string) : string := base +:+ "/" +:+ p.
Definition file_exists (p : string) : bool :=
  String.eqb p "/project/broken.toml" || String.eqb p "/project/odd.json"
  || String.eqb p "/project/good.toml".
Definition file_suffix (p : string) : string :=
  if endswith ".json" p then ".json" else ".toml".
Definition open_file (p : string) : option string :=
  if file_exists p then Some p else None.
Definition parse_json (content : string) : parse_outcome :=
  if String.eqb content "/project/odd.json"
  then Parsed (PDict [("tool", PInt 5)])
  else Malformed "Expecting value: line 1 column 1 (char 0)".
Definition parse_toml (content : string) : parse_outcome :=
  if String.eqb content "/project/good.toml"
  then Parsed (PDict [("tool", PDict [("poe",
                 PDict [("tasks", PDict [("lint", PStr "ruff check")])])])])
  else Malformed "Invalid statement (at line 1, column 1)".

Definition project (include : pyval) : result (@PoeConfig string) :=
  PoeConfig_init id "/project"
    (Some (PDict [("include", include); ("tasks", PDict [("build", PStr "make")])]))
    "pyproject.toml".

Definition config : @PoeConfig string :=
  {| cwd := "/project";
     _project_config := project_with_tasks [("build", PStr "make")];
     _included_config := [];
     _config_name := "pyproject.toml";
     _project_dir := "/project" |}.

Definition load_includes (self : @PoeConfig string) : result unit * @PoeConfig string :=
  _load_includes id join file_exists file_suffix open_file parse_json parse_toml self.
End SampleFiles.



End ConfigFacts.

(** ** task/sequence.py *)

Module SequenceFacts.
Import Options Task Sequence OptionsFacts.

Section WithWorld.
Context {world task_spec : Type}
        (mark_multistage : world → world)
        (task_spec_name : task_spec → string)
        (from_spec : task_spec → list string → pyval → result (PoeTask world)).

Implicit Types (t : PoeTask world) (ts : list (PoeTask world)) (w : world) (e : env).

(** A subtask that hands back an exit code whatever it is given. *)
Definition returns t : Prop :=
  ∀ args e w, ∃ code, fst (run t args e w) = Return code.

(** Running tasks one after the other, each from the world the previous
    one left: the name and exit code of each, and the final world. *)
Fixpoint run_each e ts w : list (string * Z) * world :=
  match ts with
  | [] => ([], w)
  | t :: rest =>
      match run t [] e w with
      | (Return code, w') =>
          let '(codes, w'') := run_each e rest w' in ((name t, code) :: codes, w'')
      | (Raise _, w') => ([], w')
      end
  end.

Definition failed (codes : list (string * Z)) : list string :=
  List.map fst (List.filter (fun nc => negb (snd nc =? 0)) codes).

Definition all_passed (codes : list (string * Z)) : Prop :=
  Forall (fun nc => snd nc = 0) codes.

Lemma failed_all_passed codes : all_passed codes → failed codes = [].
Proof.
  induction 1 as [|[n c] codes Hc _ IH]; [done|].
  unfold failed in *. simpl in *. subst c. simpl. exact IH.
Qed.

Lemma run_each_app e ts1 ts2 w :
  Forall returns ts1 →
  run_each e (ts1 ++ ts2) w =
    (fst (run_each e ts1 w) ++ fst (run_each e ts2 (snd (run_each e ts1 w))),
     snd (run_each e ts2 (snd (run_each e ts1 w))))%list.
Proof.
  intros H. revert w. induction H as [|t ts1 Ht _ IH]; intros w; simpl.
  - by destruct (run_each e ts2 w).
  - destruct (Ht [] e w) as [code Hcode].
    destruct (run t [] e w) as [r w'] eqn:Hr. simpl in Hcode. subst r.
    rewrite IH. by destruct (run_each e ts1 w').
Qed.

(** With a truthy [ignore_fail] the loop runs every subtask and collects
    the names of those that failed. *)
Lemma run_subtasks_all ignore_fail e ts acc w :
  truthy ignore_fail = true →
  Forall returns ts →
  run_subtasks ignore_fail e ts acc w
  = (Return (acc ++ failed (fst (run_each e ts w)))%list, snd (run_each e ts w)).
Proof.
  intros Hig H. revert acc w.
  induction H as [|t ts Ht _ IH]; intros acc w; simpl.
  - by rewrite app_nil_r.
  - destruct (Ht [] e w) as [code Hcode].
    destruct (run t [] e w) as [r w'] eqn:Hr. simpl in Hcode. subst r.
    rewrite Hig, andb_false_r, IH.
    destruct (run_each e ts w') as [codes w'']. unfold failed. simpl.
    destruct (code =? 0); simpl; [done|]. by rewrite <- app_assoc.
Qed.

(** With a falsy [ignore_fail] and no failure, every subtask runs. *)
Lemma run_subtasks_pass ignore_fail e ts acc w :
  Forall returns ts →
  all_passed (fst (run_each e ts w)) →
  run_subtasks ignore_fail e ts acc w = (Return acc, snd (run_each e ts w)).
Proof.
  intros H. revert acc w.
  induction H as [|t ts Ht _ IH]; intros acc w; simpl; [done|].
  destruct (Ht [] e w) as [code Hcode].
  destruct (run t [] e w) as [r w'] eqn:Hr. simpl in Hcode. subst r.
  destruct (run_each e ts w') as [codes w''] eqn:Hrest. simpl.
  intros Hall. apply Forall_cons in Hall as [Hc Hall]. simpl in Hc. subst code.
  simpl. specialize (IH acc w'). rewrite Hrest in IH. by apply IH.
Qed.

(** With a falsy [ignore_fail] the loop stops at the first failure: the
    world it leaves is the one right after the failing subtask. *)
Lemma run_subtasks_abort ignore_fail e pre t post acc w :
  truthy ignore_fail = false →
  Forall returns (pre ++ [t]) →
  all_passed (fst (run_each e pre w)) →
  (∀ code, fst (run t [] e (snd (run_each e pre w))) = Return code → code ≠ 0) →
  run_subtasks ignore_fail e (pre ++ t :: post) acc w
  = (Raise (ExecutionError ("Sequence aborted after failed subtask "
                            +:+ repr_str (name t))),
     snd (run_each e (pre ++ [t]) w)).
Proof.
  intros Hig. revert acc w.
  induction pre as [|p pre IH]; intros acc w Hret Hpass Hfail; simpl in *.
  - apply Forall_cons in Hret as [Ht _].
    destruct (Ht [] e w) as [code Hcode].
    destruct (run t [] e w) as [r w'] eqn:Hr. simpl in Hcode. subst r.
    specialize (Hfail code eq_refl).
    apply Z.eqb_neq in Hfail. by rewrite Hfail, Hig.
  - apply Forall_cons in Hret as [Hp Hret].
    destruct (Hp [] e w) as [code Hcode].
    destruct (run p [] e w) as [r w'] eqn:Hr. simpl in Hcode. subst r.
    destruct (run_each e pre w') as [codes w''] eqn:Hrest. simpl in *.
    apply Forall_cons in Hpass as [Hc Hpass]. simpl in Hc. subst code. simpl.
    specialize (IH acc w' Hret). rewrite Hrest in IH. simpl in IH.
    rewrite (IH Hpass Hfail).
    by destruct (run_each e (pre ++ [t]) w').
Qed.

(** An unset [ignore_fail] reads as [False]: the first member of its
    declared union, built without argument. *)
Lemma ignore_fail_default base a (opts : PoeOptions) :
  options_class opts = TaskOptions base →
  cls_annotations base = Some a →
  lookup_attr opts "ignore_fail" = None →
  Options.get opts "ignore_fail" None = Return (PBool false).
Proof.
  intros Hc Ha Hl.
  apply (get_unset_field opts "ignore_fail"
           (List.filter (fun kv => negb (startswith "_" (fst kv)))
              (dict_update (dict_update [] a)
                 [("ignore_fail", TUnion [TBool; TStr]); ("default_item_type", TStr)]))
           (TUnion [TBool; TStr])); [|done| |done].
  - rewrite Hc. unfold collect_fields. simpl. unfold annotations_of. by rewrite Ha.
  - rewrite dict_get_public, dict_get_update. reflexivity.
Qed.

Abbreviation handle_run := (_handle_run (task_spec:=task_spec) mark_multistage).

(** C3: the subtasks run in declaration order, each from the world the
    one before it left.  With a falsy [ignore_fail] (an unset one reads
    as [False]) the first failing subtask ends the run with an execution
    error that names it, in the world right after it; with
    ["return_non_zero"] all subtasks run and the sequence fails, listing
    the failing names, exactly when one failed; with [True] or
    ["return_zero"] all run and the sequence returns 0. *)
Theorem sequence_failure_policy (self : SequenceTask) context extra_args e ignore_fail :
  let e' := dict_update e (get_named_arg_values self e) in
  let w0 := if (1 <? length (subtasks self))%nat
            then mark_multistage context else context in
  (get_named_arg_values self e ≠ [] ∨ any_stripped extra_args = false) →
  Forall returns (subtasks self) →
  Options.get (spec_options (spec self)) "ignore_fail" None = Return ignore_fail →
  (truthy ignore_fail = false →
     (∀ pre t post,
         subtasks self = (pre ++ t :: post)%list →
         all_passed (fst (run_each e' pre w0)) →
         (∀ code, fst (run t [] e' (snd (run_each e' pre w0))) = Return code → code ≠ 0) →
         handle_run self context extra_args e
         = (Raise (ExecutionError ("Sequence aborted after failed subtask "
                                   +:+ repr_str (name t))),
            snd (run_each e' (pre ++ [t]) w0)))
     ∧ (all_passed (fst (run_each e' (subtasks self) w0)) →
        handle_run self context extra_args e
        = (Return 0, snd (run_each e' (subtasks self) w0))))
  ∧ (ignore_fail = PStr "return_non_zero" →
     handle_run self context extra_args e
     = (match failed (fst (run_each e' (subtasks self) w0)) with
        | [] => Return 0
        | names => Raise (ExecutionError ("Subtasks " +:+ join ", " names
                                          +:+ " returned non-zero exit status"))
        end,
        snd (run_each e' (subtasks self) w0)))
  ∧ (ignore_fail = PBool true ∨ ignore_fail = PStr "return_zero" →
     handle_run self context extra_args e
     = (Return 0, snd (run_each e' (subtasks self) w0)))
  ∧ (∀ base a,
        options_class (spec_options (spec self)) = TaskOptions base →
        cls_annotations base = Some a →
        lookup_attr (spec_options (spec self)) "ignore_fail" = None →
        ignore_fail = PBool false).
Proof.
  intros e' w0 Hargs Hret Hget.
  assert ((match get_named_arg_values self e with [] => true | _ => false end
           && any_stripped extra_args) = false) as Hguard.
  { destruct Hargs as [Hn| ->]; [|apply andb_false_r].
    by destruct (get_named_arg_values self e). }
  assert (handle_run self context extra_args e =
               match run_subtasks ignore_fail e' (subtasks self) [] w0 with
               | (Raise err, c) => (Raise err, c)
               | (Return non_zero, c) =>
                   if match non_zero with [] => false | _ => true end
                      && eq_str ignore_fail "return_non_zero"
                   then (Raise (ExecutionError ("Subtasks " +:+ join ", " non_zero
                                                +:+ " returned non-zero exit status")), c)
                   else (Return 0, c)
               end) as Hrun.
  { unfold _handle_run. rewrite Hguard. fold w0. fold e'. by rewrite Hget. }
  split; [intros Hig; split | split; [|split]].
  - intros pre t post Hts Hpass Hfail. rewrite Hrun, Hts.
    rewrite (run_subtasks_abort ignore_fail e' pre t post [] w0); try done.
    rewrite Hts in Hret. apply Forall_app in Hret as [Hpre Hpost].
    apply Forall_app. split; [done|]. apply Forall_cons in Hpost as [Ht _].
    by constructor.
  - intros Hpass. rewrite Hrun, (run_subtasks_pass ignore_fail e' _ [] w0) by done.
    done.
  - intros ->. rewrite Hrun, run_subtasks_all by done. simpl.
    by destruct (failed _).
  - intros Hig. rewrite Hrun, run_subtasks_all by (by destruct Hig as [-> | ->]).
    simpl. destruct Hig as [-> | ->]; simpl; by rewrite andb_false_r.
  - intros base a Hc Ha Hl.
    rewrite (ignore_fail_default base a _ Hc Ha Hl) in Hget. by injection Hget.
Qed.
End WithWorld.

(** A run whose world is the multistage flag and the log of the tasks that
    ran: the sequence [[ok, fail, ok]]. *)
Module Sample.
Definition world : Type := bool * list string.

Definition mark (w : world) : world := (true, snd w).

Definition logging_task (n : string) (code : Z) : PoeTask world :=
  {| name := n; invocation := [n]; capture_stdout := PBool false;
     run := fun _ _ w => (Return code, (fst w, snd w ++ [n])%list) |}.

(** A stand-in for the options class of [PoeTask] that declares no
    option. *)
Definition bare_TaskOptions : pyclass :=
  {| cls_name := "PoeTask.TaskOptions"; cls_bases := [PoeOptions_class];
     cls_annotations := Some []; cls_dict := [] |}.

Definition sequence (bound : list (string * pyval)) : @SequenceTask world unit :=
  {| spec := {| spec_name := "check";
                spec_options := {| options_class := TaskOptions bare_TaskOptions;
                                   options_dict := bound |};
                spec_subtasks := [tt; tt; tt] |};
     seq_invocation := ["check"];
     seq_capture_stdout := PBool false;
     subtasks := [logging_task "check[0]" 0; logging_task "check[1]" 1;
                  logging_task "check[2]" 0];
     get_named_arg_values := fun _ => [] |}.

Lemma subtasks_return bound : Forall returns (subtasks (sequence bound)).
Proof. repeat constructor; intros args e w; eexists; reflexivity. Qed.
End Sample.

Lemma sequence_failure_policy_witness :
  _handle_run Sample.mark (Sample.sequence []) (false, []) [] []
  = (Raise (ExecutionError "Sequence aborted after failed subtask 'check[1]'"),
     (true, ["check[0]"; "check[1]"]))
  ∧ _handle_run Sample.mark
      (Sample.sequence [("ignore_fail", PStr "return_non_zero")]) (false, []) [] []
    = (Raise (ExecutionError "Subtasks check[1] returned non-zero exit status"),
       (true, ["check[0]"; "check[1]"; "check[2]"]))
  ∧ _handle_run Sample.mark
      (Sample.sequence [("ignore_fail", PBool true)]) (false, []) [] []
    = (Return 0, (true, ["check[0]"; "check[1]"; "check[2]"])).
Proof.
  split; [|split].
  - destruct (sequence_failure_policy Sample.mark (Sample.sequence []) (false, []) [] []
                (PBool false) (or_intror eq_refl) (Sample.subtasks_return [])
                eq_refl) as [Habort _].
    destruct (Habort eq_refl) as [Hstop _].
    apply (Hstop [Sample.logging_task "check[0]" 0] (Sample.logging_task "check[1]" 1)
                 [Sample.logging_task "check[2]" 0] eq_refl).
    + by repeat constructor.
    + intros code [= <-]. done.
  - destruct (sequence_failure_policy Sample.mark
                (Sample.sequence [("ignore_fail", PStr "return_non_zero")])
                (false, []) [] [] (PStr "return_non_zero") (or_intror eq_refl)
                (Sample.subtasks_return _) eq_refl) as (_ & Hall & _).
    exact (Hall eq_refl).
  - destruct (sequence_failure_policy Sample.mark
                (Sample.sequence [("ignore_fail", PBool true)])
                (false, []) [] [] (PBool true) (or_intror eq_refl)
                (Sample.subtasks_return _) eq_refl) as (_ & _ & Hzero & _).
    exact (Hzero (or_introl eq_refl)).
Defined.

Section Init.
Context {world task_spec : Type}
        (task_spec_name : task_spec → string)
        (from_spec : task_spec → list string → pyval → result (PoeTask world)).

Lemma in_tuple_false_none v :
  in_tuple v [PBool false; PNone] = true ↔ v = PBool false ∨ v = PNone ∨ v = PInt 0.
Proof.
  unfold in_tuple, eq_scalar. simpl. split.
  - destruct v as [|[]|n| | | |]; simpl; try done; eauto.
    rewrite !orb_false_r. intros H. apply bool_decide_eq_true in H.
    injection H as ->. eauto.
  - intros [->|[->| ->]]; done.
Qed.

End Init.

(** The switch [pick] without cases whose control spec is the sequence
    [check]. *)
Module SamplePipeline.
Definition base_TaskOptions : pyclass :=
  {| cls_name := "PoeTask.TaskOptions"; cls_bases := [PoeOptions_class];
     cls_annotations := Some [("args", TUnion [TDict; TList; TNoneType]);
                              ("capture_stdout", TStr)];
     cls_dict := [] |}.

Definition from_spec :=
  Pipeline.from_spec (world:=Sample.world) Sample.mark (fun _ : unit => "check[0]")
    (fun _ _ _ => Return (Sample.logging_task "check[0]" 0)) (fun _ => []).

Definition pick_spec : @Switch.TaskSpec (@TaskSpec unit) :=
  {| Switch.spec_name := "pick";
     Switch.spec_options := {| options_class := Switch.TaskOptions base_TaskOptions;
                               options_dict := [] |};
     Switch.control_spec := spec (Sample.sequence []);
     Switch.case_specs := [] |}.

Definition pick_def : list (string * pyval) :=
  [("control", PDict [("sequence", PList [PStr "ruff ."; PStr "pytest"])]);
   ("switch", PList [])].
End SamplePipeline.



End SequenceFacts.

(** ** task/switch.py *)

Module SwitchFacts.
Import Options Task Switch OptionsFacts.

(** *** Lookups in the dispatch table *)

Lemma eq_scalar_str s k : eq_scalar (PStr s) k = true ↔ k = PStr s.
Proof.
  unfold eq_scalar. simpl. split.
  - destruct k as [|[]| | | | |]; simpl; try done;
      intros H; apply bool_decide_eq_true in H; by simplify_eq.
  - intros ->. simpl. by apply bool_decide_eq_true.
Qed.

Lemma keyed_get_str_Some {V} s (d : list (pyval * V)) v :
  keyed_get (PStr s) d = Some v → (PStr s, v) ∈ d.
Proof.
  induction d as [|[k v'] d IH]; simpl; [done|].
  destruct (eq_scalar (PStr s) k) eqn:E.
  - apply eq_scalar_str in E as ->. intros [= ->]. by left.
  - intros H. right. by apply IH.
Qed.

Lemma keyed_get_str_None {V} s (d : list (pyval * V)) :
  keyed_get (PStr s) d = None → ∀ v, (PStr s, v) ∉ d.
Proof.
  induction d as [|[k v'] d IH]; simpl; intros H v Hin.
  - by apply elem_of_nil in Hin.
  - destruct (eq_scalar (PStr s) k) eqn:E; [done|].
    apply elem_of_cons in Hin as [[= <- <-]|Hin].
    + assert (eq_scalar (PStr s) (PStr s) = true) by by apply eq_scalar_str.
      congruence.
    + by eapply IH.
Qed.

Lemma eq_str_true v s : eq_str v s = true ↔ v = PStr s.
Proof.
  destruct v; simpl; try (split; done).
  rewrite String.eqb_eq. split; [by intros -> | by intros [= ->]].
Qed.

(** An unset [default] reads as the ["fail"] that [_handle_run] passes. *)
Lemma default_option_unset base a (opts : PoeOptions) :
  options_class opts = TaskOptions base →
  cls_annotations base = Some a →
  lookup_attr opts "default" = None →
  Options.get opts "default" (Some (PStr "fail")) = Return (PStr "fail").
Proof.
  intros Hc Ha Hl.
  assert (collect_fields (options_class opts)
          = Return (List.filter (fun kv => negb (startswith "_" (fst kv)))
                      (dict_update (dict_update [] a)
                         [("control", TUnion [TStr; TDict]); ("default", TStr)]))) as Hfs.
  { rewrite Hc. unfold collect_fields. simpl. unfold annotations_of. by rewrite Ha. }
  unfold get. change (normalize_key "default") with "default".
  unfold hasattr, getattr. rewrite Hl, Hfs.
  change (Return ?x ≫= ?f) with (f x). cbv beta.
  unfold dict_has. rewrite dict_get_public, dict_get_update. reflexivity.
Qed.

Section WithWorld.
Context {world task_spec : Type}
        (dry : world → bool)
        (mark_multistage : world → world)
        (get_task_output : world → list string → result string)
        (print_action : @SwitchTask world task_spec → string → bool → bool → world
                        → result unit * world).

Abbreviation handle_run :=
  (_handle_run (task_spec:=task_spec) dry mark_multistage get_task_output print_action).

(** C4: after a successful control task, outside a dry run, the captured
    output selects the case registered under exactly that string, else
    the default case; the selected case runs with the switch's extra
    arguments and its result is the switch's result.  With no case
    selected the switch returns 0 in the world the control task left,
    so no case ran, when its [default] option is ["pass"] (an unset one
    reads as ["fail"]), and otherwise raises an execution error naming
    the value. *)
Theorem switch_dispatch (self : SwitchTask) context extra_args e args w1 output :
  let e' := dict_update e (get_named_arg_values self e) in
  (get_named_arg_values self e ≠ [] ∨ any_stripped extra_args = false) →
  Options.get (spec_options (spec self)) "args" None = Return args →
  run (control_task self) (if truthy args then extra_args else []) e'
      (mark_multistage context) = (Return 0, w1) →
  dry w1 = false →
  get_task_output w1 (invocation (control_task self)) = Return output →
  (∀ case_task,
      keyed_get (PStr output) (switch_tasks self) = Some case_task →
      (PStr output, case_task) ∈ switch_tasks self
      ∧ handle_run self context extra_args e = run case_task extra_args e' w1)
  ∧ (keyed_get (PStr output) (switch_tasks self) = None →
     (∀ case_task, (PStr output, case_task) ∉ switch_tasks self)
     ∧ (∀ case_task,
           keyed_get (PStr DEFAULT_CASE) (switch_tasks self) = Some case_task →
           handle_run self context extra_args e = run case_task extra_args e' w1)
     ∧ (keyed_get (PStr DEFAULT_CASE) (switch_tasks self) = None →
        ∀ default,
          Options.get (spec_options (spec self)) "default" (Some (PStr "fail"))
          = Return default →
          (default = PStr "pass" →
           handle_run self context extra_args e = (Return 0, w1))
          ∧ (default ≠ PStr "pass" →
             handle_run self context extra_args e
             = (Raise (ExecutionError
                         ("Control value " +:+ repr_str output
                          +:+ " did not match any cases in switch task "
                          +:+ repr_str (spec_name (spec self)) +:+ ".")), w1))
          ∧ (∀ base a,
                options_class (spec_options (spec self)) = TaskOptions base →
                cls_annotations base = Some a →
                lookup_attr (spec_options (spec self)) "default" = None →
                default = PStr "fail"))).
Proof.
  intros e' Hargs Hget Hrun Hdry Hout.
  assert (∀ r,
             match
               match keyed_get (PStr output) (switch_tasks self) with
               | Some t => Some t
               | None => keyed_get (PStr DEFAULT_CASE) (switch_tasks self)
               end
             with
             | None =>
                 match Options.get (spec_options (spec self)) "default"
                                   (Some (PStr "fail")) with
                 | Raise err => (Raise err, w1)
                 | Return default =>
                     if eq_str default "pass" then (Return 0, w1)
                     else (Raise (ExecutionError
                                    ("Control value " +:+ repr_str output
                                     +:+ " did not match any cases in switch task "
                                     +:+ repr_str (spec_name (spec self)) +:+ ".")),
                           w1)
                 end
             | Some case_task => run case_task extra_args e' w1
             end = r →
             handle_run self context extra_args e = r) as Hstep.
  { intros r <-. unfold _handle_run. fold e'.
    assert ((match get_named_arg_values self e with [] => true | _ => false end
             && any_stripped extra_args) = false) as ->.
    { destruct Hargs as [Hn| ->]; [|apply andb_false_r].
      by destruct (get_named_arg_values self e). }
    rewrite Hget, Hrun. simpl. by rewrite Hdry, Hout. }
  split.
  - intros case_task Hk. split; [by apply keyed_get_str_Some|].
    apply Hstep. by rewrite Hk.
  - intros Hno. split; [by apply keyed_get_str_None|]. split.
    + intros case_task Hd. apply Hstep. by rewrite Hno, Hd.
    + intros Hnd default Hdef. split; [|split].
      * intros ->. apply Hstep. by rewrite Hno, Hnd, Hdef.
      * intros Hne. apply Hstep. rewrite Hno, Hnd, Hdef.
        destruct (eq_str default "pass") eqn:E; [|done].
        by apply eq_str_true in E.
      * intros base a Hc Ha Hl.
        rewrite (default_option_unset base a _ Hc Ha Hl) in Hdef. by injection Hdef.
Qed.
End WithWorld.

(** A switch named [pick] whose world is the log of the tasks that ran:
    cases [a], [[b, c]] and, optionally, a default case. *)
Module Sample.
Definition world : Type := list string.

Definition logging_task (n : string) (code : Z) : PoeTask world :=
  {| name := n; invocation := [n]; capture_stdout := PBool false;
     run := fun _ _ w => (Return code, (w ++ [n])%list) |}.

(** A stand-in for the options class of [PoeTask] that declares [args]
    and [capture_stdout]. *)
Definition base_TaskOptions : pyclass :=
  {| cls_name := "PoeTask.TaskOptions"; cls_bases := [PoeOptions_class];
     cls_annotations := Some [("args", TUnion [TDict; TList; TNoneType]);
                              ("capture_stdout", TStr)];
     cls_dict := [] |}.

Definition pick_spec (bound : list (string * pyval)) : @TaskSpec unit :=
  {| spec_name := "pick";
     spec_options := {| options_class := TaskOptions base_TaskOptions;
                        options_dict := bound |};
     control_spec := tt;
     case_specs := [([PStr "a"], tt); ([PStr "b"; PStr "c"], tt)] |}.

Definition case_a := logging_task "pick[0]" 0.
Definition case_bc := logging_task "pick[1]" 3.
Definition case_default := logging_task "pick[2]" 0.

Definition pick (bound : list (string * pyval)) (with_default : bool)
  : @SwitchTask world unit :=
  {| spec := pick_spec bound;
     switch_invocation := ["pick"];
     switch_capture_stdout := PBool false;
     control_task := logging_task "pick[control]" 0;
     switch_tasks :=
       [(PStr "a", case_a); (PStr "b", case_bc); (PStr "c", case_bc)]
       ++ (if with_default then [(PStr DEFAULT_CASE, case_default)] else []);
     get_named_arg_values := fun _ => [] |}.

(** The UI of the sample logs the message of an action. *)
Definition print_action (_ : @SwitchTask world unit) (message : string)
           (dry unresolved : bool) (w : world) : result unit * world :=
  (Return tt, (w ++ [message])%list).

Definition handle_run (output : string) :=
  @_handle_run world unit (fun _ => false) (fun w => w) (fun _ _ => Return output)
    print_action.
End Sample.

Lemma switch_dispatch_witness :
  Sample.handle_run "b" (Sample.pick [] true) [] [] []
  = (Return 3, ["pick[control]"; "pick[1]"])
  ∧ Sample.handle_run "z" (Sample.pick [] false) [] [] []
    = (Raise (ExecutionError
                "Control value 'z' did not match any cases in switch task 'pick'."),
       ["pick[control]"])
  ∧ Sample.handle_run "z" (Sample.pick [("default", PStr "pass")] false) [] [] []
    = (Return 0, ["pick[control]"]).
Proof.
  split; [|split].
  - destruct (switch_dispatch (task_spec:=unit) (fun _ => false) (fun w => w)
                (fun _ _ => Return "b") Sample.print_action (Sample.pick [] true) [] [] [] (PDict [])
                ["pick[control]"] "b" (or_intror eq_refl) eq_refl eq_refl eq_refl eq_refl)
      as [Hcase _].
    exact (proj2 (Hcase Sample.case_bc eq_refl)).
  - destruct (switch_dispatch (task_spec:=unit) (fun _ => false) (fun w => w)
                (fun _ _ => Return "z") Sample.print_action (Sample.pick [] false) [] [] [] (PDict [])
                ["pick[control]"] "z" (or_intror eq_refl) eq_refl eq_refl eq_refl eq_refl)
      as [_ Hnone].
    destruct (Hnone eq_refl) as (_ & _ & Hdefault).
    destruct (Hdefault eq_refl (PStr "fail") eq_refl) as (_ & Hfail & _).
    apply Hfail. done.
  - destruct (switch_dispatch (task_spec:=unit) (fun _ => false) (fun w => w)
                (fun _ _ => Return "z") Sample.print_action
                (Sample.pick [("default", PStr "pass")] false)
                [] [] [] (PDict []) ["pick[control]"] "z" (or_intror eq_refl)
                eq_refl eq_refl eq_refl eq_refl)
      as [_ Hnone].
    destruct (Hnone eq_refl) as (_ & _ & Hdefault).
    destruct (Hdefault eq_refl (PStr "pass") eq_refl) as (Hpass & _).
    exact (Hpass eq_refl).
Defined.

(** *** Instantiation *)

Section Init.
Context {world task_spec : Type}
        (from_spec : task_spec → list string → pyval → result (PoeTask world))
        (spec_control : @TaskSpec task_spec → result task_spec).

(** The first statement of the case loop reads the unbound [name]. *)
Lemma instantiate_cases_name_error sp invocation capture_stdout item rest tasks :
  instantiate_cases from_spec sp invocation capture_stdout (item :: rest) tasks
  = Raise (NameError "name").
Proof. by destruct item. Qed.

(** The control task is asked for with capture on, whatever the switch
    itself was given. *)
Lemma init_control_capture sp invocation capture_stdout named args control :
  case_specs sp = [] →
  Options.get (spec_options sp) "args" None = Return args →
  spec_control sp = Return control →
  Switch.init from_spec spec_control sp invocation capture_stdout named
  = (control_task ←
       from_spec control
         (if truthy args then spec_name sp :: tail invocation else [spec_name sp])
         (PBool true);
     Return {| spec := sp; switch_invocation := invocation;
               switch_capture_stdout := PBool false;
               control_task := control_task; switch_tasks := [];
               get_named_arg_values := named |}).
Proof.
  intros Hcases Hargs Hcontrol. unfold Switch.init.
  rewrite Hargs, Hcontrol, Hcases. simpl. by destruct (from_spec _ _ _).
Qed.

(** No switch with a case is ever instantiated. *)
Lemma init_with_case_raises sp invocation capture_stdout named item rest :
  case_specs sp = item :: rest →
  ∃ err, Switch.init from_spec spec_control sp invocation capture_stdout named
         = Raise err.
Proof.
  intros Hcases. unfold Switch.init. unfold_result.
  destruct (get _ _ _); [|eauto].
  destruct (spec_control sp); [|eauto].
  destruct (from_spec _ _ _); [|eauto].
  rewrite Hcases, instantiate_cases_name_error. eauto.
Qed.
End Init.

(** C5: instantiating the spec of [pick], which has the two cases [a] and
    [[b, c]], builds no dispatch table.  Even when [self.spec.control]
    resolves and the control task is created with capture on, the case
    loop stops at its first statement with a [NameError] for [name]; and
    whatever [from_spec] and [self.spec.control] do, the constructor
    raises. *)
Theorem switch_init_name_error :
  Switch.init (fun (_ : unit) _ _ => Return (Sample.logging_task "pick[control]" 0))
              (fun sp => Return (control_spec sp))
              (Sample.pick_spec []) ["pick"] (PBool false) (fun _ => [])
  = Raise (NameError "name")
  ∧ ∀ from_spec spec_control capture_stdout,
      ∃ err, Switch.init (world:=Sample.world) from_spec spec_control
               (Sample.pick_spec []) ["pick"] capture_stdout (fun _ => [])
             = Raise err.
Proof.
  split; [reflexivity|].
  intros from_spec spec_control capture_stdout.
  by eapply init_with_case_raises.
Qed.

(** *** Validation *)

Lemma eq_scalar_key a b :
  eq_scalar a b = true ↔ ∃ h, key_of a = Some h ∧ key_of b = Some h.
Proof.
  unfold eq_scalar. destruct (key_of a) as [x|], (key_of b) as [y|].
  - rewrite bool_decide_eq_true. split; [intros ->; eauto|].
    intros (h & [= ->] & [= ->]). done.
  - split; [done | intros (h & _ & ?); done].
  - split; [done | intros (h & ? & _); done].
  - split; [done | intros (h & ? & _); done].
Qed.

Lemma eq_scalar_refl k : hashable k = true → eq_scalar k k = true.
Proof.
  unfold hashable. intros H. apply eq_scalar_key.
  destruct (key_of k); [eauto | done].
Qed.

Lemma eq_scalar_trans_l a b c :
  eq_scalar b c = true → eq_scalar a c = eq_scalar a b.
Proof.
  intros (h & Hb & Hc)%eq_scalar_key. unfold eq_scalar. by rewrite Hb, Hc.
Qed.

(** How often a key was counted. *)
Definition count_of (k : pyval) (cases : list (pyval * nat)) : nat :=
  default 0%nat (keyed_get k cases).

(** How often a key occurs among the declared case values. *)
Definition occurrences (k : pyval) (keys : list pyval) : nat :=
  length (List.filter (eq_scalar k) keys).

Lemma count_of_count_key k k' cases :
  count_of k (count_key k' cases)
  = (count_of k cases + (if eq_scalar k k' then 1 else 0))%nat.
Proof.
  unfold count_of. induction cases as [|[k'' n] cases IH]; simpl.
  - by destruct (eq_scalar k k').
  - destruct (eq_scalar k' k'') eqn:E; simpl.
    + rewrite (eq_scalar_trans_l k k' k'' E).
      destruct (eq_scalar k k'); simpl; lia.
    + destruct (eq_scalar k k'') eqn:E'; [|apply IH]. simpl.
      destruct (eq_scalar k k') eqn:E''; [|lia].
      apply eq_scalar_key in E' as (h & Hk & Hk'').
      apply eq_scalar_key in E'' as (h' & Hk2 & Hk').
      assert (eq_scalar k' k'' = true); [|congruence].
      apply eq_scalar_key. exists h. split; congruence.
  Qed.

Lemma count_keys_returns keys cases :
  Forall (λ k, hashable k = true) keys →
  count_keys keys cases = Return (foldl (λ c k, count_key k c) cases keys).
Proof.
  intros H. revert cases. induction H as [|k keys Hk _ IH]; intros cases; simpl; [done|].
  by rewrite Hk, IH.
Qed.

Lemma count_of_foldl k keys cases :
  count_of k (foldl (λ c k', count_key k' c) cases keys)
  = (count_of k cases + occurrences k keys)%nat.
Proof.
  unfold occurrences. revert cases.
  induction keys as [|k' keys IH]; intros cases; simpl; [lia|].
  rewrite IH, count_of_count_key. destruct (eq_scalar k k'); simpl; lia.
Qed.

Lemma occurrences_app k l1 l2 :
  occurrences k (l1 ++ l2) = (occurrences k l1 + occurrences k l2)%nat.
Proof. unfold occurrences. by rewrite List.filter_app, length_app. Qed.

Lemma occurrences_elem k keys :
  hashable k = true → k ∈ keys → (1 ≤ occurrences k keys)%nat.
Proof.
  intros Hk Hin. apply list_elem_of_split in Hin as (l1 & l2 & ->).
  rewrite occurrences_app. unfold occurrences at 2. simpl.
  rewrite eq_scalar_refl by done. simpl. lia.
Qed.

Lemma repeated_case_issue_None task_name cases k :
  repeated_case_issue task_name cases = None → (count_of k cases ≤ 1)%nat.
Proof.
  unfold repeated_case_issue, count_of.
  destruct (List.find _ cases) as [[c n]|] eqn:Hf; [by destruct (eq_str c DEFAULT_CASE)|].
  intros _. destruct (keyed_get k cases) as [n|] eqn:Hk; simpl; [|lia].
  assert (∃ k', In (k', n) cases) as [k' Hin].
  { clear Hf. induction cases as [|[k'' m] cases IH]; simpl in *; [done|].
    destruct (eq_scalar k k''); [injection Hk as ->; eauto|].
    destruct (IH Hk) as [k' ?]; eauto. }
  pose proof (find_none _ _ Hf _ Hin) as Hn. simpl in Hn.
  apply Nat.ltb_ge in Hn. done.
Qed.

Definition case_keys_of (items : list (list (string * pyval))) : list pyval :=
  concat (List.map get_case_keys items).

Lemma occurrences_two k (items : list (list (string * pyval))) i j di dj :
  hashable k = true → (i < j)%nat →
  items !! i = Some di → items !! j = Some dj →
  k ∈ get_case_keys di → k ∈ get_case_keys dj →
  (2 ≤ occurrences k (case_keys_of items))%nat.
Proof.
  intros Hk Hij Hi Hj Hki Hkj. unfold case_keys_of.
  rewrite <- (take_drop_middle items i di Hi).
  rewrite List.map_app, concat_app. simpl. rewrite !occurrences_app.
  pose proof (occurrences_elem k _ Hk Hki).
  assert (1 ≤ occurrences k (concat (List.map get_case_keys (drop (S i) items))))%nat;
    [|lia].
  apply occurrences_elem; [done|].
  assert (drop (S i) items !! (j - S i)%nat = Some dj) as Hd.
  { rewrite lookup_drop. rewrite <- Hj. f_equal. lia. }
  apply list_elem_of_lookup_2 in Hd. apply list_elem_of_In.
  apply in_concat. exists (get_case_keys dj). split; [|by apply list_elem_of_In].
  apply in_map. by apply list_elem_of_In.
Qed.

Section Validation.
Context (validate_def : string → pyval → bool → list string → option string).

Lemma reported_Some issue : reported issue = true → ∃ msg, issue = Some msg.
Proof. destruct issue; [eauto | done]. Qed.

Lemma invalid_option_issue_None task_name d :
  invalid_option_issue task_name d = None →
  dict_has "args" d = false ∧ dict_has "deps" d = false.
Proof.
  unfold invalid_option_issue. simpl.
  destruct (dict_has "args" d); [by destruct (dict_get "case" d)|].
  destruct (dict_has "deps" d); [by destruct (dict_get "case" d)|]. done.
Qed.

(** On well-shaped cases the loop returns; when it finds no issue, every
    declared case value was counted and no case has [args] or [deps]. *)
Lemma validate_cases_returns task_name items cases :
  Forall (λ d, Forall (λ k, hashable k = true) (get_case_keys d)) items →
  ∃ issue cases',
    validate_cases validate_def task_name (List.map PDict items) cases
    = Return (issue, cases')
    ∧ (issue = None →
       cases' = foldl (λ c k, count_key k c) cases (case_keys_of items)
       ∧ Forall (λ d, dict_has "args" d = false ∧ dict_has "deps" d = false) items).
Proof.
  intros H. revert cases.
  induction H as [|d items Hd _ IH]; intros cases; simpl.
  - eexists _, _. split; [done|]. intros _. by split.
  - rewrite (count_keys_returns _ _ Hd). simpl.
    destruct (invalid_option_issue task_name d) as [issue|] eqn:Hinv.
    { eexists _, _. split; [done|]. done. }
    destruct (reported _) eqn:Hrep.
    { apply reported_Some in Hrep as [msg Hmsg]. rewrite Hmsg.
      eexists _, _. split; [done|]. done. }
    destruct (IH (foldl (λ c k, count_key k c) cases (get_case_keys d)))
      as (issue & cases' & Hv & Hnone).
    exists issue, cases'. split; [done|].
    intros Hi. destruct (Hnone Hi) as [-> Hall]. split.
    + unfold case_keys_of. simpl. by rewrite foldl_app.
    + constructor; [by eapply invalid_option_issue_None | done].
Qed.

Lemma not_pass_fail v :
  v ≠ PStr "pass" → v ≠ PStr "fail" → in_tuple v [PStr "pass"; PStr "fail"] = false.
Proof.
  intros Hp Hf. unfold in_tuple. simpl.
  destruct (eq_scalar v (PStr "pass")) eqn:E1.
  { apply eq_scalar_key in E1 as (h & Hv & [= <-]).
    destruct v as [|[]| | | | |]; simpl in Hv; by simplify_eq. }
  destruct (eq_scalar v (PStr "fail")) eqn:E2; [|done].
  apply eq_scalar_key in E2 as (h & Hv & [= <-]).
  destruct v as [|[]| | | | |]; simpl in Hv; by simplify_eq.
Qed.

(** C6: on a switch definition whose [switch] entry is a list of case
    mappings with scalar case values, validation reports an error when
    two cases share a case value (two untagged cases share the default
    sentinel), when the [default] option is neither ["pass"] nor
    ["fail"], when a [default] option comes with an untagged case, and
    when a case carries [args] or [deps]. *)
Theorem switch_validation_rejects task_name task_def items :
  dict_get "switch" task_def = Some (PList (List.map PDict items)) →
  Forall (λ d, Forall (λ k, hashable k = true) (get_case_keys d)) items →
  ((∃ i j di dj k,
       i ≠ j ∧ items !! i = Some di ∧ items !! j = Some dj
       ∧ k ∈ get_case_keys di ∧ k ∈ get_case_keys dj)
   ∨ (∃ v, dict_get "default" task_def = Some v ∧ v ≠ PStr "pass" ∧ v ≠ PStr "fail")
   ∨ (is_Some (dict_get "default" task_def)
      ∧ ∃ d, d ∈ items ∧ dict_get "case" d = None)
   ∨ (∃ d, d ∈ items ∧ (dict_has "args" d = true ∨ dict_has "deps" d = true))) →
  ∃ msg, _validate_task_def validate_def task_name task_def = Return (Some msg).
Proof.
  intros Hswitch Hshape Hbad. unfold _validate_task_def.
  destruct (negb (truthy _)); [eauto|].
  match goal with |- context [if ?c then Return (Some ?m) else _] =>
    destruct c; [eauto|] end.
  destruct (reported _) eqn:Hrep.
  { apply reported_Some in Hrep as [msg ->]. eauto. }
  simpl. rewrite Hswitch. simpl.
  destruct (validate_cases_returns task_name items [] Hshape)
    as (issue & cases & -> & Hnone).
  simpl. destruct issue as [msg|]; [eauto|].
  destruct (Hnone eq_refl) as [Hcases Hclean].
  destruct (repeated_case_issue task_name cases) as [msg|] eqn:Hrepeat; [eauto|].
  assert (∀ k, count_of k cases = occurrences k (case_keys_of items)) as Hcount.
  { intros k. rewrite Hcases, count_of_foldl. done. }
  destruct Hbad as [Hdup|[Hdef|[Hboth|Hopt]]].
  - exfalso. destruct Hdup as (i & j & di & dj & k & Hij & Hi & Hj & Hki & Hkj).
    pose proof (repeated_case_issue_None task_name cases k Hrepeat) as Hle.
    rewrite Hcount in Hle.
    assert (hashable k = true) as Hk.
    { apply list_elem_of_lookup_2 in Hi.
      rewrite Forall_forall in Hshape. specialize (Hshape di Hi).
      rewrite Forall_forall in Hshape. by apply Hshape. }
    destruct (Nat.lt_total i j) as [Hlt|[->|Hlt]]; [|done|].
    + pose proof (occurrences_two k items i j di dj Hk Hlt Hi Hj Hki Hkj). lia.
    + pose proof (occurrences_two k items j i dj di Hk Hlt Hj Hi Hkj Hki). lia.
  - destruct Hdef as (v & -> & Hp & Hf).
    change (eq_scalar v (PStr "pass") || (eq_scalar v (PStr "fail") || false))
      with (in_tuple v [PStr "pass"; PStr "fail"]).
    rewrite (not_pass_fail v Hp Hf). simpl. eauto.
  - destruct Hboth as [[v ->] (d & Hd & Hcase)].
    destruct (negb _); [eauto|].
    assert (1 ≤ count_of (PStr DEFAULT_CASE) cases)%nat as Hone.
    { rewrite Hcount. apply occurrences_elem; [done|].
      unfold case_keys_of. apply list_elem_of_In, in_concat.
      exists (get_case_keys d). split; [by apply in_map, list_elem_of_In|].
      unfold get_case_keys, dict_get_default. rewrite Hcase. by left. }
    unfold count_of in Hone.
    destruct (keyed_get (PStr DEFAULT_CASE) cases); [eauto | simpl in Hone; lia].
  - exfalso. destruct Hopt as (d & Hd & Hopt).
    rewrite Forall_forall in Hclean. destruct (Hclean d Hd) as [Ha Hb].
    destruct Hopt; congruence.
Qed.
End Validation.

(** Two cases tagged [x], and two untagged cases. *)
Definition twice_x : list (string * pyval) :=
  [("control", PStr "echo x");
   ("switch", PList [PDict [("case", PStr "x"); ("cmd", PStr "echo 1")];
                     PDict [("case", PStr "x"); ("cmd", PStr "echo 2")]])].

Definition twice_default : list (string * pyval) :=
  [("control", PStr "echo x");
   ("switch", PList [PDict [("cmd", PStr "echo 1")];
                     PDict [("cmd", PStr "echo 2")]])].

Example validate_twice_x :
  _validate_task_def (fun _ _ _ _ => None) "pick" twice_x
  = Return (Some "Switch task 'pick' includes more than one case for 'x'").
Proof. reflexivity. Qed.

Example validate_twice_default :
  _validate_task_def (fun _ _ _ _ => None) "pick" twice_default
  = Return (Some "Switch task 'pick' includes more than one default case").
Proof. reflexivity. Qed.

Lemma switch_validation_rejects_witness :
  (∃ msg, _validate_task_def (fun _ _ _ _ => None) "pick" twice_x = Return (Some msg))
  ∧ (∃ msg, _validate_task_def (fun _ _ _ _ => None) "pick" twice_default
            = Return (Some msg)).
Proof.
  split.
  - apply (switch_validation_rejects (fun _ _ _ _ => None) "pick" twice_x
             [[("case", PStr "x"); ("cmd", PStr "echo 1")];
              [("case", PStr "x"); ("cmd", PStr "echo 2")]] eq_refl).
    + repeat constructor.
    + left. exists 0%nat, 1%nat, [("case", PStr "x"); ("cmd", PStr "echo 1")],
        [("case", PStr "x"); ("cmd", PStr "echo 2")], (PStr "x").
      repeat split; try done; by left.
  - apply (switch_validation_rejects (fun _ _ _ _ => None) "pick" twice_default
             [[("cmd", PStr "echo 1")]; [("cmd", PStr "echo 2")]] eq_refl).
    + repeat constructor.
    + left. exists 0%nat, 1%nat, [("cmd", PStr "echo 1")], [("cmd", PStr "echo 2")],
        (PStr DEFAULT_CASE).
      repeat split; try done; by left.
Defined.

End SwitchFacts.

(** ** options.py: construction, defaults and caching *)

Module OptionsMore.
Import Options OptionsFacts.

(** X1: [get_fields] never reads its cache back.  Whatever is stored under
    the mangled cache name, a call recomputes the fields from the
    annotations, stores them, and a further call changes nothing. *)
Theorem get_fields_recomputes c st fs stale :
  cls_hasattr st c "__annotations" = false →
  collect_fields c = Return fs →
  let st1 := store_set (cls_name c) mangled stale st in
  get_fields c st1 = (Return fs, store_set (cls_name c) mangled fs st1)
  ∧ get_fields c (snd (get_fields c st1)) = get_fields c st1.
Proof.
  intros Hno Hfs st1.
  assert (cls_hasattr st1 c "__annotations" = false) as Hno1
    by (unfold st1; by rewrite cls_hasattr_set).
  rewrite (get_fields_value c st1 fs Hno1 Hfs). split; [done|]. simpl.
  assert (cls_hasattr (store_set (cls_name c) mangled fs st1) c "__annotations" = false)
    as Hno2 by by rewrite cls_hasattr_set.
  rewrite (get_fields_value c _ fs Hno2 Hfs). f_equal.
  unfold store_set. simpl. rewrite !String.eqb_refl. simpl. f_equal.
  by rewrite !filter_twice.
Qed.

Lemma get_fields_recomputes_witness :
  get_fields ChildOptions
    (store_set "ChildOptions" mangled [("stale", TInt)] [])
  = (Return [("y", TInt); ("z", TStr)],
     [("ChildOptions", mangled, [("y", TInt); ("z", TStr)])]).
Proof.
  exact (proj1 (get_fields_recomputes ChildOptions [] [("y", TInt); ("z", TStr)]
                  [("stale", TInt)] eq_refl eq_refl)).
Defined.

Lemma get_fields_collect c st fs :
  cls_hasattr st c "__annotations" = false →
  fst (get_fields c st) = Return fs → collect_fields c = Return fs.
Proof.
  intros Hno. destruct (collect_fields c) as [fs'|e] eqn:Hc.
  - rewrite (get_fields_value c st fs' Hno Hc). simpl. congruence.
  - unfold get_fields. by rewrite Hno, Hc.
Qed.

(** X2: no field of [get_fields] starts with an underscore; a public
    annotation of the class itself is a field with the class's own type,
    whatever its bases declare under that name; and a public annotation of
    a sole direct base that the class does not redeclare is a field too. *)
Theorem get_fields_own_overrides c st fs :
  cls_hasattr st c "__annotations" = false →
  fst (get_fields c st) = Return fs →
  (∀ k t, dict_get k fs = Some t → startswith "_" k = false)
  ∧ (∀ own k t,
        cls_annotations c = Some own → NoDup (dict_keys own) →
        startswith "_" k = false → dict_get k own = Some t →
        dict_get k fs = Some t)
  ∧ (∀ own base inherited k t,
        cls_annotations c = Some own → NoDup (dict_keys own) →
        cls_bases c = [base] → cls_annotations base = Some inherited →
        NoDup (dict_keys inherited) →
        startswith "_" k = false → dict_get k own = None →
        dict_get k inherited = Some t →
        dict_get k fs = Some t).
Proof.
  intros Hno Hget. apply get_fields_collect in Hget; [|done].
  split; [intros k t Hk; by apply (collect_fields_public c fs k t)|].
  unfold collect_fields in Hget. unfold_result.
  destruct (update_from_bases [] (cls_bases c)) as [a|] eqn:Hb; [|done].
  unfold annotations_of in Hget. split.
  - intros own k t Hown Hnd Hk Ht. rewrite Hown in Hget. injection Hget as <-.
    rewrite dict_get_public, Hk, dict_get_update, ConfigFacts.dict_get_rev by done.
    by rewrite Ht.
  - intros own base inherited k t Hown Hnd Hbases Hinh Hndi Hk Hnone Ht.
    rewrite Hown in Hget. injection Hget as <-.
    rewrite Hbases in Hb. simpl in Hb. unfold annotations_of in Hb. rewrite Hinh in Hb.
    simpl in Hb. injection Hb as <-.
    rewrite dict_get_public, Hk, dict_get_update, ConfigFacts.dict_get_rev by done.
    rewrite Hnone, dict_get_update, ConfigFacts.dict_get_rev by done.
    by rewrite Ht.
Qed.

Lemma get_fields_own_overrides_witness :
  ∃ fs, fst (get_fields Config.ProjectConfig_ConfigOptions []) = Return fs
        ∧ dict_get "verbosity" fs = Some TInt
        ∧ dict_get "_PoeOptions__annotations" fs = None.
Proof.
  eexists. split; [reflexivity|].
  destruct (get_fields_own_overrides Config.ProjectConfig_ConfigOptions [] _ eq_refl eq_refl)
    as (_ & Hown & _).
  split; [|reflexivity].
  apply (Hown _ "verbosity" TInt eq_refl); [compute_done | reflexivity | reflexivity].
Defined.

(** *** Construction *)

(** What [__init__] binds from a mapping: the declared keys it holds. *)
Definition bound_from (d : list (string * pyval)) (keys : list string)
           (acc : list (string * pyval)) : list (string * pyval) :=
  foldl (λ acc k, match dict_get k d with
                  | Some v => dict_set k v acc
                  | None => acc
                  end) acc keys.

Lemma bind_fields_dict keys d acc :
  bind_fields keys (PDict d) acc = Return (bound_from d keys acc).
Proof.
  revert acc. induction keys as [|k keys IH]; intros acc; simpl; [done|].
  unfold dict_has. destruct (dict_get k d) as [v|]; simpl; apply IH.
Qed.

Lemma dict_get_bound_from d keys acc k :
  dict_get k (bound_from d keys acc)
  = if bool_decide (k ∈ keys)
    then match dict_get k d with Some v => Some v | None => dict_get k acc end
    else dict_get k acc.
Proof.
  unfold bound_from. revert acc.
  induction keys as [|k' keys IH]; intros acc; simpl; [done|].
  rewrite IH. destruct (decide (k = k')) as [->|Hne].
  - rewrite (bool_decide_eq_true_2 (k' ∈ k' :: keys)) by by left.
    destruct (dict_get k' d) as [v|] eqn:Hk.
    + rewrite dict_get_set_eq. by destruct (bool_decide _).
    + by destruct (bool_decide _).
  - assert (bool_decide (k ∈ k' :: keys) = bool_decide (k ∈ keys)) as ->.
    { apply bool_decide_ext. rewrite elem_of_cons.
      split; [intros [?|?]; done | by right]. }
    destruct (dict_get k' d) as [v|]; [|done].
    by rewrite dict_get_set_ne.
Qed.

Lemma dict_has_keys {V} k (d : list (string * V)) :
  dict_has k d = bool_decide (k ∈ dict_keys d).
Proof.
  unfold dict_has. induction d as [|[k' v] d IH]; simpl; [done|].
  destruct (String.eqb_spec k k') as [->|Hne].
  - symmetry. apply bool_decide_eq_true_2. by left.
  - rewrite IH. apply bool_decide_ext. rewrite elem_of_cons.
    split; [by right | intros [?|?]; done].
Qed.

Lemma init_dict c d fs :
  collect_fields c = Return fs →
  init c (PDict d)
  = Return {| options_class := c; options_dict := bound_from d (dict_keys fs) [] |}.
Proof. intros Hfs. unfold init. rewrite Hfs. simpl. by rewrite bind_fields_dict. Qed.

(** X3: built from a mapping, an options object never fails and binds
    exactly the declared fields that the mapping holds: a key that is no
    declared field is left out without an error, and a declared field the
    mapping lacks stays unbound. *)
Theorem init_binds_declared c d fs :
  collect_fields c = Return fs →
  ∃ o, init c (PDict d) = Return o
       ∧ options_class o = c
       ∧ ∀ k, dict_get k (options_dict o) = if dict_has k fs then dict_get k d else None.
Proof.
  intros Hfs. rewrite (init_dict c d fs Hfs). eexists. split; [done|]. split; [done|].
  intros k. simpl. rewrite dict_get_bound_from, dict_has_keys. simpl.
  destruct (bool_decide _); [|done]. by destruct (dict_get k d).
Qed.

Lemma init_binds_declared_witness :
  ∃ o, init Config.IncludedConfig_ConfigOptions
         (PDict [("tasks", PDict []); ("verbosity", PInt 1)]) = Return o
       ∧ dict_get "tasks" (options_dict o) = Some (PDict [])
       ∧ dict_get "verbosity" (options_dict o) = None
       ∧ dict_get "env" (options_dict o) = None.
Proof.
  destruct (init_binds_declared Config.IncludedConfig_ConfigOptions
              [("tasks", PDict []); ("verbosity", PInt 1)] _ eq_refl)
    as (o & Hinit & _ & Hbound).
  exists o. split; [exact Hinit|].
  split; [exact (Hbound "tasks")|]. split; [exact (Hbound "verbosity") | exact (Hbound "env")].
Defined.

(** X4: with a [default] argument, [get] hands back the default for a
    declared field that has no value and no class-level default (no
    type-driven value is built), an existing attribute wins over the
    default, and the default does not rescue a key that is neither declared
    nor an attribute: that still raises the lookup error. *)
Theorem get_default_argument (self : PoeOptions) fs key default :
  collect_fields (options_class self) = Return fs →
  let k := normalize_key key in
  (∀ v, lookup_attr self k = Some v → get self key (Some default) = Return v)
  ∧ (lookup_attr self k = None → dict_has k fs = true →
     get self key (Some default) = Return default)
  ∧ (lookup_attr self k = None → dict_has k fs = false →
     get self key (Some default)
     = Raise (KeyError (cls_name (options_class self) +:+ " has no such attribute "
                        +:+ repr_str k))).
Proof.
  intros Hfs k. unfold get, hasattr, getattr. fold k.
  split; [|split].
  - intros v Hv. by rewrite Hv.
  - intros Hl Hd. rewrite Hl, Hfs. simpl. by rewrite Hd.
  - intros Hl Hd. rewrite Hl, Hfs. simpl. by rewrite Hd.
Qed.

Lemma get_default_argument_witness :
  get unbound_project_options "envfile" (Some PNone) = Return PNone
  ∧ get unbound_project_options "verbosity" (Some PNone) = Return (PInt 0)
  ∧ get unbound_project_options "missing" (Some PNone)
    = Raise (KeyError "ProjectConfig.ConfigOptions has no such attribute 'missing'").
Proof.
  destruct (get_default_argument unbound_project_options _ "envfile" PNone eq_refl)
    as (_ & Hdefault & _).
  destruct (get_default_argument unbound_project_options _ "verbosity" PNone eq_refl)
    as (Hattr & _).
  destruct (get_default_argument unbound_project_options _ "missing" PNone eq_refl)
    as (_ & _ & Herr).
  split; [exact (Hdefault eq_refl eq_refl)|].
  split; [exact (Hattr (PInt 0) eq_refl) | exact (Herr eq_refl eq_refl)].
Defined.

Lemma construct_isinstance t v : construct t = Return v → isinstance1 v t = Return true.
Proof. destruct t; simpl; intros; by simplify_eq. Qed.

Lemma type_of_normalized c key : type_of c (normalize_key key) = type_of c key.
Proof. unfold type_of. by rewrite normalize_key_idemp. Qed.

(** X5: the value that [get] builds for a field without value and default
    always passes the instance check against what [type_of] returns for
    that field. *)
Theorem fallback_value_type_checks (self : PoeOptions) key v tc :
  lookup_attr self (normalize_key key) = None →
  get self key None = Return v →
  type_of (options_class self) key = Return tc →
  isinstance v tc = Return true.
Proof.
  intros Hl Hget Htc. unfold get, hasattr, getattr in Hget. rewrite Hl in Hget.
  unfold_result.
  destruct (collect_fields (options_class self)); [|done].
  destruct (negb _); [done|].
  rewrite type_of_normalized, Htc in Hget.
  destruct tc as [t|[|t0 ts]]; simpl; [by apply construct_isinstance|done|].
  unfold_result. by rewrite (construct_isinstance t0 v Hget).
Qed.

Lemma fallback_value_type_checks_witness :
  isinstance (PStr "") (Tuple [TStr; TGenSequence TStr]) = Return true.
Proof.
  exact (fallback_value_type_checks unbound_project_options "envfile" (PStr "")
           (Tuple [TStr; TGenSequence TStr]) eq_refl eq_refl eq_refl).
Defined.

(** X6: after construction from a mapping, [is_set] answers true for a
    declared field exactly when the mapping holds it or the class (or an
    ancestor) has an attribute of that name: a field that only has its
    class-level default counts as set. *)
Theorem is_set_after_init c d fs o k t :
  collect_fields c = Return fs →
  init c (PDict d) = Return o →
  dict_get k fs = Some t →
  is_set o k = true ↔ (dict_has k d = true ∨ is_Some (class_attr c k)).
Proof.
  intros Hfs Hinit Hk. rewrite (init_dict c d fs Hfs) in Hinit. injection Hinit as <-.
  unfold is_set, getattr, lookup_attr. cbn [options_dict options_class].
  rewrite dict_get_bound_from.
  assert (bool_decide (k ∈ dict_keys fs) = true) as ->.
  { rewrite <- dict_has_keys. unfold dict_has. by rewrite Hk. }
  rewrite (object_attrs_underscore k (collect_fields_public c fs k t Hfs Hk)).
  unfold dict_has. cbn [dict_get].
  destruct (dict_get k d) as [v|]; [split; [by left | done]|].
  destruct (class_attr c k) as [v|]; [split; [by right; eexists | done]|].
  split; [done|]. intros [?|[? ?]]; done.
Qed.

Lemma is_set_after_init_witness :
  is_set unbound_project_options "verbosity" = true
  ∧ is_set unbound_project_options "envfile" = false.
Proof.
  pose proof (is_set_after_init Config.ProjectConfig_ConfigOptions [] _
                unbound_project_options "verbosity" TInt eq_refl eq_refl eq_refl) as Hv.
  pose proof (is_set_after_init Config.ProjectConfig_ConfigOptions [] _
                unbound_project_options "envfile" (TUnion [TStr; TGenSequence TStr])
                eq_refl eq_refl eq_refl) as He.
  split.
  - apply Hv. right. by eexists.
  - destruct (is_set unbound_project_options "envfile") eqn:E; [|done].
    exfalso. destruct (proj1 He eq_refl) as [?|[? ?]]; done.
Defined.

End OptionsMore.

(** ** config.py: partitions, properties of the merged config, validation,
    file discovery and loading *)

Module ConfigMore.
Import Options Config OptionsFacts OptionsMore ConfigFacts.

Section Partitions.
Context {path : Type}.

(** X7: where a partition finds its poe section.  When the parsed file has
    a [tool] table, the section is [tool.poe] of that table and a top-level
    ["tool.poe"] key is not looked at, not even when [tool] has no [poe]
    entry (that is a [KeyError]); without a [tool] table the section is the
    top-level ["tool.poe"] entry, and a [KeyError] when that is missing
    too.  The raw section is kept as it is and the full mapping is stored. *)
Theorem partition_section cls (d : list (string * pyval)) cwd (p : option path) fs :
  collect_fields cls = Return fs →
  (∀ tool section,
      dict_get "tool" d = Some (PDict tool) →
      dict_get "poe" tool = Some (PDict section) →
      ∃ part, ConfigPartition_init cls (PDict d) cwd p = Return part
              ∧ poe_options part = PDict section
              ∧ full_config part = PDict d ∧ cfg_path part = p
              ∧ options part = {| options_class := cls;
                                  options_dict := bound_from section (dict_keys fs) [] |})
  ∧ (∀ tool,
        dict_get "tool" d = Some (PDict tool) → dict_get "poe" tool = None →
        ConfigPartition_init cls (PDict d) cwd p = Raise (KeyError "poe"))
  ∧ (∀ section,
        dict_get "tool" d = None → dict_get "tool.poe" d = Some (PDict section) →
        ∃ part, ConfigPartition_init cls (PDict d) cwd p = Return part
                ∧ poe_options part = PDict section
                ∧ full_config part = PDict d ∧ cfg_path part = p)
  ∧ (dict_get "tool" d = None → dict_get "tool.poe" d = None →
     ConfigPartition_init cls (PDict d) cwd p = Raise (KeyError "tool.poe")).
Proof.
  intros Hfs. unfold ConfigPartition_init. simpl. unfold dict_has.
  split; [|split; [|split]].
  - intros tool section Ht Hp. rewrite Ht. simpl. rewrite Hp. simpl.
    rewrite (init_dict cls section fs Hfs). simpl. eauto 10.
  - intros tool Ht Hp. rewrite Ht. simpl. by rewrite Hp.
  - intros section Ht Hp. rewrite Ht, Hp. simpl.
    rewrite (init_dict cls section fs Hfs). simpl. eauto 10.
  - intros Ht Hp. by rewrite Ht, Hp.
Qed.
End Partitions.

Lemma partition_section_witness :
  (∃ part : @ConfigPartition string,
      ConfigPartition_init IncludedConfig_ConfigOptions
        (PDict [("tool", PDict [("poe", PDict [("tasks", PDict [])])]);
                ("tool.poe", PDict [("env", PDict [])])]) PNone None = Return part
      ∧ poe_options part = PDict [("tasks", PDict [])])
  ∧ @ConfigPartition_init string IncludedConfig_ConfigOptions
      (PDict [("tool", PDict []); ("tool.poe", PDict [])]) PNone None
    = Raise (KeyError "poe").
Proof.
  split.
  - destruct (partition_section (path:=string) IncludedConfig_ConfigOptions
                [("tool", PDict [("poe", PDict [("tasks", PDict [])])]);
                 ("tool.poe", PDict [("env", PDict [])])] PNone None _ eq_refl)
      as (Hsection & _).
    destruct (Hsection _ _ eq_refl eq_refl) as (part & Hpart & Hpoe & _).
    exists part. by split.
  - destruct (partition_section (path:=string) IncludedConfig_ConfigOptions
                [("tool", PDict []); ("tool.poe", PDict [])] PNone None _ eq_refl)
      as (_ & Hmissing & _).
    exact (Hmissing [] eq_refl eq_refl).
Defined.

(** *** The merged table: names and membership *)

Lemma dict_keys_set {V} k (v : V) (d : list (string * V)) :
  dict_keys (dict_set k v d)
  = if dict_has k d then dict_keys d else (dict_keys d ++ [k])%list.
Proof.
  unfold dict_has. induction d as [|[k' v'] d IH]; simpl; [done|].
  destruct (String.eqb_spec k k') as [->|Hne]; simpl; [done|].
  rewrite IH. by destruct (dict_get k d).
Qed.

Lemma dict_set_NoDup {V} k (v : V) (d : list (string * V)) :
  NoDup (dict_keys d) → NoDup (dict_keys (dict_set k v d)).
Proof.
  intros Hnd. rewrite dict_keys_set. destruct (dict_has k d) eqn:Hk; [done|].
  apply NoDup_app. split; [done|]. split; [|apply NoDup_singleton].
  intros x Hx ->%list_elem_of_singleton.
  rewrite dict_has_keys in Hk. by apply bool_decide_eq_false in Hk.
Qed.

Lemma dict_update_NoDup {V} (d other : list (string * V)) :
  NoDup (dict_keys d) → NoDup (dict_keys (dict_update d other)).
Proof.
  unfold dict_update. revert d.
  induction other as [|[k v] other IH]; intros d Hnd; simpl; [done|].
  apply IH. by apply dict_set_NoDup.
Qed.

Lemma foldl_update_NoDup {V} (tables : list (list (string * V))) acc :
  NoDup (dict_keys acc) → NoDup (dict_keys (foldl dict_update acc tables)).
Proof.
  revert acc. induction tables as [|d tables IH]; intros acc Hnd; simpl; [done|].
  apply IH. by apply dict_update_NoDup.
Qed.

Section Names.
Context {path : Type}.
Implicit Types (self : @PoeConfig path).

Lemma tasks_value self root tables :
  has_tasks (_project_config self) root →
  Forall2 has_tasks (_included_config self) tables →
  tasks self = Return (dict_update (foldl dict_update [] (rev tables)) root).
Proof.
  intros [Hroot _] Hinc. unfold tasks.
  rewrite (update_all_value _ (rev tables) []) by by apply Forall2_rev.
  simpl. by rewrite Hroot.
Qed.

Lemma lookup_union_tables (tables : list (list (string * pyval))) k :
  is_Some (foldr (λ d m, to_gmap d ∪ m) ∅ tables !! k)
  ↔ ∃ d, d ∈ tables ∧ dict_has k d = true.
Proof.
  induction tables as [|d tables IH]; simpl.
  - rewrite lookup_empty. split; [by intros [? ?] | intros (d & Hd & _)].
    by apply elem_of_nil in Hd.
  - rewrite lookup_union, to_gmap_lookup. unfold dict_has in *.
    destruct (dict_get k d) as [v|] eqn:Hk.
    + split; [intros _; exists d; split; [by left | by rewrite Hk]|].
      intros _. destruct (foldr _ _ _ !! k); by eexists.
    + rewrite (left_id None _). rewrite IH. split.
      * intros (d' & Hd' & Hh). exists d'. split; [by right | done].
      * intros (d' & Hd' & Hh). apply elem_of_cons in Hd' as [->|Hd'].
        -- by rewrite Hk in Hh.
        -- eauto.
Qed.

(** X8: a task name is known to the merged config exactly when the root
    table or the table of some include declares it, and [task_names] lists
    every such name once. *)
Theorem task_names_membership self root tables :
  has_tasks (_project_config self) root →
  Forall2 has_tasks (_included_config self) tables →
  ∃ names,
    task_names self = Return names
    ∧ NoDup names
    ∧ ∀ name,
        (name ∈ names ↔ dict_has name root = true
                        ∨ ∃ d, d ∈ tables ∧ dict_has name d = true)
        ∧ has_task self name = Return (bool_decide (name ∈ names)).
Proof.
  intros Hroot Hinc. unfold task_names, has_task.
  rewrite (tasks_value self root tables Hroot Hinc). simpl.
  eexists. split; [done|]. split.
  { apply dict_update_NoDup, foldl_update_NoDup. constructor. }
  intros name. split; [|by rewrite dict_has_keys].
  set (merged := dict_update _ root).
  assert (to_gmap merged = to_gmap root ∪ foldr (λ d m, to_gmap d ∪ m) ∅ tables) as Hm.
  { unfold merged. destruct Hroot as [_ Hnd]. rewrite to_gmap_update by done. f_equal.
    rewrite to_gmap_foldl_update.
    - apply foldl_union_rev.
    - apply Forall_rev. clear -Hinc.
      induction Hinc as [|c d cs ds [_ Hd] _ IH]; by constructor. }
  assert (name ∈ dict_keys merged ↔ is_Some (to_gmap merged !! name)) as ->.
  { rewrite to_gmap_lookup. pose proof (dict_has_keys name merged) as Hk.
    unfold dict_has in Hk. destruct (dict_get name merged).
    - symmetry in Hk. apply bool_decide_eq_true in Hk. split; [by eexists | done].
    - symmetry in Hk. apply bool_decide_eq_false in Hk. split; [done | by intros [? ?]]. }
  rewrite Hm, lookup_union, to_gmap_lookup. unfold dict_has at 1.
  destruct (dict_get name root) as [v|] eqn:Hr.
  - split; [by left|]. intros _. destruct (foldr _ _ _ !! name); by eexists.
  - rewrite (left_id None _), lookup_union_tables.
    split; [by right | intros [?|?]; done].
Qed.
End Names.

Lemma task_names_membership_witness :
  ∃ names, task_names example_config = Return names
           ∧ NoDup names
           ∧ has_task example_config "c" = Return (bool_decide ("c" ∈ names))
           ∧ ("c" ∈ names ↔ dict_has "c" [("a", PStr "root")] = true
                             ∨ ∃ d, d ∈ [[("b", PStr "first")];
                                          [("a", PStr "second"); ("c", PStr "second")]]
                                    ∧ dict_has "c" d = true).
Proof.
  assert (has_tasks (_project_config example_config) [("a", PStr "root")]) as Hroot
    by (split; [reflexivity | compute_done]).
  assert (Forall2 has_tasks (_included_config example_config)
            [[("b", PStr "first")]; [("a", PStr "second"); ("c", PStr "second")]])
    as Hinc by (repeat constructor; compute_done).
  destruct (task_names_membership example_config _ _ Hroot Hinc)
    as (names & Hnames & Hnd & Hall).
  exists names. split; [exact Hnames|]. split; [exact Hnd|].
  destruct (Hall "c") as [Hiff Hhas]. split; [exact Hhas | exact Hiff].
Defined.

(** *** Options of the project, with their defaults *)

Section Defaults.
Context {path : Type} (path_str : path → string).

Lemma PoeConfig_init_dict (dir : path) d name :
  PoeConfig_init path_str dir (Some (PDict d)) name
  = Return {| cwd := dir;
              _project_config :=
                {| ConfigOptions := ProjectConfig_ConfigOptions;
                   options := {| options_class := ProjectConfig_ConfigOptions;
                                 options_dict :=
                                   bound_from d (dict_keys (default [] (cls_annotations
                                                   ProjectConfig_ConfigOptions))) [] |};
                   full_config := PDict [("tool.poe", PDict d)];
                   poe_options := PDict d;
                   cfg_path := None |};
              _included_config := [];
              _config_name := name;
              _project_dir := dir |}.
Proof.
  unfold PoeConfig_init.
  assert ((if truthy (PDict d) then PDict d else PDict []) = PDict d) as ->
      by by destruct d.
  assert (∀ cwd p,
             @ProjectConfig path (PDict [("tool.poe", PDict d)]) cwd p
             = (opts ← Options.init ProjectConfig_ConfigOptions (PDict d);
                Return {| ConfigOptions := ProjectConfig_ConfigOptions; options := opts;
                          full_config := PDict [("tool.poe", PDict d)];
                          poe_options := PDict d; cfg_path := p |})) as Hpc
      by reflexivity.
  rewrite Hpc, (init_dict ProjectConfig_ConfigOptions d _ eq_refl). reflexivity.
Qed.

(** X9: a config built from an in-memory table never fails to build, has no
    includes, and its project-level properties read the table's value when
    the table has the key and otherwise the declared default: ["cmd"],
    ["sequence"] and ["ref"] for the three default task types, 0 for the
    verbosity, [{"type": "auto"}] for the executor, and the one-element
    tuple [("posix",)] for the shell interpreter (a list value becomes the
    tuple of its items, a single value a one-element tuple). *)
Theorem project_option_defaults (dir : path) d name :
  ∃ self,
    PoeConfig_init path_str dir (Some (PDict d)) name = Return self
    ∧ _included_config self = [] ∧ _project_dir self = dir
    ∧ poe_options (_project_config self) = PDict d
    ∧ default_task_type self
      = Return (dict_get_default d "default_task_type" (PStr "cmd"))
    ∧ default_array_task_type self
      = Return (dict_get_default d "default_array_task_type" (PStr "sequence"))
    ∧ default_array_item_task_type self
      = Return (dict_get_default d "default_array_item_task_type" (PStr "ref"))
    ∧ verbosity self = Return (dict_get_default d "verbosity" (PInt 0))
    ∧ executor self
      = Return (dict_get_default d "executor" (PDict [("type", PStr "auto")]))
    ∧ shell_interpreter self
      = Return (match dict_get_default d "shell_interpreter" (PStr "posix") with
                | PList l => l
                | v => [v]
                end).
Proof.
  rewrite PoeConfig_init_dict. eexists. split; [done|].
  split; [done|]. split; [done|]. split; [done|].
  unfold default_task_type, default_array_task_type, default_array_item_task_type,
    verbosity, shell_interpreter, executor, option_attr, partition_get, get, hasattr,
    getattr, lookup_attr, dict_get_default.
  change (normalize_key "executor") with "executor".
  cbn [_project_config options options_dict options_class].
  rewrite !dict_get_bound_from.
  repeat split; simpl;
    repeat (match goal with |- context [dict_get ?k d] => destruct (dict_get k d) end);
    try reflexivity.
  by destruct p.
Qed.
End Defaults.

(** *** What a passed validation guarantees *)

Section ValidationMore.
Context {path : Type}
        (validate_config : pyval → option string)
        (is_task_type : pyval → option content_type → bool)
        (validate_def : string → pyval → @PoeConfig path → option string).

Abbreviation run_validate := (validate validate_config is_task_type validate_def).

(** An [env] entry that validation lets through: a string, or a record
    with the single key [default] holding a string. *)
Definition env_entry_ok (value : pyval) : Prop :=
  (∃ s, value = PStr s) ∨ (∃ s, value = PDict [("default", PStr s)]).

Lemma validate_env_ok items :
  validate_env items = Return () → Forall (λ kv, env_entry_ok kv.2) items.
Proof.
  induction items as [|[k v] items IH]; simpl; [constructor|].
  destruct v as [| | |s| |d|]; try done.
  - intros H. constructor; [left; eauto | by apply IH].
  - destruct (bool_decide (dict_keys d = ["default"])) eqn:Hk; simpl; [|done].
    apply bool_decide_eq_true in Hk.
    destruct d as [|[k1 v1] [|? ?]]; simpl in Hk; try done.
    injection Hk as ->. simpl.
    destruct v1; simpl; try done.
    intros H. constructor; [right; eauto | by apply IH].
Qed.

Lemma validate_tasks_ok (self : @PoeConfig path) items :
  validate_tasks validate_def self items = Return () →
  Forall (λ nt, validate_def nt.1 nt.2 self = None) items.
Proof.
  induction items as [|[n t] items IH]; simpl; [constructor|].
  destruct (validate_def n t self) eqn:Hv; [done|].
  intros H. constructor; [done | by apply IH].
Qed.

Lemma validate_interpreters_ok l :
  validate_interpreters l = Return () →
  Forall (λ i, ∃ s, i = PStr s ∧ s ∈ KNOWN_SHELL_INTERPRETERS) l.
Proof.
  induction l as [|i l IH]; [constructor|].
  cbn -[existsb KNOWN_SHELL_INTERPRETERS].
  destruct (existsb (eq_str i) KNOWN_SHELL_INTERPRETERS) eqn:Hk; simpl; [|done].
  intros H. constructor; [|by apply IH].
  apply existsb_exists in Hk as (s & Hin & Heq).
  destruct i; simpl in Heq; try done.
  apply String.eqb_eq in Heq as ->. eexists. split; [done|]. by apply list_elem_of_In.
Qed.

Lemma keys_hashable (l : list string) : forallb hashable (List.map PStr l) = true.
Proof. induction l as [|a l IH]; [done | exact IH]. Qed.

Lemma unsupported_keys_none (d : list (string * pyval)) supported :
  unsupported_keys (PDict d) supported = Return [] →
  ∀ k, k ∈ dict_keys d → k ∈ supported.
Proof.
  unfold unsupported_keys. simpl.
  rewrite keys_hashable.
  intros [= Hf] k Hk.
  assert (In (PStr k) (List.map PStr (dict_keys d))) as Hin
    by by apply in_map, list_elem_of_In.
  destruct (existsb (eq_str (PStr k)) supported) eqn:He.
  - apply existsb_exists in He as (s & Hs & Heq). simpl in Heq.
    apply String.eqb_eq in Heq as ->. by apply list_elem_of_In.
  - assert (In (PStr k) (List.filter (λ v, negb (existsb (eq_str v) supported))
                                     (List.map PStr (dict_keys d)))) as Hbad.
    { apply filter_In. split; [done|]. by rewrite He. }
    rewrite Hf in Hbad. done.
Qed.


(** X11: a key of the poe section that is no declared option makes
    [validate] raise its first configuration error, "Unsupported keys",
    whatever else the config holds. *)
Theorem validate_unsupported_key (self : @PoeConfig path) d fs k :
  poe_options (_project_config self) = PDict d →
  collect_fields (ConfigOptions (_project_config self)) = Return fs →
  k ∈ dict_keys d → k ∉ dict_keys fs →
  ∃ keys, run_validate self
          = Raise (PoeException ("Unsupported keys in poe config: {" +:+ keys +:+ "}")).
Proof.
  intros Hraw Hfs Hk Hno. unfold validate, _validate_config. rewrite Hraw, Hfs.
  unfold_result.
  destruct (unsupported_keys (PDict d) (dict_keys fs)) as [unsupported|] eqn:Hu.
  - destruct (bool_decide (unsupported = [])) eqn:Hnone; simpl; [|eauto].
    apply bool_decide_eq_true in Hnone as ->.
    by pose proof (unsupported_keys_none d _ Hu k Hk).
  - exfalso. unfold unsupported_keys in Hu. simpl in Hu.
    by rewrite keys_hashable in Hu.
Qed.
End ValidationMore.


(** A project config whose section holds the undeclared key [verbose]. *)
Definition unknown_key_config : @PoeConfig string :=
  {| cwd := "/project";
     _project_config :=
       {| ConfigOptions := ProjectConfig_ConfigOptions;
          options := unbound_project_options;
          full_config := PDict [("tool.poe", PDict [("verbose", PInt 1)])];
          poe_options := PDict [("verbose", PInt 1)];
          cfg_path := None |};
     _included_config := [];
     _config_name := "pyproject.toml";
     _project_dir := "/project" |}.

Lemma validate_unsupported_key_witness :
  ∃ keys,
    validate (fun _ => None) (fun _ _ => true) (fun _ _ _ => None) unknown_key_config
    = Raise (PoeException ("Unsupported keys in poe config: {" +:+ keys +:+ "}")).
Proof.
  apply (validate_unsupported_key (path:=string) (fun _ => None) (fun _ _ => true)
           (fun _ _ _ => None) unknown_key_config [("verbose", PInt 1)] _ "verbose"
           eq_refl eq_refl).
  - by left.
  - compute_done.
Defined.

(** *** Reading files and normalising includes *)

Section Reading.
Context {path : Type} (path_str : path → string)
        (joinpath_resolve : path → string → path)
        (exists_ : path → bool)
        (suffix : path → string)
        (open_rb : path → option string)
        (json_load tomli_load : string → parse_outcome).

(** X12: the parser is chosen by the suffix alone: a file whose suffix ends
    in [.json] never reaches the TOML parser and any other file never
    reaches the JSON parser.  A value is returned exactly when the file
    opens and the chosen parser accepts it, and every failure is a
    configuration error whose message ends with the path. *)
Theorem read_config_file_parser (p : path) :
  (∀ other, endswith ".json" (suffix p) = true →
            _read_config_file path_str suffix open_rb json_load tomli_load p
            = _read_config_file path_str suffix open_rb json_load other p)
  ∧ (∀ other, endswith ".json" (suffix p) = false →
              _read_config_file path_str suffix open_rb json_load tomli_load p
              = _read_config_file path_str suffix open_rb other tomli_load p)
  ∧ (∀ v, _read_config_file path_str suffix open_rb json_load tomli_load p = Return v
          ↔ ∃ file, open_rb p = Some file
                    ∧ (if endswith ".json" (suffix p) then json_load file
                       else tomli_load file) = Parsed v)
  ∧ (∀ e, _read_config_file path_str suffix open_rb json_load tomli_load p = Raise e →
          ∃ prefix, e = PoeException (prefix +:+ path_str p)
                    ∨ ∃ cause, e = PoeExceptionFrom (prefix +:+ path_str p) cause).
Proof.
  unfold _read_config_file. split; [|split; [|split]].
  - intros other Hj. rewrite Hj. by destruct (open_rb p).
  - intros other Hj. rewrite Hj. by destruct (open_rb p).
  - intros v. destruct (open_rb p) as [file|].
    + destruct (endswith ".json" (suffix p)).
      * destruct (json_load file) eqn:Hl; split;
          try (intros [= ->]; eauto); try (intros (f & [= <-] & Hf); congruence);
          try done.
      * destruct (tomli_load file) eqn:Hl; split;
          try (intros [= ->]; eauto); try (intros (f & [= <-] & Hf); congruence);
          try done.
    + split; [done | intros (f & ? & _); done].
  - intros e. destruct (open_rb p) as [file|].
    + destruct (endswith ".json" (suffix p)).
      * destruct (json_load file); intros [= <-]; eauto.
      * destruct (tomli_load file); intros [= <-]; eauto.
    + intros [= <-]. eauto.
Qed.

(** X13: the records that the list form of [include] yields correspond to
    the items one by one and in order: a string item becomes the record of
    that path, and a mapping item is kept only when its [path] is truthy
    and it has no key besides [path] and [cwd].  Any other item, and any
    mapping that fails this check, ends the normalisation with a
    configuration error. *)
Theorem normalize_include_items_checked items :
  match normalize_include_items items with
  | Return includes =>
      Forall2 (λ item include,
                 (∃ s, item = PStr s ∧ include = [("path", PStr s)])
                 ∨ (item = PDict include
                    ∧ truthy (dict_get_default include "path" PNone) = true
                    ∧ ∀ k, k ∈ dict_keys include → k = "path" ∨ k = "cwd"))
              items includes
  | Raise e =>
      (∃ item, item ∈ items ∧ e = PoeException ("Invalid item for the include option "
                                                +:+ repr item))
  end.
Proof.
  induction items as [|item items IH]; simpl; [constructor|].
  assert (∀ e, (∃ i, i ∈ items ∧ e = PoeException ("Invalid item for the include option "
                                                   +:+ repr i)) →
               ∃ i, i ∈ item :: items
                    ∧ e = PoeException ("Invalid item for the include option "
                                        +:+ repr i)) as Hweaken.
  { intros e (i & Hi & ->). exists i. split; [by right | done]. }
  destruct item as [| | |s| |d|];
    try (eexists; split; [by left | done]).
  - unfold_result. destruct (normalize_include_items items) as [includes|e].
    + constructor; [left; eauto | done].
    + by apply Hweaken.
  - destruct (truthy (dict_get_default d "path" PNone)) eqn:Hp; simpl;
      [|eexists; split; [by left | done]].
    destruct (forallb _ (dict_keys d)) eqn:Hk; simpl;
      [|eexists; split; [by left | done]].
    unfold_result. destruct (normalize_include_items items) as [includes|e].
    + constructor; [|done]. right. split; [done|]. split; [done|].
      intros k Hin. rewrite forallb_forall in Hk.
      apply list_elem_of_In, Hk in Hin.
      apply orb_true_iff in Hin as [?%String.eqb_eq|?%String.eqb_eq]; eauto.
    + by apply Hweaken.
Qed.

Abbreviation load_all :=
  (load_included path_str joinpath_resolve exists_ suffix open_rb json_load tomli_load).
Abbreviation load_includes :=
  (_load_includes path_str joinpath_resolve exists_ suffix open_rb json_load tomli_load).

(** X14: the single-record form of [include] is not checked the way list
    items are.  A lone record without [path] is taken as it is and the
    loading stops at its missing key with a bare [KeyError], while the same
    record inside a list is refused with a configuration error. *)
Theorem single_include_record_unchecked (self : @PoeConfig path) d :
  dict_get "path" d = None →
  (partition_get (_project_config self) "include" (Some PNone) = Return (PDict d) →
   load_includes self = (Raise (KeyError "path"), self))
  ∧ (partition_get (_project_config self) "include" (Some PNone)
     = Return (PList [PDict d]) →
     load_includes self
     = (Raise (PoeException ("Invalid item for the include option " +:+ repr (PDict d))),
        self)).
Proof.
  intros Hp. unfold _load_includes. split; intros ->; simpl.
  - by rewrite Hp.
  - unfold dict_get_default. by rewrite Hp.
Qed.

(** X15: loading includes only ever appends to the included configs: the
    ones already there keep their place, at most one is added per include,
    each added one carries the path it was loaded from, and the project
    config, the working directory and the project directory stay as they
    were, also when the loading ends in an exception. *)
Theorem load_included_appends (self : @PoeConfig path) includes :
  ∃ added,
    _included_config (snd (load_all self includes))
    = (_included_config self ++ added)%list
    ∧ (length added ≤ length includes)%nat
    ∧ Forall (λ c, ∃ include p,
                 include ∈ includes ∧ dict_get "path" include = Some (PStr p)
                 ∧ cfg_path c = Some (joinpath_resolve (_project_dir self) p)
                 ∧ exists_ (joinpath_resolve (_project_dir self) p) = true) added
    ∧ _project_config (snd (load_all self includes)) = _project_config self
    ∧ cwd (snd (load_all self includes)) = cwd self
    ∧ _project_dir (snd (load_all self includes)) = _project_dir self.
Proof.
  revert self. induction includes as [|include rest IH]; intros self; simpl.
  - exists []. rewrite app_nil_r. repeat split; done.
  - assert (∀ added,
               (length added ≤ length rest)%nat →
               Forall (λ c, ∃ inc p,
                          inc ∈ rest ∧ dict_get "path" inc = Some (PStr p)
                          ∧ cfg_path c = Some (joinpath_resolve (_project_dir self) p)
                          ∧ exists_ (joinpath_resolve (_project_dir self) p) = true)
                      added →
               (length added ≤ S (length rest))%nat
               ∧ Forall (λ c, ∃ inc p,
                            inc ∈ include :: rest ∧ dict_get "path" inc = Some (PStr p)
                            ∧ cfg_path c = Some (joinpath_resolve (_project_dir self) p)
                            ∧ exists_ (joinpath_resolve (_project_dir self) p) = true)
                        added) as Hweaken.
    { intros added Hlen Hall. split; [lia|].
      eapply Forall_impl; [exact Hall|].
      intros c (inc & p & Hin & ?). exists inc, p. split; [by right | done]. }
    assert (∃ added : list (@ConfigPartition path),
               _included_config self = (_included_config self ++ added)%list
               ∧ (length added ≤ S (length rest))%nat
               ∧ Forall (λ c, ∃ inc p,
                            inc ∈ include :: rest ∧ dict_get "path" inc = Some (PStr p)
                            ∧ cfg_path c = Some (joinpath_resolve (_project_dir self) p)
                            ∧ exists_ (joinpath_resolve (_project_dir self) p) = true)
                        added
               ∧ _project_config self = _project_config self
               ∧ cwd self = cwd self ∧ _project_dir self = _project_dir self) as Hstop.
    { exists []. rewrite app_nil_r. repeat split; try done. simpl; lia. }
    destruct (dict_get "path" include) as [v|] eqn:Hp; [|exact Hstop].
    destruct v as [| | |p| | |]; try exact Hstop.
    destruct (exists_ (joinpath_resolve (_project_dir self) p)) eqn:Hex; simpl.
    + match goal with |- context [match ?x with Return _ => _ | Raise _ => _ end] =>
        destruct x as [c|e] eqn:Hl end.
      * destruct (IH (append_included self c)) as (added & Hcfg & Hlen & Hall & Hpc & Hcwd & Hdir).
        exists (c :: added). rewrite Hcfg, Hpc, Hcwd, Hdir. simpl.
        split; [by rewrite <- app_assoc|]. split; [lia|].
        split; [|done]. constructor.
        -- exists include, p. split; [by left|]. split; [done|]. split; [|done].
           unfold_result. destruct (_read_config_file _ _ _ _ _ _); [|done].
           by eapply IncludedConfig_path.
        -- by apply Hweaken.
      * destruct (caught e); exact Hstop.
    + destruct (IH self) as (added & Hcfg & Hlen & Hall & Hpc & Hcwd & Hdir).
      exists added. rewrite Hcfg, Hpc, Hcwd, Hdir.
      split; [done|]. destruct (Hweaken added Hlen Hall). done.
Qed.
End Reading.

Lemma single_include_record_unchecked_witness :
  (self ← SampleFiles.project (PDict [("cwd", PStr "sub")]);
   Return (fst (SampleFiles.load_includes self)))
  = Return (Raise (KeyError "path")).
Proof.
  destruct (SampleFiles.project (PDict [("cwd", PStr "sub")])) as [self|e] eqn:Hself;
    [|by vm_compute in Hself].
  simpl.
  destruct (single_include_record_unchecked id SampleFiles.join SampleFiles.file_exists
              SampleFiles.file_suffix SampleFiles.open_file SampleFiles.parse_json
              SampleFiles.parse_toml self [("cwd", PStr "sub")] eq_refl) as [Hone _].
  unfold SampleFiles.load_includes. rewrite Hone; [done|].
  vm_compute in Hself. by injection Hself as <-.
Defined.

(** *** Finding the project file *)

(** Absolute paths without symbolic links or dot segments, as the list of
    their components below the root; on these [resolve()] changes
    nothing. *)
Module PurePath.
Definition t : Type := list string.

Definition joinpath (p : t) (name : string) : t := (p ++ [name])%list.
Definition resolve (p : t) : t := p.

(** [p.parents] of the path whose reversed components are given: the
    ancestors, nearest first, down to the root. *)
Fixpoint ancestors_rev (rp : list string) : list t :=
  match rp with
  | [] => []
  | _ :: up => rev up :: ancestors_rev up
  end.

Definition parents (p : t) : list t := ancestors_rev (rev p).
Definition parent (p : t) : t := rev (tail (rev p)).
Definition name (p : t) : string := List.last p "".
Definition to_string (p : t) : string := "/" +:+ join "/" p.

(** The config files of a directory and of its ancestors, nearest first;
    the directory is given by its reversed components. *)
Fixpoint candidates_rev (rdir : list string) (config_name : string) : list t :=
  (rev rdir ++ [config_name])%list ::
  match rdir with
  | [] => []
  | _ :: up => candidates_rev up config_name
  end.

Definition candidates (dir : t) (config_name : string) : list t :=
  candidates_rev (rev dir) config_name.
End PurePath.

Example parents_of_file :
  PurePath.parents ["home"; "me"; "pyproject.toml"] = [["home"; "me"]; ["home"]; []].
Proof. reflexivity. Qed.

Example candidates_of_dir :
  PurePath.candidates ["home"; "me"] "pyproject.toml"
  = [["home"; "me"; "pyproject.toml"]; ["home"; "pyproject.toml"]; ["pyproject.toml"]].
Proof. reflexivity. Qed.

Section Discovery.
Context (exists_ : PurePath.t → bool) (path_of : string → PurePath.t).

Abbreviation search :=
  (search_parents PurePath.to_string exists_ PurePath.joinpath PurePath.resolve
                  PurePath.parents).
Abbreviation find :=
  (find_config_file PurePath.to_string exists_ path_of PurePath.name PurePath.joinpath
                    PurePath.resolve PurePath.parents).

Definition not_found (self : @PoeConfig PurePath.t) : pyexn :=
  PoeException ("Poe could not find a " +:+ _config_name self +:+ " file in "
                +:+ PurePath.to_string (cwd self) +:+ " or its parents").

Lemma length_ancestors_rev rp : length (PurePath.ancestors_rev rp) = length rp.
Proof. induction rp; simpl; congruence. Qed.

Lemma search_candidates (self : @PoeConfig PurePath.t) rdir fuel :
  (length rdir ≤ fuel)%nat →
  search fuel self (rev rdir ++ [_config_name self])%list
  = Some (match List.find exists_ (PurePath.candidates_rev rdir (_config_name self)) with
          | Some found => Return found
          | None => Raise (not_found self)
          end).
Proof.
  revert fuel. induction rdir as [|x up IH]; intros fuel Hfuel.
  - destruct fuel; simpl; by destruct (exists_ [_config_name self]).
  - destruct fuel as [|fuel]; [simpl in Hfuel; lia|].
    change (search (S fuel) self (rev (x :: up) ++ [_config_name self])%list)
      with (if exists_ (rev (x :: up) ++ [_config_name self])%list
            then Some (Return (rev (x :: up) ++ [_config_name self])%list)
            else if (length (PurePath.parents (rev (x :: up) ++ [_config_name self])%list)
                     =? 1)%nat
                 then Some (Raise (not_found self))
                 else match PurePath.parents (rev (x :: up) ++ [_config_name self])%list
                            !! 1%nat with
                      | Some dir =>
                          search fuel self
                            (PurePath.resolve (PurePath.joinpath dir (_config_name self)))
                      | None => Some (Raise IndexError)
                      end).
    cbn [PurePath.candidates_rev List.find].
    destruct (exists_ (rev (x :: up) ++ [_config_name self])%list); [done|].
    unfold PurePath.parents. rewrite rev_app_distr, rev_involutive.
    cbn [rev app PurePath.ancestors_rev length].
    rewrite length_ancestors_rev. cbn [Nat.eqb lookup list_lookup].
    unfold PurePath.resolve, PurePath.joinpath.
    apply IH. simpl in Hfuel. lia.
Qed.

End Discovery.

(** A working directory three levels deep; only [/home] has the file. *)
Definition nested_config : @PoeConfig PurePath.t :=
  {| cwd := ["home"; "me"; "src"];
     _project_config := project_with_tasks [];
     _included_config := [];
     _config_name := "pyproject.toml";
     _project_dir := ["home"; "me"; "src"] |}.

Definition only_in_home (p : PurePath.t) : bool :=
  bool_decide (p = ["home"; "pyproject.toml"]).


(** *** Loading *)

Lemma ConfigPartition_no_section {path : Type} cls (d : list (string * pyval)) cwd
      (p : option path) :
  (dict_get "tool" d = None ∧ dict_get "tool.poe" d = None)
  ∨ (∃ tool, dict_get "tool" d = Some (PDict tool) ∧ dict_get "poe" tool = None) →
  ∃ key, ConfigPartition_init cls (PDict d) cwd p = Raise (KeyError key).
Proof.
  unfold ConfigPartition_init. simpl. unfold dict_has.
  intros [[Ht Hp]|(tool & Ht & Hp)]; rewrite Ht; simpl; rewrite Hp; eauto.
Qed.

Section Loading.
Context {path : Type} (path_str : path → string)
        (joinpath_resolve : path → string → path)
        (exists_ : path → bool)
        (suffix : path → string)
        (open_rb : path → option string)
        (json_load tomli_load : string → parse_outcome)
        (path_of : string → path)
        (path_name : path → string)
        (joinpath : path → string → path)
        (resolve : path → path)
        (parents : path → list path)
        (parent : path → path).

Abbreviation includes_of :=
  (_load_includes path_str joinpath_resolve exists_ suffix open_rb json_load tomli_load).
Abbreviation load_config :=
  (load path_str joinpath_resolve exists_ suffix open_rb json_load tomli_load
        path_of path_name joinpath resolve parents parent).
Abbreviation find_file :=
  (find_config_file path_str exists_ path_of path_name joinpath resolve parents).
Abbreviation read_file := (_read_config_file path_str suffix open_rb json_load tomli_load).

Lemma load_included_frame (self : @PoeConfig path) includes :
  let self' := snd (load_included path_str joinpath_resolve exists_ suffix open_rb
                                  json_load tomli_load self includes) in
  _project_config self' = _project_config self ∧ cwd self' = cwd self
  ∧ _project_dir self' = _project_dir self ∧ _config_name self' = _config_name self.
Proof.
  revert self. induction includes as [|include rest IH]; intros self; simpl; [done|].
  repeat case_match; simpl; try done; first [exact (IH self) | exact (IH (append_included self _))].
Qed.

Lemma load_includes_frame (self : @PoeConfig path) :
  _project_config (snd (includes_of self)) = _project_config self
  ∧ cwd (snd (includes_of self)) = cwd self
  ∧ _project_dir (snd (includes_of self)) = _project_dir self
  ∧ _config_name (snd (includes_of self)) = _config_name self.
Proof.
  unfold _load_includes. repeat case_match; simpl; try done.
  apply load_included_frame.
Qed.

(** X17: a config that holds a non-empty task table loads without looking
    for a file: the first [load] resolves the includes, and once an
    included config is there every further [load] returns at once and
    leaves the config as it is. *)
Theorem load_in_memory (self : @PoeConfig path) table fuel target_dir :
  partition_get (_project_config self) "tasks" None = Return table →
  truthy table = true →
  (_included_config self = [] → load_config fuel self target_dir = Some (includes_of self))
  ∧ (_included_config self ≠ [] → load_config fuel self target_dir = Some (Return (), self))
  ∧ (∀ outcome self',
        load_config fuel self target_dir = Some (outcome, self') →
        _included_config self' ≠ [] →
        ∀ fuel' target_dir', load_config fuel' self' target_dir' = Some (Return (), self')).
Proof.
  intros Htable Htruthy.
  assert (∀ s f t, _project_config s = _project_config self →
                   _included_config s ≠ [] → load_config f s t = Some (Return (), s))
    as Hdone.
  { intros s f t Hpc Hne. unfold load. rewrite Hpc, Htable, Htruthy.
    by destruct (_included_config s). }
  split; [|split].
  - intros Hnone. unfold load. by rewrite Htable, Htruthy, Hnone.
  - intros Hne. by apply Hdone.
  - intros outcome self' Hload Hne fuel' target_dir'. apply Hdone; [|done].
    unfold load in Hload. rewrite Htable, Htruthy in Hload.
    destruct (_included_config self) eqn:Hinc.
    + injection Hload as Hload. pose proof (load_includes_frame self) as (Hpc & _).
      by rewrite Hload in Hpc.
    + by injection Hload as _ <-.
Qed.

(** X18: when the project file is found and read but holds no poe section
    (no [tool] table and no ["tool.poe"] key, or a [tool] table without
    [poe]), [load] raises the configuration error "No poe configuration
    found in file at" followed by the config file's name, keeps the old
    project config and has already moved the project directory to the
    file's directory; a file that cannot be read or parsed raises the
    reader's own error instead. *)
Theorem load_without_section (self : @PoeConfig path) table fuel target_dir config_path :
  partition_get (_project_config self) "tasks" None = Return table →
  truthy table = false →
  find_file fuel self target_dir = Some (Return config_path) →
  (∀ d, read_file config_path = Return (PDict d) →
        (dict_get "tool" d = None ∧ dict_get "tool.poe" d = None)
        ∨ (∃ tool, dict_get "tool" d = Some (PDict tool) ∧ dict_get "poe" tool = None) →
        load_config fuel self target_dir
        = Some (Raise (PoeException ("No poe configuration found in file at "
                                     +:+ _config_name self)),
                with_project_dir self (parent config_path)))
  ∧ (∀ e, read_file config_path = Raise e →
          load_config fuel self target_dir
          = Some (Raise e, with_project_dir self (parent config_path))).
Proof.
  intros Htable Hfalsy Hfind. unfold load. rewrite Htable, Hfalsy, Hfind.
  split.
  - intros d Hread Hmissing. rewrite Hread. cbn [mbind result_bind].
    unfold ProjectConfig.
    destruct (ConfigPartition_no_section ProjectConfig_ConfigOptions d
                (PStr (path_str (_project_dir (with_project_dir self (parent config_path)))))
                (Some config_path) Hmissing) as [key ->].
    done.
  - intros e Hread. rewrite Hread. cbn [mbind result_bind].
    pose proof (read_config_file_raise _ _ _ _ _ _ _ Hread) as Hc.
    by destruct e.
Qed.

(** X19: whenever [load] goes to a project file, the config it leaves
    behind has the file's directory as its project directory and the same
    working directory and config file name as before, whether the loading
    succeeded or failed after the file was found. *)
Theorem load_sets_project_dir (self : @PoeConfig path) table fuel target_dir config_path
        outcome self' :
  partition_get (_project_config self) "tasks" None = Return table →
  truthy table = false →
  find_file fuel self target_dir = Some (Return config_path) →
  load_config fuel self target_dir = Some (outcome, self') →
  _project_dir self' = parent config_path
  ∧ cwd self' = cwd self ∧ _config_name self' = _config_name self.
Proof.
  intros Htable Hfalsy Hfind. unfold load. rewrite Htable, Hfalsy, Hfind.
  match goal with |- context [match ?x with Return _ => _ | Raise _ => _ end] =>
    destruct x as [pc|e] end.
  - intros [= Hload].
    pose proof (load_includes_frame
                  (with_project_config (with_project_dir self (parent config_path)) pc))
      as (_ & Hcwd & Hdir & Hname).
    rewrite Hload in Hcwd, Hdir, Hname. done.
  - destruct e; by intros [= _ <-].
Qed.
End Loading.

(** A project directory whose [pyproject.toml] parses to a mapping without
    a poe section. *)
Module SampleProject.
Definition file_exists (p : string) : bool := String.eqb p "/project/pyproject.toml".
Definition open_file (p : string) : option string :=
  if file_exists p then Some "[project]" else None.
Definition parse_toml (content : string) : parse_outcome :=
  Parsed (PDict [("project", PDict [])]).
Definition parse_json (content : string) : parse_outcome := Malformed "Expecting value".
Definition join (base p : string) : string := base +:+ "/" +:+ p.

Definition load (self : @PoeConfig string) (target_dir : option string) :=
  Config.load id join file_exists (fun _ => ".toml") open_file parse_json parse_toml
    id id join id (fun _ => []) (fun _ => "/project") 0 self target_dir.

(** A config without tasks, as [PoeConfig()] builds it. *)
Definition empty_config : @PoeConfig string :=
  {| cwd := "/project/src";
     _project_config := project_with_tasks [];
     _included_config := [];
     _config_name := "pyproject.toml";
     _project_dir := "/project/src" |}.
End SampleProject.

Lemma load_in_memory_witness :
  SampleProject.load example_config None = Some (Return (), example_config).
Proof.
  destruct (load_in_memory id SampleProject.join SampleProject.file_exists
              (fun _ => ".toml") SampleProject.open_file SampleProject.parse_json
              SampleProject.parse_toml id id SampleProject.join id (fun _ => [])
              (fun _ => "/project") example_config (PDict [("a", PStr "root")]) 0 None
              eq_refl eq_refl) as (_ & Hloaded & _).
  apply Hloaded. done.
Defined.

Lemma load_without_section_witness :
  SampleProject.load SampleProject.empty_config (Some "/project/pyproject.toml")
  = Some (Raise (PoeException "No poe configuration found in file at pyproject.toml"),
          with_project_dir SampleProject.empty_config "/project").
Proof.
  destruct (load_without_section id SampleProject.join SampleProject.file_exists
              (fun _ => ".toml") SampleProject.open_file SampleProject.parse_json
              SampleProject.parse_toml id id SampleProject.join id (fun _ => [])
              (fun _ => "/project") SampleProject.empty_config (PDict []) 0
              (Some "/project/pyproject.toml") "/project/pyproject.toml"
              eq_refl eq_refl eq_refl) as [Hmissing _].
  apply (Hmissing [("project", PDict [])] eq_refl). left. by split.
Defined.

Lemma load_sets_project_dir_witness :
  _project_dir (with_project_dir SampleProject.empty_config "/project") = "/project"
  ∧ cwd (with_project_dir SampleProject.empty_config "/project") = "/project/src"
  ∧ _config_name (with_project_dir SampleProject.empty_config "/project")
    = "pyproject.toml".
Proof.
  apply (load_sets_project_dir id SampleProject.join SampleProject.file_exists
           (fun _ => ".toml") SampleProject.open_file SampleProject.parse_json
           SampleProject.parse_toml id id SampleProject.join id (fun _ => [])
           (fun _ => "/project") SampleProject.empty_config (PDict []) 0
           (Some "/project/pyproject.toml") "/project/pyproject.toml"
           (Raise (PoeException "No poe configuration found in file at pyproject.toml"))
           (with_project_dir SampleProject.empty_config "/project")
           eq_refl eq_refl eq_refl eq_refl).
Defined.

End ConfigMore.

(** ** task/sequence.py: specs, validation and the run loop *)

Module SequenceMore.
Import Options Task Sequence OptionsFacts SequenceFacts.

(** *** Names of subtasks *)

Lemma list_ascii_of_append s t :
  list_ascii_of_string (s +:+ t)
  = (list_ascii_of_string s ++ list_ascii_of_string t)%list.
Proof. induction s as [|c s IH]; simpl; [done|]. by rewrite IH. Qed.

Lemma append_inj_r s1 s2 t : s1 +:+ t = s2 +:+ t → s1 = s2.
Proof.
  intros H. apply (f_equal list_ascii_of_string) in H.
  rewrite !list_ascii_of_append in H. apply app_inv_tail in H.
  rewrite <- (string_of_list_ascii_of_string s1),
          <- (string_of_list_ascii_of_string s2).
  by rewrite H.
Qed.

Lemma subtask_name_inj task_name i j :
  _subtask_name task_name i = _subtask_name task_name j → i = j.
Proof.
  unfold _subtask_name. intros H.
  apply String.app_inj in H. apply (String.app_inj "[") in H.
  apply append_inj_r in H. by apply (inj pretty) in H.
Qed.

Section Specs.
Context {task_cls task_spec : Type}
        (key : task_cls → string)
        (base_init : string → list (string * pyval) → task_cls
                     → result (string * PoeOptions))
        (resolve_task_type : task_cls → pyval → option pyval → result pyval)
        (resolve_task_cls : task_cls → pyval → result task_cls)
        (get_task_spec : task_cls → string → child_def → result task_spec).

(** What the loop did for the item at [index] to obtain [subtask]. *)
Definition built_from (task_type : task_cls) (name : string) (index : nat)
           (item : pyval) (subtask : task_spec) : Prop :=
  ∃ type_key subtask_type sub_def,
    resolve_task_type task_type item (Some (PBool true)) = Return type_key
    ∧ resolve_task_cls task_type type_key = Return subtask_type
    ∧ match item with
      | PDict _ => sub_def = Declared item
      | _ => hashable type_key = true ∧ sub_def = Built [(type_key, item)]
      end
    ∧ get_task_spec subtask_type (_subtask_name name index) sub_def = Return subtask.

Lemma build_subtasks_returns task_type name index items subtasks :
  build_subtasks resolve_task_type resolve_task_cls get_task_spec
    task_type name index items = Return subtasks →
  length subtasks = length items
  ∧ ∀ i item, items !! i = Some item →
      ∃ subtask, subtasks !! i = Some subtask
                 ∧ built_from task_type name (index + i) item subtask.
Proof.
  revert index subtasks.
  induction items as [|item items IH]; intros index subtasks; simpl.
  - intros [= <-]. split; [done|]. intros i item Hi. by destruct i.
  - unfold_result.
    destruct (resolve_task_type task_type item _) as [type_key|] eqn:Hkey; [|done].
    destruct (resolve_task_cls task_type type_key) as [subtask_type|] eqn:Hcls; [|done].
    destruct (match item with PDict _ => _ | _ => _ end) as [sub_def|] eqn:Hdef; [|done].
    destruct (get_task_spec subtask_type _ sub_def) as [subtask|] eqn:Hspec; [|done].
    destruct (build_subtasks _ _ _ task_type name (S index) items) as [rest|] eqn:Hrest;
      [|done].
    intros [= <-]. destruct (IH _ _ Hrest) as [Hlen Hitems].
    split; [simpl; by rewrite Hlen|].
    intros [|i] x Hi; simpl in Hi.
    + injection Hi as ->. exists subtask. split; [done|].
      rewrite Nat.add_0_r. exists type_key, subtask_type, sub_def.
      repeat split; try done.
      unfold keyed_setitem in Hdef.
      destruct x; try (by injection Hdef as <-);
        (destruct (hashable type_key); [by injection Hdef as <- | done]).
    + destruct (Hitems i x Hi) as (s & Hs & Hbuilt).
      exists s. split; [done|]. by rewrite <- Nat.add_succ_comm.
Qed.

(** X20: a sequence spec that is built has one subtask spec per item of
    the content, in order, and the spec of item [i] was asked for under
    the name [name[i]], with a mapping as declared and any other
    content wrapped under its resolved type key; the names of distinct
    items differ. *)
Theorem subtask_specs_named name task_def task_type sp :
  TaskSpec_init key base_init resolve_task_type resolve_task_cls get_task_spec
    name task_def task_type = Return sp →
  ∃ content items,
    dict_get (key task_type) task_def = Some content
    ∧ iterate content = Return items
    ∧ length (spec_subtasks sp) = length items
    ∧ (∀ i item, items !! i = Some item →
         ∃ subtask, spec_subtasks sp !! i = Some subtask
                    ∧ built_from task_type name i item subtask)
    ∧ (∀ i j, (i < length items)%nat → (j < length items)%nat → i ≠ j →
         _subtask_name name i ≠ _subtask_name name j).
Proof.
  unfold TaskSpec_init. unfold_result.
  destruct (base_init name task_def task_type) as [[n opts]|]; [|done].
  unfold getitem.
  destruct (dict_get (key task_type) task_def) as [content|] eqn:Hcontent; [|done].
  destruct (iterate content) as [items|] eqn:Hitems0; [|done].
  destruct (build_subtasks _ _ _ task_type name 0 items) as [subtasks|] eqn:Hb; [|done].
  intros [= <-]. simpl.
  destruct (build_subtasks_returns _ _ _ _ _ Hb) as [Hlen Hitems].
  exists content, items. repeat split; try done.
  intros i j _ _ Hij Heq. by apply subtask_name_inj in Heq.
Qed.
End Specs.

(** Task types known by their key, and child specs known by the name and
    the definition they were asked for with. *)
Module SampleTypes.
Definition resolve_task_type (_ : string) (item : pyval) (_ : option pyval)
  : result pyval :=
  match item with
  | PDict ((k, _) :: _) => Return (PStr k)
  | PDict [] => Raise (PoeException "Task has no type")
  | _ => Return (PStr "cmd")
  end.

Definition resolve_task_cls (_ : string) (type_key : pyval) : result string :=
  match type_key with
  | PStr k => Return k
  | _ => Raise (KeyError "type")
  end.

Definition get_task_spec (_ : string) (name : string) (task_def : child_def)
  : result (string * child_def) :=
  Return (name, task_def).

Definition base_init (name : string) (task_def : list (string * pyval)) (_ : string)
  : result (string * PoeOptions) :=
  Return (name, {| options_class := TaskOptions Sample.bare_TaskOptions;
                   options_dict := [] |}).

Definition check_def : list (string * pyval) :=
  [("sequence", PList [PStr "ruff ."; PDict [("script", PStr "tests:run")]])].

Definition check_spec : @TaskSpec (string * child_def) :=
  {| spec_name := "check";
     spec_options := {| options_class := TaskOptions Sample.bare_TaskOptions;
                        options_dict := [] |};
     spec_subtasks :=
       [("check[0]", Built [(PStr "cmd", PStr "ruff .")]);
        ("check[1]", Declared (PDict [("script", PStr "tests:run")]))] |}.
End SampleTypes.

Lemma subtask_specs_named_witness :
  ∃ content items,
    dict_get "sequence" SampleTypes.check_def = Some content
    ∧ iterate content = Return items
    ∧ length (spec_subtasks SampleTypes.check_spec) = length items
    ∧ (∀ i item, items !! i = Some item →
         ∃ subtask, spec_subtasks SampleTypes.check_spec !! i = Some subtask
                    ∧ built_from SampleTypes.resolve_task_type
                        SampleTypes.resolve_task_cls SampleTypes.get_task_spec
                        "sequence" "check" i item subtask)
    ∧ (∀ i j, (i < length items)%nat → (j < length items)%nat → i ≠ j →
         _subtask_name "check" i ≠ _subtask_name "check" j).
Proof.
  exact (subtask_specs_named (fun _ => "sequence") SampleTypes.base_init
           SampleTypes.resolve_task_type SampleTypes.resolve_task_cls
           SampleTypes.get_task_spec "check" SampleTypes.check_def "sequence"
           SampleTypes.check_spec eq_refl).
Defined.

(** *** Validation *)

(** The values of [ignore_fail] that pass the membership test: the two
    booleans and the two strings, and the integers equal to a boolean. *)
Lemma ignore_fail_allowed v :
  in_tuple v [PBool true; PBool false; PStr "return_zero"; PStr "return_non_zero"] = true
  ↔ v = PBool true ∨ v = PBool false ∨ v = PInt 1 ∨ v = PInt 0
    ∨ v = PStr "return_zero" ∨ v = PStr "return_non_zero".
Proof.
  unfold in_tuple, eq_scalar. simpl. split.
  - destruct v as [|[]|n|s| | |]; simpl; try done; eauto 7.
    + rewrite !orb_false_r. intros H.
      apply orb_true_iff in H as [H|H]; apply bool_decide_eq_true in H;
        injection H as ->; eauto 7.
    + rewrite !orb_false_r. intros H.
      apply orb_true_iff in H as [H|H]; apply bool_decide_eq_true in H;
        injection H as ->; eauto 7.
  - intros [->|[->|[->|[->|[->| ->]]]]]; done.
Qed.

Section ValidationMore.
Context (is_task_type : pyval → bool)
        (get_task_types : string)
        (validate_def : string → pyval → bool → list string → option string)
        (normalize_task_def : pyval → pyval → result pyval).

Abbreviation validate_task_def :=
  (_validate_task_def is_task_type get_task_types validate_def normalize_task_def).

(** The type that items given by content alone are normalized with. *)
Definition array_item (task_def : list (string * pyval)) : pyval :=
  let default_item_type := dict_get_default task_def "default_item_type" PNone in
  if truthy default_item_type then default_item_type else PBool true.

(** The two options of a sequence are fit. *)
Definition options_accepted (task_def : list (string * pyval)) : Prop :=
  (dict_get_default task_def "default_item_type" PNone = PNone
   ∨ is_task_type (dict_get_default task_def "default_item_type" PNone) = true)
  ∧ (dict_get_default task_def "ignore_fail" PNone = PNone
     ∨ in_tuple (dict_get_default task_def "ignore_fail" PNone)
         [PBool true; PBool false; PStr "return_zero"; PStr "return_non_zero"] = true).

(** The item at [index] is fit: a mapping has no argument declarations
    and passes the validation of its type under the name of the
    subtask; other content does after normalization. *)
Definition item_accepted (task_name : string) (task_def : list (string * pyval))
           (index : nat) (item : pyval) : Prop :=
  match item with
  | PDict d =>
      len (dict_get_default d "args" (PList [])) = Return 0%nat
      ∧ reported (validate_def (_subtask_name task_name index) item true []) = false
  | _ =>
      ∃ normalized,
        normalize_task_def item (array_item task_def) = Return normalized
        ∧ reported (validate_def (_subtask_name task_name index) normalized true [])
          = false
  end.

(** The item can be looked at: the [args] of a mapping have a length, and
    other content can be normalized. *)
Definition item_shaped (task_def : list (string * pyval)) (item : pyval) : Prop :=
  match item with
  | PDict d => ∃ n, len (dict_get_default d "args" (PList [])) = Return n
  | _ => ∃ normalized, normalize_task_def item (array_item task_def) = Return normalized
  end.

Lemma validate_items_None task_name task_def index items :
  validate_items validate_def normalize_task_def task_name
    (dict_get_default task_def "default_item_type" PNone) index items = Return None →
  ∀ i item, items !! i = Some item → item_accepted task_name task_def (index + i) item.
Proof.
  revert index. induction items as [|x items IH]; intros index Hv i item Hi.
  { by destruct i. }
  assert (item_accepted task_name task_def index x
          ∧ validate_items validate_def normalize_task_def task_name
              (dict_get_default task_def "default_item_type" PNone) (S index) items
            = Return None) as [Hx Hrest].
  { simpl in Hv. unfold item_accepted, array_item.
    destruct x as [| | | | |d|]; unfold_result;
      try (destruct (normalize_task_def _ _) as [normalized|]; [|done];
           destruct (reported _) eqn:Hrep;
             [destruct (validate_def _ normalized true []); done | by eauto]).
    destruct (len _) as [n|]; [|done].
    destruct n as [|n]; simpl in Hv; [|done].
    destruct (reported _) eqn:Hrep; [|done].
    by destruct (validate_def _ (PDict d) true []). }
  destruct i as [|i]; simpl in Hi.
  - injection Hi as <-. by rewrite Nat.add_0_r.
  - rewrite <- Nat.add_succ_comm. by apply IH.
Qed.

Lemma validate_items_accepts task_name task_def index items :
  (∀ i item, items !! i = Some item → item_accepted task_name task_def (index + i) item) →
  validate_items validate_def normalize_task_def task_name
    (dict_get_default task_def "default_item_type" PNone) index items = Return None.
Proof.
  revert index. induction items as [|x items IH]; intros index Hall; [done|].
  pose proof (Hall 0%nat x eq_refl) as Hx. rewrite Nat.add_0_r in Hx.
  assert (validate_items validate_def normalize_task_def task_name
            (dict_get_default task_def "default_item_type" PNone) (S index) items
          = Return None) as Hrest.
  { apply IH. intros i item Hi. rewrite Nat.add_succ_comm. by apply (Hall (S i)). }
  simpl. unfold item_accepted, array_item in Hx.
  destruct x as [| | | | |d|];
    try (destruct Hx as (normalized & -> & Hrep); unfold_result; by rewrite Hrep).
  destruct Hx as [-> Hrep]. unfold_result. simpl. by rewrite Hrep.
Qed.

Lemma reported_nonempty issue :
  reported issue = true → ∃ msg, msg ≠ "" ∧ issue = Some msg.
Proof.
  destruct issue as [msg|]; [|done]. simpl. intros H. exists msg. split; [|done].
  intros ->. done.
Qed.

Lemma validate_items_returns task_name task_def index items :
  Forall (item_shaped task_def) items →
  validate_items validate_def normalize_task_def task_name
    (dict_get_default task_def "default_item_type" PNone) index items = Return None
  ∨ ∃ msg, msg ≠ "" ∧
      validate_items validate_def normalize_task_def task_name
        (dict_get_default task_def "default_item_type" PNone) index items
      = Return (Some msg).
Proof.
  intros H. revert index. induction H as [|x items Hx _ IH]; intros index; [by left|].
  simpl. unfold item_shaped, array_item in Hx.
  destruct x as [| | | | |d|];
    try (destruct Hx as (normalized & ->); unfold_result;
         destruct (reported _) eqn:Hrep; [|apply IH];
         apply reported_nonempty in Hrep as (msg & Hmsg & ->); right; by eauto).
  destruct Hx as [n ->]. unfold_result.
  destruct (negb _).
  { right. eexists. split; [|done]. done. }
  destruct (reported _) eqn:Hrep; [|apply IH].
  apply reported_nonempty in Hrep as (msg & Hmsg & ->). right. by eauto.
Qed.

(** X21: a sequence definition that validation lets pass has a
    [default_item_type] that is absent, [None] or a task type for string
    content, an [ignore_fail] that is absent, [None], a boolean (or the
    integer equal to one), ["return_zero"] or ["return_non_zero"], and a
    content of which every mapping has no [args] and passes the
    validation of its type as [name[i]], and every other item does so
    after normalization. *)
Theorem sequence_validation_sound task_name task_def :
  validate_task_def task_name task_def = Return None →
  options_accepted task_def
  ∧ (∀ v, dict_get "ignore_fail" task_def = Some v →
       v = PNone ∨ v = PBool true ∨ v = PBool false ∨ v = PInt 1 ∨ v = PInt 0
       ∨ v = PStr "return_zero" ∨ v = PStr "return_non_zero")
  ∧ ∃ content items,
      dict_get "sequence" task_def = Some content
      ∧ iterate content = Return items
      ∧ ∀ i item, items !! i = Some item → item_accepted task_name task_def i item.
Proof.
  intros Hv. unfold _validate_task_def in Hv.
  match type of Hv with (if ?c then _ else _) = _ =>
    destruct c eqn:Hdefault; [done|] end.
  match type of Hv with (if ?c then _ else _) = _ =>
    destruct c eqn:Hignore; [done|] end.
  unfold_result. unfold getitem in Hv.
  destruct (dict_get "sequence" task_def) as [content|] eqn:Hc; [|done].
  destruct (iterate content) as [items|] eqn:Hit; [|done].
  assert (options_accepted task_def) as Hopts.
  { split.
    - destruct (dict_get_default task_def "default_item_type" PNone);
        first [by left | right; by apply negb_false_iff in Hdefault].
    - destruct (dict_get_default task_def "ignore_fail" PNone);
        first [by left | right; by apply negb_false_iff in Hignore]. }
  split; [done|]. split.
  - intros v Hv'. destruct Hopts as [_ Hig].
    unfold dict_get_default in Hig. rewrite Hv' in Hig.
    destruct Hig as [->|Hig]; [by left|]. right. by apply ignore_fail_allowed.
  - exists content, items. repeat split; try done.
    by apply (validate_items_None task_name task_def 0 items).
Qed.

(** X22: on a definition whose content is iterable, with sized [args]
    in its mappings and other items that normalize, validation never
    raises: it returns [None] or an issue that is not empty, and it
    returns [None] whenever the options and every item are fit. *)
Theorem sequence_validation_complete task_name task_def content items :
  dict_get "sequence" task_def = Some content →
  iterate content = Return items →
  Forall (item_shaped task_def) items →
  (options_accepted task_def →
   (∀ i item, items !! i = Some item → item_accepted task_name task_def i item) →
   validate_task_def task_name task_def = Return None)
  ∧ (validate_task_def task_name task_def = Return None
     ∨ ∃ msg, msg ≠ "" ∧ validate_task_def task_name task_def = Return (Some msg)).
Proof.
  intros Hc Hit Hshape. split.
  - intros [Hdefault Hignore] Hitems. unfold _validate_task_def.
    assert (match dict_get_default task_def "default_item_type" PNone with
            | PNone => false
            | _ => negb (is_task_type
                           (dict_get_default task_def "default_item_type" PNone))
            end = false) as ->.
    { destruct Hdefault as [-> | ->]; [done|].
      by destruct (dict_get_default task_def "default_item_type" PNone). }
    assert (match dict_get_default task_def "ignore_fail" PNone with
            | PNone => false
            | _ => negb (in_tuple (dict_get_default task_def "ignore_fail" PNone)
                           [PBool true; PBool false; PStr "return_zero";
                            PStr "return_non_zero"])
            end = false) as ->.
    { destruct Hignore as [-> | ->]; [done|].
      by destruct (dict_get_default task_def "ignore_fail" PNone). }
    unfold_result. unfold getitem. rewrite Hc, Hit.
    by apply validate_items_accepts.
  - unfold _validate_task_def.
    match goal with |- context [if ?c then _ else _] => destruct c end.
    { right. eexists. split; [|done]. done. }
    match goal with |- context [if ?c then _ else _] => destruct c end.
    { right. eexists. split; [|done]. done. }
    unfold_result. unfold getitem. rewrite Hc, Hit.
    by apply validate_items_returns.
Qed.
End ValidationMore.

(** A registry with the two task types [cmd] and [script], under which
    every definition passes, and the sequence [check] of two items. *)
Module SampleValidation.
Definition is_task_type (v : pyval) : bool := eq_str v "cmd" || eq_str v "script".

Definition validate_def (_ : string) (_ : pyval) (_ : bool) (_ : list string)
  : option string := None.

Definition normalize_task_def (item array_item : pyval) : result pyval :=
  Return (PDict [("cmd", item)]).

Definition check_def : list (string * pyval) :=
  [("sequence", PList [PStr "ruff ."; PDict [("script", PStr "tests:run")]]);
   ("ignore_fail", PStr "return_zero")].

Definition validate :=
  _validate_task_def is_task_type "['cmd', 'script']" validate_def normalize_task_def.
End SampleValidation.

Lemma sequence_validation_sound_witness :
  options_accepted SampleValidation.is_task_type SampleValidation.check_def
  ∧ (∀ v, dict_get "ignore_fail" SampleValidation.check_def = Some v →
       v = PNone ∨ v = PBool true ∨ v = PBool false ∨ v = PInt 1 ∨ v = PInt 0
       ∨ v = PStr "return_zero" ∨ v = PStr "return_non_zero")
  ∧ ∃ content items,
      dict_get "sequence" SampleValidation.check_def = Some content
      ∧ iterate content = Return items
      ∧ ∀ i item, items !! i = Some item →
          item_accepted SampleValidation.validate_def
            SampleValidation.normalize_task_def "check" SampleValidation.check_def
            i item.
Proof.
  exact (sequence_validation_sound SampleValidation.is_task_type "['cmd', 'script']"
           SampleValidation.validate_def SampleValidation.normalize_task_def
           "check" SampleValidation.check_def eq_refl).
Defined.

Lemma sequence_validation_complete_witness :
  (options_accepted SampleValidation.is_task_type SampleValidation.check_def →
   (∀ i item,
       [PStr "ruff ."; PDict [("script", PStr "tests:run")]] !! i = Some item →
       item_accepted SampleValidation.validate_def SampleValidation.normalize_task_def
         "check" SampleValidation.check_def i item) →
   SampleValidation.validate "check" SampleValidation.check_def = Return None)
  ∧ (SampleValidation.validate "check" SampleValidation.check_def = Return None
     ∨ ∃ msg, msg ≠ "" ∧ SampleValidation.validate "check" SampleValidation.check_def
                         = Return (Some msg)).
Proof.
  apply (sequence_validation_complete SampleValidation.is_task_type "['cmd', 'script']"
           SampleValidation.validate_def SampleValidation.normalize_task_def
           "check" SampleValidation.check_def
           (PList [PStr "ruff ."; PDict [("script", PStr "tests:run")]])
           [PStr "ruff ."; PDict [("script", PStr "tests:run")]] eq_refl eq_refl).
  repeat constructor; eexists; reflexivity.
Defined.

(** *** The run loop *)

Section RunMore.
Context {world task_spec : Type}
        (mark_multistage : world → world).

Implicit Types (t : PoeTask world) (ts : list (PoeTask world)) (w : world) (e : env).

Abbreviation handle_run := (_handle_run (task_spec:=task_spec) mark_multistage).

(** The loop over two runs of subtasks is the loop over the first, then,
    unless that raised, the loop over the second. *)
Lemma run_subtasks_app ignore_fail e ts1 ts2 acc w :
  run_subtasks ignore_fail e (ts1 ++ ts2) acc w
  = match run_subtasks ignore_fail e ts1 acc w with
    | (Return acc', w') => run_subtasks ignore_fail e ts2 acc' w'
    | (Raise err, w') => (Raise err, w')
    end.
Proof.
  revert acc w. induction ts1 as [|t ts1 IH]; intros acc w; simpl; [done|].
  destruct (run t [] e w) as [[code|err] w']; [|done].
  destruct (negb (code =? 0) && negb (truthy ignore_fail)); [done|]. apply IH.
Qed.

Lemma guard_passes (self : @SequenceTask world task_spec) e extra_args :
  get_named_arg_values self e ≠ [] ∨ any_stripped extra_args = false →
  match get_named_arg_values self e with [] => true | _ => false end
  && any_stripped extra_args = false.
Proof.
  intros [Hn| ->]; [|apply andb_false_r]. by destruct (get_named_arg_values self e).
Qed.

(** X23: whatever [ignore_fail] says, a subtask that raises ends the
    sequence with that very exception, in the world the subtask left:
    the subtasks after it do not run, and the failures collected so far
    are not reported. *)
Theorem sequence_subtask_exception (self : SequenceTask) context extra_args e
        ignore_fail pre t post non_zero w err w' :
  let e' := dict_update e (get_named_arg_values self e) in
  let w0 := if (1 <? length (subtasks self))%nat
            then mark_multistage context else context in
  (get_named_arg_values self e ≠ [] ∨ any_stripped extra_args = false) →
  Options.get (spec_options (spec self)) "ignore_fail" None = Return ignore_fail →
  subtasks self = (pre ++ t :: post)%list →
  run_subtasks ignore_fail e' pre [] w0 = (Return non_zero, w) →
  run t [] e' w = (Raise err, w') →
  handle_run self context extra_args e = (Raise err, w').
Proof.
  intros e' w0 Hargs Hget Hts Hpre Hrun.
  unfold _handle_run. rewrite (guard_passes _ _ _ Hargs). fold e' w0.
  rewrite Hget, Hts, run_subtasks_app, Hpre. simpl. by rewrite Hrun.
Qed.

Lemma any_stripped_spec extra_args :
  any_stripped extra_args = true
  ↔ ∃ arg c, arg ∈ extra_args ∧ c ∈ list_ascii_of_string arg ∧ is_space c = false.
Proof.
  unfold any_stripped. rewrite existsb_exists. split.
  - intros (arg & Hin & Hb). apply negb_true_iff in Hb.
    exists arg. apply list_elem_of_In in Hin.
    assert (∃ c, c ∈ list_ascii_of_string arg ∧ is_space c = false) as (c & Hc & Hs).
    { clear Hin. induction arg as [|c arg IH]; simpl in Hb; [done|].
      apply andb_false_iff in Hb as [Hb|Hb].
      - exists c. split; [by left | done].
      - destruct (IH Hb) as (c' & Hc' & Hs). exists c'. split; [by right | done]. }
    eauto.
  - intros (arg & c & Hin & Hc & Hs). exists arg. split; [by apply list_elem_of_In|].
    apply negb_true_iff. clear Hin.
    induction arg as [|c' arg IH]; simpl in *; [by apply elem_of_nil in Hc|].
    apply elem_of_cons in Hc as [<- | Hc]; [by rewrite Hs|].
    rewrite (IH Hc). apply andb_false_r.
Qed.

(** The characters that [str.strip] removes, by code point. *)
Lemma is_space_codes c :
  is_space c = true
  ↔ nat_of_ascii c ∈ [9; 10; 11; 12; 13; 28; 29; 30; 31; 32; 133; 160]%nat.
Proof.
  rewrite <- (bool_decide_spec (nat_of_ascii c ∈ _)).
  assert (is_space c
          = bool_decide (nat_of_ascii c
                         ∈ [9; 10; 11; 12; 13; 28; 29; 30; 31; 32; 133; 160]%nat))
    as ->; [|by destruct (bool_decide _)].
  by destruct c as [[] [] [] [] [] [] [] []]; vm_compute.
Qed.

(** X24: extra arguments never reach the subtasks of a sequence.  When
    the task declares no named argument, an extra argument with a
    character that [str.strip] keeps is refused before anything runs;
    in every other case, so also when every extra argument is made of
    white space only, the run is the one without extra arguments.
    White space is what [str.isspace] accepts: the code points 9 to 13,
    28 to 32, 133 and 160 among those below 256. *)
Theorem sequence_extra_args (self : SequenceTask) context extra_args e :
  (get_named_arg_values self e = [] →
   (∃ arg c, arg ∈ extra_args ∧ c ∈ list_ascii_of_string arg ∧ is_space c = false) →
   handle_run self context extra_args e
   = (Raise (PoeException ("Sequence task " +:+ repr_str (spec_name (spec self))
                           +:+ " does not accept arguments")), context))
  ∧ (get_named_arg_values self e ≠ []
     ∨ (∀ arg c, arg ∈ extra_args → c ∈ list_ascii_of_string arg → is_space c = true) →
     handle_run self context extra_args e = handle_run self context [] e)
  ∧ (∀ c, is_space c = true
          ↔ nat_of_ascii c ∈ [9; 10; 11; 12; 13; 28; 29; 30; 31; 32; 133; 160]%nat).
Proof.
  split; [|split; [|apply is_space_codes]].
  - intros Hn Hargs. apply any_stripped_spec in Hargs.
    unfold _handle_run. by rewrite Hn, Hargs.
  - intros Hargs.
    assert (get_named_arg_values self e ≠ [] ∨ any_stripped extra_args = false) as Hg.
    { destruct Hargs as [Hn|Hblank]; [by left|]. right.
      destruct (any_stripped extra_args) eqn:Hany; [|done].
      apply any_stripped_spec in Hany as (arg & c & Hin & Hc & Hs).
      rewrite (Hblank arg c Hin Hc) in Hs. done. }
    unfold _handle_run. rewrite (guard_passes _ _ _ Hg).
    by rewrite andb_false_r.
Qed.
End RunMore.

(** The sequence [check] with [ignore_fail = true], whose second subtask
    raises. *)
Module SampleRun.
Definition raising_task : PoeTask Sample.world :=
  {| name := "check[1]"; invocation := ["check[1]"]; capture_stdout := PBool false;
     run := fun _ _ w => (Raise (PoeException "no such file"), w) |}.

Definition sequence : @SequenceTask Sample.world unit :=
  {| spec := spec (Sample.sequence [("ignore_fail", PBool true)]);
     seq_invocation := ["check"];
     seq_capture_stdout := PBool false;
     subtasks := [Sample.logging_task "check[0]" 1; raising_task;
                  Sample.logging_task "check[2]" 0];
     get_named_arg_values := fun _ => [] |}.
End SampleRun.

Lemma sequence_subtask_exception_witness :
  _handle_run Sample.mark SampleRun.sequence (false, []) [] []
  = (Raise (PoeException "no such file"), (true, ["check[0]"])).
Proof.
  exact (sequence_subtask_exception Sample.mark SampleRun.sequence (false, []) [] []
           (PBool true) [Sample.logging_task "check[0]" 1] SampleRun.raising_task
           [Sample.logging_task "check[2]" 0]
           ["check[0]"] (true, ["check[0]"]) (PoeException "no such file")
           (true, ["check[0]"]) (or_intror eq_refl) eq_refl eq_refl eq_refl eq_refl).
Defined.

End SequenceMore.

(** ** task/switch.py: the control task, validation and specs *)

Module SwitchMore.
Import Options Task Switch OptionsFacts SwitchFacts.

(** *** The control task *)

Section ControlMore.
Context {world task_spec : Type}
        (dry : world → bool)
        (mark_multistage : world → world)
        (get_task_output : world → list string → result string)
        (print_action : @SwitchTask world task_spec → string → bool → bool → world
                        → result unit * world).

Abbreviation handle_run :=
  (_handle_run (task_spec:=task_spec) dry mark_multistage get_task_output print_action).

(** X25: the control task of a switch runs first, in a context marked as
    multistage.  When it raises, the switch raises the same, and when it
    returns a code other than 0, the switch raises an execution error
    naming itself, both in the world the control task left.  In a dry
    run after a successful control task the switch reports the
    unresolved case through [_print_action], with [dry] and [unresolved]
    set, and returns 0 in the world the report left, or raises what the
    report raised.  In none of these cases is the output of the control
    task read or a case run. *)
Theorem switch_control_outcomes (self : SwitchTask) context extra_args e args :
  let e' := dict_update e (get_named_arg_values self e) in
  let control_args := if truthy args then extra_args else [] in
  (get_named_arg_values self e ≠ [] ∨ any_stripped extra_args = false) →
  Options.get (spec_options (spec self)) "args" None = Return args →
  (∀ err w1,
      run (control_task self) control_args e' (mark_multistage context)
      = (Raise err, w1) →
      handle_run self context extra_args e = (Raise err, w1))
  ∧ (∀ code w1,
        run (control_task self) control_args e' (mark_multistage context)
        = (Return code, w1) →
        code ≠ 0 →
        handle_run self context extra_args e
        = (Raise (ExecutionError ("Switch task " +:+ repr_str (spec_name (spec self))
                                  +:+ " aborted after failed control task")), w1))
  ∧ (∀ w1 w2,
        run (control_task self) control_args e' (mark_multistage context)
        = (Return 0, w1) →
        dry w1 = true →
        print_action self "unresolved case for switch task" true true w1
        = (Return tt, w2) →
        handle_run self context extra_args e = (Return 0, w2))
  ∧ (∀ w1 w2 err,
        run (control_task self) control_args e' (mark_multistage context)
        = (Return 0, w1) →
        dry w1 = true →
        print_action self "unresolved case for switch task" true true w1
        = (Raise err, w2) →
        handle_run self context extra_args e = (Raise err, w2)).
Proof.
  intros e' control_args Hargs Hget.
  assert ((match get_named_arg_values self e with [] => true | _ => false end
           && any_stripped extra_args) = false) as Hguard.
  { destruct Hargs as [Hn| ->]; [|apply andb_false_r].
    by destruct (get_named_arg_values self e). }
  split; [|split; [|split]].
  - intros err w1 Hrun. unfold _handle_run. rewrite Hguard, Hget.
    fold e' control_args. by rewrite Hrun.
  - intros code w1 Hrun Hcode. unfold _handle_run. rewrite Hguard, Hget.
    fold e' control_args. rewrite Hrun.
    apply Z.eqb_neq in Hcode. by rewrite Hcode.
  - intros w1 w2 Hrun Hdry Hprint. unfold _handle_run. rewrite Hguard, Hget.
    fold e' control_args. rewrite Hrun. simpl. by rewrite Hdry, Hprint.
  - intros w1 w2 err Hrun Hdry Hprint. unfold _handle_run. rewrite Hguard, Hget.
    fold e' control_args. rewrite Hrun. simpl. by rewrite Hdry, Hprint.
Qed.
End ControlMore.

(** The switch [pick] with a control task that fails, and a dry run of
    [pick] with a control task that passes. *)
Module SampleControl.
Definition pick (code : Z) : @SwitchTask Sample.world unit :=
  {| spec := Sample.pick_spec [];
     switch_invocation := ["pick"];
     switch_capture_stdout := PBool false;
     control_task := Sample.logging_task "pick[control]" code;
     switch_tasks := [(PStr "a", Sample.case_a)];
     get_named_arg_values := fun _ => [] |}.

Definition dry_run :=
  @_handle_run Sample.world unit (fun _ => true) (fun w => w) (fun _ _ => Return "a")
    Sample.print_action.
End SampleControl.

Lemma switch_control_outcomes_witness :
  Sample.handle_run "a" (SampleControl.pick 2) [] [] []
  = (Raise (ExecutionError "Switch task 'pick' aborted after failed control task"),
     ["pick[control]"])
  ∧ SampleControl.dry_run (SampleControl.pick 0) [] [] []
    = (Return 0, ["pick[control]"; "unresolved case for switch task"]).
Proof.
  split.
  - destruct (switch_control_outcomes (task_spec:=unit) (fun _ => false) (fun w => w)
                (fun _ _ => Return "a") Sample.print_action (SampleControl.pick 2)
                [] [] [] (PDict []) (or_intror eq_refl) eq_refl) as (_ & Hfail & _).
    exact (Hfail 2 ["pick[control]"] eq_refl ltac:(done)).
  - destruct (switch_control_outcomes (task_spec:=unit) (fun _ => true) (fun w => w)
                (fun _ _ => Return "a") Sample.print_action (SampleControl.pick 0)
                [] [] [] (PDict []) (or_intror eq_refl) eq_refl) as (_ & _ & Hdry & _).
    exact (Hdry ["pick[control]"] ["pick[control]"; "unresolved case for switch task"]
             eq_refl eq_refl eq_refl).
Defined.

(** *** Validation *)

Lemma eq_scalar_sym a b : eq_scalar a b = eq_scalar b a.
Proof.
  unfold eq_scalar. destruct (key_of a), (key_of b); try done.
  apply bool_decide_ext. split; by intros ->.
Qed.

Lemma keyed_get_eq {V} a b (d : list (pyval * V)) :
  eq_scalar a b = true → keyed_get a d = keyed_get b d.
Proof.
  intros (h & Ha & Hb)%eq_scalar_key.
  induction d as [|[k v] d IH]; simpl; [done|].
  unfold eq_scalar. rewrite Ha, Hb. destruct (key_of k); [|done].
  by destruct (bool_decide _).
Qed.

Lemma keyed_get_count_key_ne k k' cases :
  eq_scalar k k' = false → keyed_get k (count_key k' cases) = keyed_get k cases.
Proof.
  intros Hne. induction cases as [|[k'' n] cases IH]; simpl.
  - by rewrite Hne.
  - destruct (eq_scalar k' k'') eqn:E; simpl.
    + by rewrite (eq_scalar_trans_l k k' k'' E), Hne.
    + destruct (eq_scalar k k''); [done | apply IH].
Qed.

(** The counts kept by validation: one entry per key, each key hashable
    and counted at least once. *)
Fixpoint counted (cases : list (pyval * nat)) : Prop :=
  match cases with
  | [] => True
  | (k, n) :: rest =>
      hashable k = true ∧ (1 ≤ n)%nat ∧ keyed_get k rest = None ∧ counted rest
  end.

Lemma counted_count_key k cases :
  hashable k = true → counted cases → counted (count_key k cases).
Proof.
  intros Hk. induction cases as [|[k' n] cases IH]; simpl.
  - intros _. repeat split; [done | lia].
  - intros (Hk' & Hn & Hnone & Hrest).
    destruct (eq_scalar k k') eqn:E; simpl.
    + repeat split; try done. lia.
    + repeat split; try done; [|by apply IH].
      rewrite keyed_get_count_key_ne; [done|]. by rewrite eq_scalar_sym.
Qed.

Lemma counted_foldl keys cases :
  Forall (λ k, hashable k = true) keys → counted cases →
  counted (foldl (λ c k, count_key k c) cases keys).
Proof.
  intros H. revert cases. induction H as [|k keys Hk _ IH]; intros cases Hc; [done|].
  simpl. apply IH. by apply counted_count_key.
Qed.

Lemma counted_lookup cases k n :
  counted cases → (k, n) ∈ cases → keyed_get k cases = Some n.
Proof.
  induction cases as [|[k' n'] cases IH]; simpl; intros Hc Hin.
  { by apply elem_of_nil in Hin. }
  destruct Hc as (Hk' & Hn' & Hnone & Hrest).
  apply elem_of_cons in Hin as [[= -> ->]|Hin].
  - by rewrite eq_scalar_refl.
  - specialize (IH Hrest Hin).
    destruct (eq_scalar k k') eqn:E; [|done].
    rewrite (keyed_get_eq k k' cases E) in IH. congruence.
Qed.

Lemma counted_positive cases k n :
  counted cases → keyed_get k cases = Some n → (1 ≤ n)%nat.
Proof.
  induction cases as [|[k' n'] cases IH]; simpl; [done|].
  intros (_ & Hn' & _ & Hrest). destruct (eq_scalar k k'); [|by apply IH].
  by intros [= <-].
Qed.

Lemma no_repeated_case task_name cases :
  counted cases → (∀ k, (count_of k cases ≤ 1)%nat) →
  repeated_case_issue task_name cases = None.
Proof.
  intros Hc Hle. unfold repeated_case_issue.
  destruct (List.find _ cases) as [[c n]|] eqn:Hf; [|done].
  apply find_some in Hf as [Hin Hn]. simpl in Hn. apply Nat.ltb_lt in Hn.
  apply list_elem_of_In in Hin.
  specialize (Hle c). unfold count_of in Hle.
  rewrite (counted_lookup cases c n Hc Hin) in Hle. simpl in Hle. lia.
Qed.

Lemma pass_or_fail v :
  in_tuple v [PStr "pass"; PStr "fail"] = true ↔ v = PStr "pass" ∨ v = PStr "fail".
Proof.
  unfold in_tuple. simpl. rewrite orb_false_r, orb_true_iff.
  rewrite !(eq_scalar_sym v), !eq_scalar_str. done.
Qed.

Section ValidationMore.
Context (validate_def : string → pyval → bool → list string → option string).

Abbreviation validate_task_def := (_validate_task_def validate_def).

(** The control task is fit: it is there, a mapping names one of the
    allowed types, and it passes the validation of its type. *)
Definition control_accepted (task_name : string) (task_def : list (string * pyval))
  : Prop :=
  truthy (dict_get_default task_def "control" PNone) = true
  ∧ (∀ c, dict_get_default task_def "control" PNone = PDict c →
       ∃ key, key ∈ allowed_control_task_types ∧ dict_has key c = true)
  ∧ reported (validate_def (task_name +:+ "[control]")
                (dict_get_default task_def "control" PNone) true []) = false.

(** A case is fit: it has neither [args] nor [deps] and passes the
    validation of its type. *)
Definition case_accepted (task_name : string) (d : list (string * pyval)) : Prop :=
  dict_has "args" d = false ∧ dict_has "deps" d = false
  ∧ reported (validate_def
                (task_name +:+ "[" +:+
                 py_str (dict_get_default d "case" (PStr DEFAULT_CASE)) +:+ "]")
                (PDict d) true ["case"]) = false.

(** The [default] option is fit: ["pass"] or ["fail"], and no case is the
    default case. *)
Definition default_accepted (task_def : list (string * pyval))
           (items : list (list (string * pyval))) : Prop :=
  ∀ v, dict_get "default" task_def = Some v →
       (v = PStr "pass" ∨ v = PStr "fail")
       ∧ occurrences (PStr DEFAULT_CASE) (case_keys_of items) = 0%nat.

Lemma invalid_option_issue_clean task_name d :
  dict_has "args" d = false → dict_has "deps" d = false →
  invalid_option_issue task_name d = None.
Proof. intros Ha Hd. unfold invalid_option_issue. simpl. by rewrite Ha, Hd. Qed.

Lemma validate_cases_accepts task_name items cases :
  Forall (λ d, Forall (λ k, hashable k = true) (get_case_keys d)) items →
  Forall (case_accepted task_name) items →
  validate_cases validate_def task_name (List.map PDict items) cases
  = Return (None, foldl (λ c k, count_key k c) cases (case_keys_of items)).
Proof.
  intros Hshape Hok. revert cases.
  induction Hshape as [|d items Hd _ IH]; intros cases; [done|].
  apply Forall_cons in Hok as [(Ha & Hdeps & Hrep) Hok]. simpl.
  rewrite (count_keys_returns _ _ Hd). unfold_result.
  rewrite (invalid_option_issue_clean _ _ Ha Hdeps), Hrep, (IH Hok).
  unfold case_keys_of. simpl. by rewrite foldl_app.
Qed.

Lemma validate_cases_None task_name items cases cases' :
  validate_cases validate_def task_name (List.map PDict items) cases
  = Return (None, cases') →
  Forall (case_accepted task_name) items.
Proof.
  revert cases. induction items as [|d items IH]; intros cases; simpl; [by constructor|].
  unfold_result. destruct (count_keys _ cases) as [counts|]; [|done].
  destruct (invalid_option_issue task_name d) eqn:Hinv; [done|].
  destruct (reported _) eqn:Hrep.
  { intros [= Hissue _]. rewrite Hissue in Hrep. done. }
  intros Hrest. constructor; [|by eapply IH].
  destruct (invalid_option_issue_None _ _ Hinv). by repeat split.
Qed.

(** X26: on a switch definition whose [switch] entry is a list of case
    mappings with scalar case values, validation never raises, and it
    returns [None] exactly when the control task is fit, every case is
    fit, no case value is declared twice, and a [default] option, if
    present, is ["pass"] or ["fail"] with no default case beside it. *)
Theorem switch_validation_accepts task_name task_def items :
  dict_get "switch" task_def = Some (PList (List.map PDict items)) →
  Forall (λ d, Forall (λ k, hashable k = true) (get_case_keys d)) items →
  (validate_task_def task_name task_def = Return None
   ↔ control_accepted task_name task_def
     ∧ Forall (case_accepted task_name) items
     ∧ (∀ k, (occurrences k (case_keys_of items) ≤ 1)%nat)
     ∧ default_accepted task_def items)
  ∧ ∃ issue, validate_task_def task_name task_def = Return issue.
Proof.
  intros Hswitch Hshape.
  destruct (validate_cases_returns validate_def task_name items [] Hshape)
    as (issue & cases & Hcases & Hnone).
  assert (issue = None → counted cases
                         ∧ ∀ k, count_of k cases = occurrences k (case_keys_of items))
    as Hcounts.
  { intros Hi. destruct (Hnone Hi) as [-> _]. split.
    - apply counted_foldl; [|done]. unfold case_keys_of.
      apply Forall_concat, Forall_forall. intros keys Hin.
      apply list_elem_of_In, in_map_iff in Hin as (d & <- & Hd).
      rewrite Forall_forall in Hshape. by apply Hshape, list_elem_of_In.
    - intros k. by rewrite count_of_foldl. }
  split; [split|].
  - intros Hv. unfold _validate_task_def in Hv.
    destruct (truthy (dict_get_default task_def "control" PNone)) eqn:Htruthy;
      simpl in Hv; [|done].
    match type of Hv with (if ?c then _ else _) = _ =>
      destruct c eqn:Hallowed; [done|] end.
    destruct (reported _) eqn:Hrep in Hv.
    { injection Hv as Hv. rewrite Hv in Hrep. done. }
    unfold_result. unfold getitem in Hv. rewrite Hswitch in Hv. simpl in Hv.
    rewrite Hcases in Hv. destruct issue as [msg|]; [done|].
    destruct (Hcounts eq_refl) as [Hcounted Hcount].
    destruct (repeated_case_issue task_name cases) eqn:Hrepeat; [done|].
    split; [split; [done|split; [|done]] | split; [|split]].
    + intros c Hc. rewrite Hc in Hallowed. apply negb_false_iff in Hallowed.
      apply (existsb_exists (fun key => dict_has key c) allowed_control_task_types)
        in Hallowed as (key & Hin & Hhas).
      exists key. split; [by apply list_elem_of_In | done].
    + by apply (validate_cases_None task_name items [] cases).
    + intros k. rewrite <- Hcount. by eapply repeated_case_issue_None.
    + intros default Hdef. rewrite Hdef in Hv.
      change (eq_scalar default (PStr "pass")
              || (eq_scalar default (PStr "fail") || false))
        with (in_tuple default [PStr "pass"; PStr "fail"]) in Hv.
      destruct (in_tuple default [PStr "pass"; PStr "fail"]) eqn:Hin;
        simpl in Hv; [|done].
      split; [by apply pass_or_fail|].
      destruct (keyed_get (PStr DEFAULT_CASE) cases) as [n|] eqn:Hk; [done|].
      rewrite <- Hcount. unfold count_of. by rewrite Hk.
  - intros ((Htruthy & Hallowed & Hrep) & Hok & Hunique & Hdefault).
    unfold _validate_task_def. rewrite Htruthy. cbn [negb].
    assert (match dict_get_default task_def "control" PNone with
            | PDict c =>
                negb (existsb (fun key => dict_has key c) allowed_control_task_types)
            | _ => false
            end = false) as ->.
    { destruct (dict_get_default task_def "control" PNone) as [| | | | |c|]; try done.
      destruct (Hallowed c eq_refl) as (key & Hin & Hhas).
      apply negb_false_iff, existsb_exists. exists key.
      split; [by apply list_elem_of_In | done]. }
    rewrite Hrep. unfold_result. unfold getitem. rewrite Hswitch. simpl.
    rewrite (validate_cases_accepts task_name items [] Hshape Hok).
    assert (counted (foldl (λ c k, count_key k c) [] (case_keys_of items))
            ∧ ∀ k, count_of k (foldl (λ c k, count_key k c) [] (case_keys_of items))
                   = occurrences k (case_keys_of items)) as [Hcounted Hcount].
    { rewrite (validate_cases_accepts task_name items [] Hshape Hok) in Hcases.
      injection Hcases as <- <-. by apply Hcounts. }
    rewrite no_repeated_case; [|done|by intros k; rewrite Hcount].
    destruct (dict_get "default" task_def) as [v|] eqn:Hdef; [|done].
    destruct (Hdefault v Hdef) as [Hv Hnodefault].
    apply pass_or_fail in Hv.
    change (eq_scalar v (PStr "pass") || (eq_scalar v (PStr "fail") || false))
      with (in_tuple v [PStr "pass"; PStr "fail"]).
    rewrite Hv. cbn [negb].
    destruct (keyed_get (PStr DEFAULT_CASE) _) as [n|] eqn:Hk; [|done].
    pose proof (counted_positive _ _ _ Hcounted Hk) as Hn.
    specialize (Hcount (PStr DEFAULT_CASE)). unfold count_of in Hcount.
    rewrite Hk, Hnodefault in Hcount. simpl in Hcount. lia.
  - unfold _validate_task_def.
    destruct (negb _); [by eexists|].
    match goal with |- context [if ?c then Return (Some ?m) else _] =>
      destruct c; [by eexists|] end.
    destruct (reported _); [by eexists|].
    unfold_result. unfold getitem. rewrite Hswitch. simpl. rewrite Hcases.
    destruct issue; [by eexists|].
    destruct (repeated_case_issue task_name cases); [by eexists|].
    destruct (dict_get "default" task_def); [|by eexists].
    destruct (negb _); [by eexists|].
    destruct (keyed_get _ cases); by eexists.
Qed.
End ValidationMore.

(** A switch on the output of [echo a] with the cases [a] and [[b, c]]
    and [default = "pass"], under a registry that lets every definition
    pass. *)
Module SampleValidation.
Definition validate_def (_ : string) (_ : pyval) (_ : bool) (_ : list string)
  : option string := None.

Definition case_a : list (string * pyval) :=
  [("case", PStr "a"); ("cmd", PStr "echo 1")].

Definition case_bc : list (string * pyval) :=
  [("case", PList [PStr "b"; PStr "c"]); ("cmd", PStr "echo 2")].

Definition pick_def : list (string * pyval) :=
  [("control", PStr "echo a");
   ("switch", PList [PDict case_a; PDict case_bc]);
   ("default", PStr "pass")].
End SampleValidation.

Lemma switch_validation_accepts_witness :
  (_validate_task_def SampleValidation.validate_def "pick" SampleValidation.pick_def
   = Return None
   ↔ control_accepted SampleValidation.validate_def "pick" SampleValidation.pick_def
     ∧ Forall (case_accepted SampleValidation.validate_def "pick")
         [SampleValidation.case_a; SampleValidation.case_bc]
     ∧ (∀ k, (occurrences k (case_keys_of [SampleValidation.case_a;
                                            SampleValidation.case_bc]) ≤ 1)%nat)
     ∧ default_accepted SampleValidation.pick_def
         [SampleValidation.case_a; SampleValidation.case_bc])
  ∧ ∃ issue,
      _validate_task_def SampleValidation.validate_def "pick" SampleValidation.pick_def
      = Return issue.
Proof.
  apply (switch_validation_accepts SampleValidation.validate_def "pick"
           SampleValidation.pick_def
           [SampleValidation.case_a; SampleValidation.case_bc] eq_refl).
  repeat constructor.
Defined.

(** *** Specs *)

Section SpecsMore.
Context {task_cls task_spec : Type}
        (base_init : string → list (string * pyval) → task_cls
                     → result (string * PoeOptions))
        (resolve_task_type : task_cls → pyval → option pyval → result pyval)
        (resolve_task_cls : task_cls → pyval → result task_cls)
        (get_task_spec : task_cls → string → child_def → result task_spec).

Abbreviation build :=
  (build_cases resolve_task_type resolve_task_cls get_task_spec).

(** The first case ends the loop: whatever the resolvers do, nothing is
    stored under the list of its keys. *)
Lemma build_cases_raises task_type name switch_args index item rest cases :
  ∃ err, build task_type name switch_args index (item :: rest) cases = Raise err.
Proof.
  simpl. unfold_result.
  destruct (resolve_task_type task_type item None) as [type_key|]; [|by eexists].
  destruct (resolve_task_cls task_type type_key) as [cls|]; [|by eexists].
  destruct (if truthy switch_args then _ else _) as [case_def|]; [|by eexists].
  destruct (get_task_spec cls _ case_def) as [case_spec|]; [|by eexists].
  destruct case_def as [[| | | | | |]|]; by eexists.
Qed.

Lemma build_cases_returns task_type name switch_args index items cases cases' :
  build task_type name switch_args index items cases = Return cases' →
  items = [] ∧ cases' = cases.
Proof.
  destruct items as [|item rest].
  - by intros [= <-].
  - destruct (build_cases_raises task_type name switch_args index item rest cases)
      as [err ->]. done.
Qed.

(** X27: a switch spec is only ever built for a definition without
    cases.  The constructor stores each case under the value of
    [get_case_keys], a list, which no dict takes as a key: with a first
    case that is a mapping and collaborators that all return, the store
    raises a type error, and whatever the collaborators do, a definition
    with at least one case makes the constructor raise. *)
Theorem switch_spec_without_cases name task_def task_type :
  (∀ sp,
      TaskSpec_init base_init resolve_task_type resolve_task_cls get_task_spec
        name task_def task_type = Return sp →
      ∃ switch, dict_get "switch" task_def = Some switch
                ∧ iterate switch = Return []
                ∧ case_specs sp = [])
  ∧ (∀ switch item rest,
        dict_get "switch" task_def = Some switch →
        iterate switch = Return (item :: rest) →
        ∃ err,
          TaskSpec_init base_init resolve_task_type resolve_task_cls get_task_spec
            name task_def task_type = Raise err)
  ∧ (∀ d rest type_key cls case_spec index cases,
        let switch_args := dict_get_default task_def "args" PNone in
        let case_def :=
          if truthy switch_args then PDict (dict_set "args" switch_args d)
          else PDict d in
        resolve_task_type task_type (PDict d) None = Return type_key →
        resolve_task_cls task_type type_key = Return cls →
        get_task_spec cls (name +:+ "[" +:+ pretty index +:+ "]") (Declared case_def)
        = Return case_spec →
        build task_type name switch_args index (PDict d :: rest) cases
        = Raise (TypeError "unhashable type")).
Proof.
  split; [|split].
  - intros sp. unfold TaskSpec_init. unfold_result.
    destruct (base_init name task_def task_type) as [[n opts]|]; [|done].
    destruct (getitem (PDict task_def) "control") as [control|]; [|done].
    destruct (resolve_task_type task_type control None) as [control_key|]; [|done].
    destruct (resolve_task_cls task_type control_key) as [control_cls|]; [|done].
    destruct (match control with PDict _ => _ | _ => _ end) as [control_def|]; [|done].
    destruct (if truthy _ then _ else _) as [control_def'|]; [|done].
    destruct (get_task_spec control_cls _ control_def') as [control_spec|]; [|done].
    unfold getitem.
    destruct (dict_get "switch" task_def) as [switch|] eqn:Hswitch; [|done].
    destruct (iterate switch) as [items|] eqn:Hitems; [|done].
    destruct (build _ _ _ _ items []) as [cases|] eqn:Hbuild; [|done].
    apply build_cases_returns in Hbuild as [-> ->].
    intros [= <-]. by exists switch.
  - intros switch item rest Hswitch Hitems. unfold TaskSpec_init. unfold_result.
    destruct (base_init name task_def task_type) as [[n opts]|]; [|by eexists].
    destruct (getitem (PDict task_def) "control") as [control|]; [|by eexists].
    destruct (resolve_task_type task_type control None) as [control_key|];
      [|by eexists].
    destruct (resolve_task_cls task_type control_key) as [control_cls|]; [|by eexists].
    destruct (match control with PDict _ => _ | _ => _ end) as [control_def|];
      [|by eexists].
    destruct (if truthy _ then _ else _) as [control_def'|]; [|by eexists].
    destruct (get_task_spec control_cls _ control_def') as [control_spec|];
      [|by eexists].
    unfold getitem. rewrite Hswitch, Hitems.
    destruct (build_cases_raises task_type name
                (dict_get_default task_def "args" PNone) 0 item rest [])
      as [err ->].
    by eexists.
  - intros d rest type_key cls case_spec index cases switch_args case_def
           Hkey Hcls Hspec.
    simpl. unfold_result. rewrite Hkey, Hcls. subst case_def.
    destruct (truthy switch_args); simpl; by rewrite Hspec.
Qed.
End SpecsMore.

End SwitchMore.
